(** * Shipments ETL: a shallow embedding of [etl_script.py]

    The script reads [shipments.csv] into a pandas DataFrame, validates
    and normalises it, and upserts every row into the PostgreSQL table
    [warehouse.shipments], after having provisioned the database, the
    schema and the table.

    The embedding follows the script function by function.  Python
    exceptions are an explicit [result]; the interpreter state (the
    DataFrame objects, the psycopg2 connections and cursors, the log)
    and the PostgreSQL cluster are one [world] threaded through a
    state-and-exception monad [M].  What the script takes from outside
    (the process environment, the CSV file, the parser of numerals used
    by pandas, the server's login decision and input conversion, the
    clock) is collected in the class [Env].

    pandas, psycopg2 and PostgreSQL are not part of the script: the
    operations the script calls are modelled after their documented
    behaviour, as far as the script can observe it (the selection of a
    repeated label, the coercion of cells, autocommit and transactions,
    IF NOT EXISTS, ON CONFLICT DO UPDATE, CHECK and PRIMARY KEY). *)

From Stdlib Require Import ZArith String List Bool Lia.
From stdpp Require Import base tactics option list gmap strings pretty.

Local Open Scope string_scope.
Local Open Scope list_scope.

(** ** Python exceptions *)

Inductive exn :=
  | AssertionError (msg : string)
  | KeyError (key : string)
  | TypeError (msg : string)
  | AttributeError (msg : string)
  | UnboundLocalError (var : string)
  | OSError (msg : string)
  | Psycopg2Error (msg : string).

(** [str(e)] *)
Definition str (e : exn) : string :=
  match e with
  | AssertionError msg => msg
  | KeyError key => "'" +:+ key +:+ "'"
  | TypeError msg => msg
  | AttributeError msg => msg
  | UnboundLocalError var =>
      "cannot access local variable '" +:+ var +:+
      "' where it is not associated with a value"
  | OSError msg => msg
  | Psycopg2Error msg => msg
  end.

(** [isinstance(e, psycopg2.Error)] *)
Definition is_psycopg2_error (e : exn) : bool :=
  match e with Psycopg2Error _ => true | _ => false end.

Inductive result (A : Type) :=
  | Ok (a : A)
  | Raise (e : exn).
Arguments Ok {A} a.
Arguments Raise {A} e.

(** ** Tabular data (pandas) *)

(** A cell: a number, a text, or the missing marker (NaN).  The table's
    numeric columns are INTEGER, numbers are modelled as integers. *)
Inductive value :=
  | VInt (z : Z)
  | VStr (s : string)
  | VNull.

#[global] Instance value_eq_dec : EqDecision value.
Proof. solve_decision. Defined.

Definition Series := list value.

(** A DataFrame: its number of rows and its columns in order, each a
    label and a Series.  Labels may repeat: pandas allows it, and a
    renaming can make two labels one.  The frames [read_csv] makes have
    distinct labels (repeated headers become [X], [X.1], ...), which is
    [NoDup (columns df)] where a property needs it. *)
Record DataFrame := mkDataFrame {
  nrows : nat;
  series : list (string * Series)
}.

(** [df.columns] *)
Definition columns (df : DataFrame) : list string := (series df).*1.

(** ** The PostgreSQL cluster *)

Inductive coltype := TInteger | TVarchar (n : nat) | TTimestamp.

Inductive check :=
  | CheckBetween (lo hi : Z)
  | CheckIn (allowed : list Z).

Inductive default_expr := CurrentTimestamp.

Record column := mkColumn {
  col_name : string;
  col_type : coltype;
  col_check : option check;
  col_default : option default_expr
}.

Record table_def := mkTableDef {
  tcolumns : list column;
  tpkey : string
}.

(** A stored row maps every column of the table to its value. *)
Record table := mkTable {
  tdef : table_def;
  trows : gmap Z (gmap string value)
}.

Record database := mkDatabase {
  schemas : gset string;
  tables : gmap (string * string) table
}.

(** ** psycopg2 objects *)

Inductive txn_state :=
  | Idle
  | InTxn (d : database)
  | Aborted.

Record connection := mkConnection {
  conn_db : string;
  conn_open : bool;
  autocommit : bool;
  txn : txn_state
}.

Record cursor := mkCursor {
  cur_conn : nat;
  cur_open : bool;
  cur_result : option (list (list value))
}.

(** The local variables [conn] and [cur] of the running function. *)
Record frame := mkFrame {
  local_conn : option nat;
  local_cur : option nat
}.

(** ** The world *)

Record world := mkWorld {
  heap : list DataFrame;
  cluster : gmap string database;
  conns : list connection;
  cursors : list cursor;
  locals : frame;
  log : list (string * string)
}.

Definition set_heap (h : list DataFrame) (w : world) : world :=
  mkWorld h (cluster w) (conns w) (cursors w) (locals w) (log w).
Definition set_cluster (c : gmap string database) (w : world) : world :=
  mkWorld (heap w) c (conns w) (cursors w) (locals w) (log w).
Definition set_conns (cs : list connection) (w : world) : world :=
  mkWorld (heap w) (cluster w) cs (cursors w) (locals w) (log w).
Definition set_cursors (cs : list cursor) (w : world) : world :=
  mkWorld (heap w) (cluster w) (conns w) cs (locals w) (log w).
Definition set_locals (f : frame) (w : world) : world :=
  mkWorld (heap w) (cluster w) (conns w) (cursors w) f (log w).
Definition set_log (l : list (string * string)) (w : world) : world :=
  mkWorld (heap w) (cluster w) (conns w) (cursors w) (locals w) l.

(** ** The monad of the script: state and exceptions *)

Definition M (A : Type) : Type := world → result A * world.

#[global] Instance M_ret : MRet M := λ A a w, (Ok a, w).
#[global] Instance M_bind : MBind M := λ A B k m w,
  match m w with
  | (Ok a, w') => k a w'
  | (Raise e, w') => (Raise e, w')
  end.

Definition raise {A} (e : exn) : M A := λ w, (Raise e, w).

(** A pure computation that may raise, run inside [M]. *)
Definition lift {A} (r : result A) : M A := λ w, (r, w).

(** [try: body  except Exception as e: handler e] *)
Definition try_except {A} (body : M A) (handler : exn → M A) : M A := λ w,
  match body w with
  | (Ok a, w') => (Ok a, w')
  | (Raise e, w') => handler e w'
  end.

(** [try: body  except <class> as e: handler e], for a class given by
    its membership test. *)
Definition try_except_if {A} (class : exn → bool) (body : M A)
    (handler : exn → M A) : M A :=
  try_except body (λ e, if class e then handler e else raise e).

(** [try: body  finally: cleanup]: the cleanup runs on every exit of
    the body; an exception of the cleanup replaces the body's outcome. *)
Definition try_finally {A} (body : M A) (cleanup : M unit) : M A := λ w,
  match body w with
  | (r, w') =>
      match cleanup w' with
      | (Ok _, w'') => (r, w'')
      | (Raise e, w'') => (Raise e, w'')
      end
  end.

(** [for x in xs: body x] *)
Fixpoint for_each {A} (xs : list A) (body : A → M unit) : M unit :=
  match xs with
  | [] => mret tt
  | x :: xs' => body x;; for_each xs' body
  end.

(** [assert cond, msg] *)
Definition py_assert (cond : bool) (msg : string) : M unit :=
  if cond then mret tt else raise (AssertionError msg).

(** [logging.info], [logging.error] *)
Definition logging_info (msg : string) : M unit := λ w,
  (Ok tt, set_log (log w ++ [("INFO", msg)]) w).
Definition logging_error (msg : string) : M unit := λ w,
  (Ok tt, set_log (log w ++ [("ERROR", msg)]) w).

(** ** The environment of a run *)

Class Env := mkEnv {
  (** [os.environ] once [load_dotenv()] has run *)
  environ : gmap string string;
  (** the numeral parser behind [pd.to_numeric] *)
  parse_numeric : string → option Z;
  (** what [pd.read_csv] makes of a path *)
  csv_files : string → result DataFrame;
  (** whether the server accepts a connection with these parameters *)
  pg_login : list (string * string) → bool;
  (** the server's conversion of a parameter to a column type
      ([None]: the statement fails) *)
  pg_assign : coltype → value → option value;
  (** CURRENT_TIMESTAMP *)
  now : Z
}.

(** ** pandas, on values *)

Module pd.

(** What [df[key]] evaluates to: a Series when one column bears the
    label, a DataFrame when several do. *)
Inductive selection :=
  | ASeries (s : Series)
  | AFrame (cols : list (string * Series)).

Definition labelled (key : string) (c : string * Series) : bool :=
  bool_decide (c.1 = key).

(** [df[key]] *)
Definition getitem (df : DataFrame) (key : string) : result selection :=
  match List.filter (labelled key) (series df) with
  | [] => Raise (KeyError key)
  | [c] => Ok (ASeries c.2)
  | cs => Ok (AFrame cs)
  end.

Definition is_text (v : value) : bool :=
  match v with VStr _ => true | _ => false end.

Definition cell_between (lo hi : Z) (v : value) : bool :=
  match v with
  | VInt z => (lo <=? z)%Z && (z <=? hi)%Z
  | _ => false
  end.

(** [s.between(lo, hi)]: [(s >= lo) & (s <= hi)].  Comparing a text
    cell with a number raises; a missing cell compares false. *)
Definition between (lo hi : Z) (s : Series) : result (list bool) :=
  if existsb is_text s
  then Raise (TypeError "'>=' not supported between instances of 'str' and 'int'")
  else Ok (map (cell_between lo hi) s).

Definition cell_isin (allowed : list Z) (v : value) : bool :=
  match v with
  | VInt z => bool_decide (z ∈ allowed)
  | _ => false
  end.

(** [s.isin(allowed)] *)
Definition isin (allowed : list Z) (s : Series) : list bool :=
  map (cell_isin allowed) s.

(** [.all()] *)
Definition all (bs : list bool) : bool := forallb id bs.

(** One cell under [pd.to_numeric(_, errors='coerce')]. *)
Definition coerce `{Env} (v : value) : value :=
  match v with
  | VInt z => VInt z
  | VStr s => match parse_numeric s with Some z => VInt z | None => VNull end
  | VNull => VNull
  end.

(** [pd.to_numeric(arg, errors='coerce')]: only one-dimensional
    arguments are accepted. *)
Definition to_numeric `{Env} (arg : selection) : result Series :=
  match arg with
  | ASeries s => Ok (map coerce s)
  | AFrame _ => Raise (TypeError "arg must be a list, tuple, 1-d array, or Series")
  end.

(** [mapping.get(label, label)] *)
Fixpoint renamed (mapping : list (string * string)) (label : string) : string :=
  match mapping with
  | [] => label
  | (k, v) :: mapping' => if bool_decide (k = label) then v else renamed mapping' label
  end.

(** [df.rename(columns=mapping)] *)
Definition rename (mapping : list (string * string)) (df : DataFrame) : DataFrame :=
  mkDataFrame (nrows df) (map (λ c, (renamed mapping c.1, c.2)) (series df)).

(** [df[key] = s]: every column labelled [key] takes [s]; a new
    column is appended when there is none. *)
Definition setitem (key : string) (s : Series) (df : DataFrame) : DataFrame :=
  if existsb (labelled key) (series df)
  then mkDataFrame (nrows df)
         (map (λ c, if labelled key c then (c.1, s) else c) (series df))
  else mkDataFrame (nrows df) (series df ++ [(key, s)]).

Fixpoint fill_value (fills : list (string * value)) (label : string) : option value :=
  match fills with
  | [] => None
  | (k, v) :: fills' => if bool_decide (k = label) then Some v else fill_value fills' label
  end.

Definition fill_cell (fill : value) (v : value) : value :=
  match v with VNull => fill | _ => v end.

(** [df.fillna(fills)] for a dict [fills] from labels to values *)
Definition fillna (fills : list (string * value)) (df : DataFrame) : DataFrame :=
  mkDataFrame (nrows df)
    (map (λ c, match fill_value fills c.1 with
               | Some fill => (c.1, map (fill_cell fill) c.2)
               | None => c
               end) (series df)).

(** [df.values.tolist()]: one list per row. *)
Definition row (df : DataFrame) (i : nat) : list value :=
  map (λ c, default VNull (c.2 !! i)) (series df).
Definition values_tolist (df : DataFrame) : list (list value) :=
  map (row df) (seq 0 (nrows df)).

End pd.

(** ** DataFrame objects on the heap *)

(** Reading the object behind a reference.  References are only made by
    allocation, the error case is never met by the script. *)
Definition deref (r : nat) : M DataFrame := λ w,
  match heap w !! r with
  | Some d => (Ok d, w)
  | None => (Raise (KeyError "dangling reference"), w)
  end.

Definition alloc (d : DataFrame) : M nat := λ w,
  (Ok (length (heap w)), set_heap (heap w ++ [d]) w).

Definition store (r : nat) (d : DataFrame) : M unit := λ w,
  (Ok tt, set_heap (<[r := d]> (heap w)) w).

(** [df.columns] *)
Definition df_columns (df : nat) : M (list string) :=
  d ← deref df; mret (columns d).

(** [df[key]] *)
Definition df_getitem (df : nat) (key : string) : M pd.selection :=
  d ← deref df; lift (pd.getitem d key).

(** [df.copy()]: a new object with the same contents *)
Definition df_copy (df : nat) : M nat :=
  d ← deref df; alloc d.

(** [df.rename(columns=mapping, inplace=True)] *)
Definition df_rename_inplace (df : nat) (mapping : list (string * string)) : M unit :=
  d ← deref df; store df (pd.rename mapping d).

(** [df[key] = s] *)
Definition df_setitem (df : nat) (key : string) (s : Series) : M unit :=
  d ← deref df; store df (pd.setitem key s d).

(** [df.fillna(fills)]: the result is a new object *)
Definition df_fillna (df : nat) (fills : list (string * value)) : M nat :=
  d ← deref df; alloc (pd.fillna fills d).

(** [x.between(lo, hi)]: a DataFrame has no such method. *)
Definition between (x : pd.selection) (lo hi : Z) : M (list bool) :=
  match x with
  | pd.ASeries s => lift (pd.between lo hi s)
  | pd.AFrame _ => raise (AttributeError "'DataFrame' object has no attribute 'between'")
  end.

(** [x.isin(allowed).all()] used as a truth value: on a DataFrame the
    result is a Series, whose truth value is ambiguous. *)
Definition isin_all (x : pd.selection) (allowed : list Z) : M bool :=
  match x with
  | pd.ASeries s => mret (pd.all (pd.isin allowed s))
  | pd.AFrame _ => raise (TypeError "The truth value of a Series is ambiguous")
  end.

(** ** Validation and transformation *)

Definition required_columns : list string :=
  [ "ID"; "Warehouse_block"; "Mode_of_Shipment"; "Customer_care_calls";
    "Customer_rating"; "Cost_of_the_Product"; "Prior_purchases";
    "Product_importance"; "Gender"; "Discount_offered"; "Weight_in_gms";
    "Reached.on.Time_Y.N" ].

Definition validate_data (df : nat) : M bool :=
  cols ← df_columns df;
  py_assert (forallb (λ col, bool_decide (col ∈ cols)) required_columns)
    "Missing required columns";;
  rating ← df_getitem df "Customer_rating";
  in_range ← between rating 1 5;
  py_assert (pd.all in_range) "Invalid customer ratings";;
  flag ← df_getitem df "Reached.on.Time_Y.N";
  is_flag ← isin_all flag [0; 1]%Z;
  py_assert is_flag "Invalid reached on time values";;
  mret true.

Definition column_mapping : list (string * string) :=
  [ ("ID", "id");
    ("Warehouse_block", "warehouse_block");
    ("Mode_of_Shipment", "mode_of_shipment");
    ("Customer_care_calls", "customer_care_calls");
    ("Customer_rating", "customer_rating");
    ("Cost_of_the_Product", "cost_of_the_product");
    ("Prior_purchases", "prior_purchases");
    ("Product_importance", "product_importance");
    ("Gender", "gender");
    ("Discount_offered", "discount_offered");
    ("Weight_in_gms", "weight_in_gms");
    ("Reached.on.Time_Y.N", "reached_on_time") ].

Definition numeric_columns : list string :=
  [ "customer_care_calls"; "customer_rating"; "cost_of_the_product";
    "prior_purchases"; "discount_offered"; "weight_in_gms";
    "reached_on_time" ].

Definition fill_values : list (string * value) :=
  [ ("customer_care_calls", VInt 0);
    ("prior_purchases", VInt 0);
    ("discount_offered", VInt 0) ].

Definition transform_data `{Env} (df : nat) : M nat :=
  try_except
    (validate_data df;;
     df_transformed ← df_copy df;
     df_rename_inplace df_transformed column_mapping;;
     for_each numeric_columns (λ col,
       selected ← df_getitem df_transformed col;
       numeric ← lift (pd.to_numeric selected);
       df_setitem df_transformed col numeric);;
     df_transformed ← df_fillna df_transformed fill_values;
     logging_info "Data transformation completed successfully";;
     mret df_transformed)
    (λ e, logging_error ("Error in transform_data: " +:+ str e);; raise e).

(** ** SQL statements and their meaning *)

(** The INSERT ... ON CONFLICT statement of [load_data], by its parts:
    [INSERT INTO into (ins_columns) VALUES (%s, ... placeholders times)
     ON CONFLICT (conflict_target) DO UPDATE
     SET c = EXCLUDED.c for c in set_columns]. *)
Record upsert_query := mkUpsert {
  into : string * string;
  ins_columns : list string;
  placeholders : nat;
  conflict_target : string;
  set_columns : list string
}.

Inductive statement :=
  (** [SELECT 1 FROM pg_database WHERE datname = %s] *)
  | SelectDatabase (datname : string)
  | CreateDatabase (name : string)
  | CreateSchemaIfNotExists (name : string)
  | CreateTableIfNotExists (name : string * string) (def : table_def)
  | Upsert (q : upsert_query) (params : list value).

(** A database as CREATE DATABASE makes it. *)
Definition new_database : database := mkDatabase {["public"]} ∅.

Definition check_value (ck : check) (v : value) : bool :=
  match v with
  | VNull => true
  | VInt z =>
      match ck with
      | CheckBetween lo hi => (lo <=? z)%Z && (z <=? hi)%Z
      | CheckIn allowed => bool_decide (z ∈ allowed)
      end
  | VStr _ => false
  end.

(** The CHECK constraints of a table on a row. *)
Definition checks_hold (def : table_def) (r : gmap string value) : bool :=
  forallb (λ c, match col_check c with
                | Some ck => check_value ck (default VNull (r !! col_name c))
                | None => true
                end) (tcolumns def).

(** The parameter given for a column, if the statement names it. *)
Fixpoint param_of (cols : list string) (params : list value) (c : string)
    : option value :=
  match cols, params with
  | k :: cols', v :: params' =>
      if bool_decide (k = c) then Some v else param_of cols' params' c
  | _, _ => None
  end.

(** The row proposed for insertion: the converted parameter for a named
    column, the default (or NULL) for the others. *)
Fixpoint proposed_row `{Env} (cs : list column) (cols : list string)
    (params : list value) : result (gmap string value) :=
  match cs with
  | [] => Ok ∅
  | c :: cs' =>
      match proposed_row cs' cols params with
      | Raise e => Raise e
      | Ok r =>
          match param_of cols params (col_name c) with
          | Some v =>
              match pg_assign (col_type c) v with
              | Some v' => Ok (<[col_name c := v']> r)
              | None => Raise (Psycopg2Error "invalid input value")
              end
          | None =>
              match col_default c with
              | Some CurrentTimestamp => Ok (<[col_name c := VInt now]> r)
              | None => Ok (<[col_name c := VNull]> r)
              end
          end
      end
  end.

(** [SET c = EXCLUDED.c] for every [c] of [cs], on the stored row. *)
Definition assign_excluded (cs : list string) (excluded old : gmap string value)
    : gmap string value :=
  foldr (λ c r, <[c := default VNull (excluded !! c)]> r) old cs.

Definition column_names (def : table_def) : list string :=
  map col_name (tcolumns def).

(** One execution of the upsert on a table. *)
Definition upsert_row `{Env} (t : table) (q : upsert_query) (params : list value)
    : result table :=
  if negb (bool_decide (length params = placeholders q)) then
    Raise (TypeError "not all arguments converted during string formatting")
  else if bool_decide (set_columns q = []) then
    Raise (Psycopg2Error "syntax error at or near ;")
  else if negb (bool_decide (length (ins_columns q) = placeholders q)) then
    Raise (Psycopg2Error "INSERT has more expressions than target columns")
  else if negb (forallb (λ c, bool_decide (c ∈ column_names (tdef t)))
                  (ins_columns q ++ set_columns q)) then
    Raise (Psycopg2Error "column of relation does not exist")
  else if negb (bool_decide (NoDup (ins_columns q))) then
    Raise (Psycopg2Error "column specified more than once")
  else if negb (bool_decide (conflict_target q = tpkey (tdef t))) then
    Raise (Psycopg2Error "no unique constraint matching the ON CONFLICT specification")
  else
    match proposed_row (tcolumns (tdef t)) (ins_columns q) params with
    | Raise e => Raise e
    | Ok excluded =>
        match excluded !! tpkey (tdef t) with
        | Some (VInt k) =>
            if negb (checks_hold (tdef t) excluded) then
              Raise (Psycopg2Error "new row violates check constraint")
            else
              match trows t !! k with
              | None => Ok (mkTable (tdef t) (<[k := excluded]> (trows t)))
              | Some old =>
                  let new := assign_excluded (set_columns q) excluded old in
                  if negb (checks_hold (tdef t) new) then
                    Raise (Psycopg2Error "new row violates check constraint")
                  else Ok (mkTable (tdef t) (<[k := new]> (trows t)))
              end
        | _ => Raise (Psycopg2Error "null value in primary key violates not-null constraint")
        end
    end.

(** A statement on one database.  The two statements on the catalogue
    of databases are treated by [cur_execute]. *)
Definition run_statement `{Env} (d : database) (st : statement) : result database :=
  match st with
  | SelectDatabase _ => Ok d
  | CreateDatabase _ => Ok d
  | CreateSchemaIfNotExists name => Ok (mkDatabase ({[name]} ∪ schemas d) (tables d))
  | CreateTableIfNotExists name def =>
      if negb (bool_decide (name.1 ∈ schemas d)) then
        Raise (Psycopg2Error "schema does not exist")
      else
        match tables d !! name with
        | Some _ => Ok d
        | None => Ok (mkDatabase (schemas d) (<[name := mkTable def ∅]> (tables d)))
        end
  | Upsert q params =>
      match tables d !! into q with
      | None => Raise (Psycopg2Error "relation does not exist")
      | Some t =>
          match upsert_row t q params with
          | Raise e => Raise e
          | Ok t' => Ok (mkDatabase (schemas d) (<[into q := t']> (tables d)))
          end
      end
  end.

(** The rows a query returns, read from the committed catalogue. *)
Definition query_result (c : gmap string database) (st : statement)
    : option (list (list value)) :=
  match st with
  | SelectDatabase datname =>
      Some (if bool_decide (datname ∈ dom c) then [[VInt 1]] else [])
  | _ => None
  end.

(** ** psycopg2 *)

Definition with_txn (t : txn_state) (c : connection) : connection :=
  mkConnection (conn_db c) (conn_open c) (autocommit c) t.

(** The database a statement of connection [c] works on: the one of
    its open transaction, else the committed one. *)
Definition working_database (cl : gmap string database) (c : connection)
    : option database :=
  match txn c with
  | InTxn d => Some d
  | _ => cl !! conn_db c
  end.

(** The server's part of [cur.execute]: the outcome, with the cluster
    as it is committed afterwards, and the connection afterwards.  With
    autocommit every statement is committed at once; otherwise it works
    in the connection's transaction, which an error aborts. *)
Definition server_execute `{Env} (cl : gmap string database) (c : connection)
    (st : statement) : result (gmap string database) * connection :=
  if autocommit c then
    match st with
    | SelectDatabase _ => (Ok cl, c)
    | CreateDatabase name =>
        if bool_decide (name ∈ dom cl)
        then (Raise (Psycopg2Error "database already exists"), c)
        else (Ok (<[name := new_database]> cl), c)
    | _ =>
        match cl !! conn_db c with
        | None => (Raise (Psycopg2Error "database does not exist"), c)
        | Some d =>
            match run_statement d st with
            | Ok d' => (Ok (<[conn_db c := d']> cl), c)
            | Raise e => (Raise e, c)
            end
        end
    end
  else
    match txn c with
    | Aborted =>
        (Raise (Psycopg2Error "current transaction is aborted"), c)
    | _ =>
        match working_database cl c with
        | None => (Raise (Psycopg2Error "database does not exist"), c)
        | Some d =>
            match st with
            | CreateDatabase _ =>
                (Raise (Psycopg2Error "CREATE DATABASE cannot run inside a transaction block"),
                 with_txn Aborted c)
            | _ =>
                match run_statement d st with
                | Ok d' => (Ok cl, with_txn (InTxn d') c)
                | Raise e => (Raise e, with_txn Aborted c)
                end
            end
        end
    end.

(** [d.get(key)] for a dict written as the list of its items *)
Fixpoint dict_get {V} (d : list (string * V)) (key : string) : option V :=
  match d with
  | [] => None
  | (k, v) :: d' => if bool_decide (k = key) then Some v else dict_get d' key
  end.

(** [d[key]] for a key the dict is known to have *)
Definition item (d : list (string * string)) (key : string) : string :=
  default "" (dict_get d key).

(** [psycopg2.connect] with keyword arguments [kwargs]: the database is the one named by
    [dbname], by default the one named as the user. *)
Definition psycopg2_connect `{Env} (kwargs : list (string * string)) : M nat := λ w,
  if pg_login kwargs then
    let db := default (item kwargs "user") (dict_get kwargs "dbname") in
    match cluster w !! db with
    | Some _ =>
        (Ok (length (conns w)),
         set_conns (conns w ++ [mkConnection db true false Idle]) w)
    | None => (Raise (Psycopg2Error "database does not exist"), w)
    end
  else (Raise (Psycopg2Error "connection to server failed"), w).

(** An operation on an open connection; psycopg2 refuses a closed one. *)
Definition on_connection {A} (conn : nat)
    (op : connection → world → result A * world) : M A := λ w,
  match conns w !! conn with
  | Some c =>
      if conn_open c then op c w
      else (Raise (Psycopg2Error "connection already closed"), w)
  | None => (Raise (Psycopg2Error "connection already closed"), w)
  end.

(** [conn.autocommit = b] *)
Definition conn_set_autocommit (conn : nat) (b : bool) : M unit :=
  on_connection conn (λ c w,
    (Ok tt, set_conns (<[conn := mkConnection (conn_db c) true b (txn c)]> (conns w)) w)).

(** [conn.cursor()] *)
Definition conn_cursor (conn : nat) : M nat :=
  on_connection conn (λ c w,
    (Ok (length (cursors w)),
     set_cursors (cursors w ++ [mkCursor conn true None]) w)).

(** [conn.commit()] *)
Definition conn_commit (conn : nat) : M unit :=
  on_connection conn (λ c w,
    match txn c with
    | InTxn d =>
        (Ok tt, set_cluster (<[conn_db c := d]> (cluster w))
                  (set_conns (<[conn := with_txn Idle c]> (conns w)) w))
    | _ => (Ok tt, set_conns (<[conn := with_txn Idle c]> (conns w)) w)
    end).

(** [conn.rollback()] *)
Definition conn_rollback (conn : nat) : M unit :=
  on_connection conn (λ c w,
    (Ok tt, set_conns (<[conn := with_txn Idle c]> (conns w)) w)).

(** [conn.close()]: an open transaction is discarded. *)
Definition conn_close (conn : nat) : M unit := λ w,
  match conns w !! conn with
  | Some c =>
      (Ok tt, set_conns (<[conn := mkConnection (conn_db c) false (autocommit c) Idle]>
                           (conns w)) w)
  | None => (Ok tt, w)
  end.

(** [cur.close()] *)
Definition cur_close (cur : nat) : M unit := λ w,
  match cursors w !! cur with
  | Some k =>
      (Ok tt, set_cursors (<[cur := mkCursor (cur_conn k) false (cur_result k)]>
                             (cursors w)) w)
  | None => (Ok tt, w)
  end.

(** [cur.execute(st)] *)
Definition cur_execute `{Env} (cur : nat) (st : statement) : M unit := λ w,
  match cursors w !! cur with
  | Some k =>
      if cur_open k then
        on_connection (cur_conn k) (λ c w,
          match server_execute (cluster w) c st with
          | (Ok cl, c') =>
              (Ok tt,
               set_cursors (<[cur := mkCursor (cur_conn k) true (query_result (cluster w) st)]>
                              (cursors w))
                 (set_cluster cl (set_conns (<[cur_conn k := c']> (conns w)) w)))
          | (Raise e, c') =>
              (Raise e, set_conns (<[cur_conn k := c']> (conns w)) w)
          end) w
      else (Raise (Psycopg2Error "cursor already closed"), w)
  | None => (Raise (Psycopg2Error "cursor already closed"), w)
  end.

(** [cur.executemany(query, records)]: the statement is executed once
    for every record, in order. *)
Definition cur_executemany `{Env} (cur : nat) (query : upsert_query)
    (records : list (list value)) : M unit :=
  for_each records (λ record, cur_execute cur (Upsert query record)).

(** [cur.fetchone()] *)
Definition cur_fetchone (cur : nat) : M (option (list value)) := λ w,
  match cursors w !! cur with
  | Some k =>
      match cur_result k with
      | Some (r :: rest) =>
          (Ok (Some r),
           set_cursors (<[cur := mkCursor (cur_conn k) (cur_open k) (Some rest)]>
                          (cursors w)) w)
      | Some [] => (Ok None, w)
      | None => (Raise (Psycopg2Error "no results to fetch"), w)
      end
  | None => (Raise (Psycopg2Error "cursor already closed"), w)
  end.

(** ** Local variables *)

(** A call runs in a frame of its own, in which [conn] and [cur] are
    not yet bound. *)
Definition call {A} (body : M A) : M A := λ w,
  match body (set_locals (mkFrame None None) w) with
  | (r, w') => (r, set_locals (locals w) w')
  end.

(** [conn = e] and [cur = e]; the value stays at hand. *)
Definition bind_conn (c : nat) : M nat := λ w,
  (Ok c, set_locals (mkFrame (Some c) (local_cur (locals w))) w).
Definition bind_cur (c : nat) : M nat := λ w,
  (Ok c, set_locals (mkFrame (local_conn (locals w)) (Some c)) w).
Definition let_conn (e : M nat) : M nat := c ← e; bind_conn c.
Definition let_cur (e : M nat) : M nat := c ← e; bind_cur c.

(** Reading [conn] and [cur] where they may not have been bound. *)
Definition var_conn : M nat := λ w,
  match local_conn (locals w) with
  | Some c => (Ok c, w)
  | None => (Raise (UnboundLocalError "conn"), w)
  end.
Definition var_cur : M nat := λ w,
  match local_cur (locals w) with
  | Some c => (Ok c, w)
  | None => (Raise (UnboundLocalError "cur"), w)
  end.

(** ** Configuration and connection *)

(** [os.getenv(key, default)] *)
Definition getenv `{Env} (key fallback : string) : string :=
  default fallback (environ !! key).

Definition DB_CONFIG `{Env} : list (string * string) :=
  [ ("dbname", getenv "DB_NAME" "train");
    ("user", getenv "DB_USER" "postgre");
    ("password", getenv "DB_PASSWORD" "postgre");
    ("host", getenv "DB_HOST" "localhost");
    ("port", getenv "DB_PORT" "5432") ].

Definition get_connection `{Env} (database : string) : M nat :=
  try_except_if is_psycopg2_error
    (conn ← (if bool_decide (database = "postgres")
             then psycopg2_connect
                    [ ("dbname", "postgres");
                      ("user", item DB_CONFIG "user");
                      ("password", item DB_CONFIG "password");
                      ("host", item DB_CONFIG "host") ]
             else psycopg2_connect DB_CONFIG);
     mret conn)
    (λ e, logging_error ("Database connection failed: " +:+ str e);; raise e).

(** ** Provisioning *)

(** Python's truth of the row [fetchone] returns. *)
Definition truthy (r : option (list value)) : bool :=
  match r with Some (_ :: _) => true | _ => false end.

Definition create_database `{Env} : M unit :=
  call (try_finally
    (try_except
       (conn ← let_conn (get_connection "postgres");
        conn_set_autocommit conn true;;
        cur ← let_cur (conn_cursor conn);
        cur_execute cur (SelectDatabase (item DB_CONFIG "dbname"));;
        exists_ ← cur_fetchone cur;
        if negb (truthy exists_) then
          cur_execute cur (CreateDatabase (item DB_CONFIG "dbname"));;
          logging_info ("Database " +:+ item DB_CONFIG "dbname" +:+ " created successfully")
        else
          logging_info ("Database " +:+ item DB_CONFIG "dbname" +:+ " already exists"))
       (λ e, logging_error ("Error in create_database: " +:+ str e);; raise e))
    (cur ← var_cur; cur_close cur;;
     conn ← var_conn; conn_close conn)).

Definition create_schema `{Env} : M unit :=
  call (try_finally
    (try_except
       (conn ← let_conn (get_connection (item DB_CONFIG "dbname"));
        cur ← let_cur (conn_cursor conn);
        cur_execute cur (CreateSchemaIfNotExists "warehouse");;
        conn_commit conn;;
        logging_info "Schema 'warehouse' created successfully")
       (λ e, logging_error ("Error in create_schema: " +:+ str e);; raise e))
    (cur ← var_cur; cur_close cur;;
     conn ← var_conn; conn_close conn)).

(** The table of [create_table_query]. *)
Definition shipments_def : table_def :=
  mkTableDef
    [ mkColumn "id" TInteger None None;
      mkColumn "warehouse_block" (TVarchar 50) None None;
      mkColumn "mode_of_shipment" (TVarchar 50) None None;
      mkColumn "customer_care_calls" TInteger None None;
      mkColumn "customer_rating" TInteger (Some (CheckBetween 1 5)) None;
      mkColumn "cost_of_the_product" TInteger None None;
      mkColumn "prior_purchases" TInteger None None;
      mkColumn "product_importance" (TVarchar 50) None None;
      mkColumn "gender" (TVarchar 50) None None;
      mkColumn "discount_offered" TInteger None None;
      mkColumn "weight_in_gms" TInteger None None;
      mkColumn "reached_on_time" TInteger (Some (CheckIn [0; 1]%Z)) None;
      mkColumn "created_at" TTimestamp None (Some CurrentTimestamp) ]
    "id".

Definition shipments : string * string := ("warehouse", "shipments").

Definition create_table `{Env} : M unit :=
  call (try_finally
    (try_except
       (conn ← let_conn (get_connection (item DB_CONFIG "dbname"));
        cur ← let_cur (conn_cursor conn);
        let create_table_query := CreateTableIfNotExists shipments shipments_def in
        cur_execute cur create_table_query;;
        conn_commit conn;;
        logging_info "Table 'shipments' created successfully")
       (λ e, logging_error ("Error in create_table: " +:+ str e);; raise e))
    (cur ← var_cur; cur_close cur;;
     conn ← var_conn; conn_close conn)).

(** ** Loading *)

(** [df.values.tolist()] *)
Definition df_values_tolist (df : nat) : M (list (list value)) :=
  d ← deref df; mret (pd.values_tolist d).

Definition load_data `{Env} (df : nat) : M unit :=
  call (try_finally
    (try_except
       (conn ← let_conn (get_connection (item DB_CONFIG "dbname"));
        cur ← let_cur (conn_cursor conn);
        columns ← df_columns df;
        let values_placeholder := length columns in
        let insert_query :=
          mkUpsert shipments columns values_placeholder "id"
            (List.filter (λ col, negb (bool_decide (col = "id"))) columns) in
        records ← df_values_tolist df;
        cur_executemany cur insert_query records;;
        conn_commit conn;;
        logging_info ("Successfully loaded " +:+ pretty (length records) +:+
                      " records into the database"))
       (λ e, conn ← var_conn; conn_rollback conn;;
             logging_error ("Error in load_data: " +:+ str e);; raise e))
    (cur ← var_cur; cur_close cur;;
     conn ← var_conn; conn_close conn)).

(** ** The pipeline *)

(** [pd.read_csv(path)] *)
Definition pd_read_csv `{Env} (path : string) : M nat :=
  d ← lift (csv_files path); alloc d.

Definition main `{Env} : M unit :=
  try_except
    (create_database;;
     create_schema;;
     create_table;;
     df ← pd_read_csv "shipments.csv";
     logging_info "Data extracted from CSV successfully";;
     df_transformed ← transform_data df;
     load_data df_transformed;;
     logging_info "ETL process completed successfully")
    (λ e, logging_error ("ETL process failed: " +:+ str e);; raise e).

(** * Derived definitions *)

(** ** What validation computes *)

(** The outcome of [validate_data] as a function of the frame. *)
Definition validation (d : DataFrame) : result bool :=
  if negb (forallb (λ col, bool_decide (col ∈ columns d)) required_columns) then
    Raise (AssertionError "Missing required columns")
  else
    match pd.getitem d "Customer_rating" with
    | Raise e => Raise e
    | Ok (pd.AFrame _) =>
        Raise (AttributeError "'DataFrame' object has no attribute 'between'")
    | Ok (pd.ASeries rating) =>
        match pd.between 1 5 rating with
        | Raise e => Raise e
        | Ok in_range =>
            if negb (pd.all in_range) then
              Raise (AssertionError "Invalid customer ratings")
            else
              match pd.getitem d "Reached.on.Time_Y.N" with
              | Raise e => Raise e
              | Ok (pd.AFrame _) =>
                  Raise (TypeError "The truth value of a Series is ambiguous")
              | Ok (pd.ASeries flag) =>
                  if negb (pd.all (pd.isin [0; 1]%Z flag)) then
                    Raise (AssertionError "Invalid reached on time values")
                  else Ok true
              end
        end
    end.

(** ** What the transformation computes *)

(** The columns labelled in [cols] coerced to numbers. *)
Definition coerce_columns `{Env} (cols : list string) (d : DataFrame) : DataFrame :=
  mkDataFrame (nrows d)
    (map (λ c, if bool_decide (c.1 ∈ cols) then (c.1, map pd.coerce c.2) else c)
       (series d)).

(** The frame [transform_data] returns when it does not raise. *)
Definition transformed `{Env} (d : DataFrame) : DataFrame :=
  pd.fillna fill_values
    (coerce_columns numeric_columns (pd.rename column_mapping d)).

(** Exactly one column of [d] is labelled [key]. *)
Definition sole (d : DataFrame) (key : string) : Prop :=
  ∃ c, List.filter (pd.labelled key) (series d) = [c].


(** ** Value constraints of the validator *)

(** A rating within [1, 5]. *)
Definition in_rating_range (v : value) : Prop :=
  ∃ z, v = VInt z ∧ (1 ≤ z ≤ 5)%Z.

(** An on-time flag: 0 or 1. *)
Definition is_flag (v : value) : Prop :=
  v = VInt 0 ∨ v = VInt 1.

(** ** Connections and stored rows *)

(** The parameters [get_connection] passes to [psycopg2.connect]. *)
Definition connection_parameters `{Env} (database : string) : list (string * string) :=
  if bool_decide (database = "postgres")
  then [ ("dbname", "postgres");
         ("user", item DB_CONFIG "user");
         ("password", item DB_CONFIG "password");
         ("host", item DB_CONFIG "host") ]
  else DB_CONFIG.

(** The name of the target database. *)
Definition dbname `{Env} : string := item DB_CONFIG "dbname".

(** The database [get_connection] connects to. *)
Definition connected_database `{Env} (database : string) : string :=
  if bool_decide (database = "postgres") then "postgres" else dbname.

(** The database [create_table] leaves, from the one it finds. *)
Definition with_shipments (d : database) : database :=
  match tables d !! shipments with
  | Some _ => d
  | None => mkDatabase (schemas d) (<[shipments := mkTable shipments_def ∅]> (tables d))
  end.

(** The database the three provisioning steps leave, from the one
    they find. *)
Definition provisioned_database (d : database) : database :=
  with_shipments (mkDatabase ({["warehouse"]} ∪ schemas d) (tables d)).

(** The three provisioning steps, as [main] runs them. *)
Definition provision `{Env} : M unit :=
  create_database;; create_schema;; create_table.

(** The rows of a table of a database of the cluster; none when the
    table or the database is not there. *)
Definition stored_rows (cl : gmap string database) (db : string)
    (name : string * string) : gmap Z (gmap string value) :=
  match cl !! db with
  | Some d => match tables d !! name with
              | Some t => trows t
              | None => ∅
              end
  | None => ∅
  end.

(** No row of any table differs between two clusters. *)
Definition same_rows (cl cl' : gmap string database) : Prop :=
  ∀ db name, stored_rows cl' db name = stored_rows cl db name.

(** The connections opened since [w], in [w']: all closed. *)
Definition released (w w' : world) : Prop :=
  ∃ opened, conns w' = conns w ++ opened ∧
            Forall (λ c, conn_open c = false) opened.

(** ** Loading, on values *)

(** The statement [load_data] builds for the columns of a frame. *)
Definition insert_query_of (cols : list string) : upsert_query :=
  mkUpsert shipments cols (length cols) "id"
    (List.filter (λ col, negb (bool_decide (col = "id"))) cols).

(** What the server makes of [executemany] in one transaction: the
    upsert executed for every record in turn on the database of the
    transaction, up to the first that raises. *)
Fixpoint run_many `{Env} (q : upsert_query) (records : list (list value))
    (d : database) : result database :=
  match records with
  | [] => Ok d
  | record :: records' =>
      match run_statement d (Upsert q record) with
      | Ok d' => run_many q records' d'
      | Raise e => Raise e
      end
  end.

(** The state of the transaction after [executemany]. *)
Definition txn_after (t : txn_state) (records : list (list value))
    (outcome : result database) : txn_state :=
  match outcome with
  | Ok d => match records with [] => t | _ => InTxn d end
  | Raise _ => Aborted
  end.

(** The cluster after the commit that follows [executemany]. *)
Definition committed (cl : gmap string database) (db : string)
    (records : list (list value)) (d : database) : gmap string database :=
  match records with [] => cl | _ => <[db := d]> cl end.



(** The key under which a table files a record. *)
Definition record_key `{Env} (def : table_def) (cols : list string)
    (record : list value) : option Z :=
  match proposed_row (tcolumns def) cols record with
  | Ok excluded =>
      match excluded !! tpkey def with
      | Some (VInt k) => Some k
      | _ => None
      end
  | Raise _ => None
  end.

(** The row stored by an upsert, from the proposed row and the row
    there was under its key. *)
Definition upserted (q : upsert_query) (excluded : gmap string value)
    (old : option (gmap string value)) : gmap string value :=
  match old with
  | Some old => assign_excluded (set_columns q) excluded old
  | None => excluded
  end.

(** The upsert executed for every record in turn, on a table. *)
Fixpoint upsert_many `{Env} (t : table) (q : upsert_query)
    (records : list (list value)) : result table :=
  match records with
  | [] => Ok t
  | record :: records' =>
      match upsert_row t q record with
      | Ok t' => upsert_many t' q records'
      | Raise e => Raise e
      end
  end.

(** A table of a database of the cluster. *)
Definition table_at (cl : gmap string database) (db : string)
    (name : string * string) : option table :=
  match cl !! db with
  | Some d => tables d !! name
  | None => None
  end.



(** ** What a run leaves behind *)

(** The cursors opened since [w], in [w']: all closed. *)
Definition cursors_closed (w w' : world) : Prop :=
  ∃ opened, cursors w' = cursors w ++ opened ∧
            Forall (λ k, cur_open k = false) opened.

(** The connections and cursors opened since [w] are closed in [w'],
    and the local variables of the caller are as they were. *)
Definition settled (w w' : world) : Prop :=
  released w w' ∧ cursors_closed w w' ∧ locals w' = locals w.

(** Every database of [cl] is still in [cl'], with the schemas it had
    and with the tables it had, definitions and rows as they were. *)
Definition extends (cl cl' : gmap string database) : Prop :=
  ∀ db d, cl !! db = Some d →
    ∃ d', cl' !! db = Some d' ∧ schemas d ⊆ schemas d' ∧
          ∀ name t, tables d !! name = Some t → tables d' !! name = Some t.

(** * Sample data *)

Module sample.

(** A parser of unsigned decimal numerals. *)
Definition digit (a : Ascii.ascii) : option Z :=
  let n := Ascii.nat_of_ascii a in
  if (48 <=? n)%nat && (n <=? 57)%nat then Some (Z.of_nat (n - 48)) else None.

Fixpoint parse_digits (acc : Z) (s : string) : option Z :=
  match s with
  | EmptyString => Some acc
  | String a s' =>
      match digit a with
      | Some k => parse_digits (10 * acc + k) s'
      | None => None
      end
  end.

Definition parse_decimal (s : string) : option Z :=
  match s with
  | EmptyString => None
  | _ => parse_digits 0 s
  end.

(** A server that takes integers for INTEGER columns and short texts
    for VARCHAR columns, and nothing else. *)
Definition assign (t : coltype) (v : value) : option value :=
  match t, v with
  | TInteger, VInt z => Some (VInt z)
  | TVarchar n, VStr s => if (String.length s <=? n)%nat then Some (VStr s) else None
  | _, _ => None
  end.

(** A frame of two shipments, from the columns that vary. *)
Definition shipments_frame (calls cost discount weight rating flag : Series)
    (extra : list (string * Series)) : DataFrame :=
  mkDataFrame 2
    ([ ("ID", [VInt 1; VInt 2]);
       ("Warehouse_block", [VStr "A"; VStr "B"]);
       ("Mode_of_Shipment", [VStr "Ship"; VStr "Road"]);
       ("Customer_care_calls", calls);
       ("Customer_rating", rating);
       ("Cost_of_the_Product", cost);
       ("Prior_purchases", [VNull; VInt 2]);
       ("Product_importance", [VStr "low"; VStr "high"]);
       ("Gender", [VStr "F"; VStr "M"]);
       ("Discount_offered", discount);
       ("Weight_in_gms", weight);
       ("Reached.on.Time_Y.N", flag) ] ++ extra).

(** Valid, with cells that are not numbers. *)
Definition batch : DataFrame :=
  shipments_frame [VStr "x"; VInt 3] [VStr "n/a"; VInt 100] [VStr "12"; VInt 2]
    [VInt 1000; VStr "heavy"] [VInt 2; VInt 5] [VInt 1; VInt 0] [].

(** Valid, all numbers, and the same with other discounts. *)
Definition clean_batch : DataFrame :=
  shipments_frame [VInt 4; VInt 3] [VInt 177; VInt 100] [VInt 44; VInt 2]
    [VInt 1000; VInt 3088] [VInt 2; VInt 5] [VInt 1; VInt 0] [].

(** Valid; the weight of the second shipment is not a number. *)
Definition half_batch : DataFrame :=
  shipments_frame [VInt 4; VInt 3] [VInt 177; VInt 100] [VInt 44; VInt 2]
    [VInt 1000; VStr "heavy"] [VInt 2; VInt 5] [VInt 1; VInt 0] [].


(** Valid, with a thirteenth column labelled as a target column. *)
Definition batch_clash : DataFrame :=
  shipments_frame [VInt 4; VInt 3] [VInt 177; VInt 100] [VInt 44; VInt 2]
    [VInt 1000; VInt 3088] [VInt 2; VInt 5] [VInt 1; VInt 0]
    [("weight_in_gms", [VInt 1; VInt 3])].

(** A rating out of range. *)
Definition batch_bad_rating : DataFrame :=
  shipments_frame [VInt 4; VInt 3] [VInt 177; VInt 100] [VInt 44; VInt 2]
    [VInt 1000; VInt 3088] [VInt 2; VInt 9] [VInt 1; VInt 0] [].

(** Ratings in letters, and a flag that is neither 0 nor 1. *)
Definition batch_text_rating : DataFrame :=
  shipments_frame [VInt 4; VInt 3] [VInt 177; VInt 100] [VInt 44; VInt 2]
    [VInt 1000; VInt 3088] [VStr "two"; VStr "five"] [VInt 1; VInt 7] [].

(** No [Gender] column. *)
Definition batch_no_gender : DataFrame :=
  mkDataFrame 2 (List.filter (λ c, negb (bool_decide (c.1 = "Gender")))
                   (series clean_batch)).

(** One more shipment after those of [batch]. *)
Definition longer_batch : DataFrame :=
  mkDataFrame 3 (map (λ c, (c.1, c.2 ++ [VInt 1])) (series batch)).

Definition env (variables : list (string * string))
    (login : list (string * string) → bool) (csv : DataFrame) : Env :=
  mkEnv (list_to_map variables) parse_decimal
    (λ path, if bool_decide (path = "shipments.csv") then Ok csv
             else Raise (OSError "No such file or directory"))
    login assign 1700000000.

Definition anyone (kwargs : list (string * string)) : bool := true.
Definition nobody (kwargs : list (string * string)) : bool := false.

(** A server that listens on port 6543 only; a connection that names
    no port goes to 5432. *)
Definition on_port_6543 (kwargs : list (string * string)) : bool :=
  bool_decide (dict_get kwargs "port" = Some "6543").

(** A server as installed: the database [postgres] and no other. *)
Definition fresh : world :=
  mkWorld [] {["postgres" := new_database]} [] [] (mkFrame None None) [].

(** A server with the database [train] already made. *)
Definition with_train : world :=
  mkWorld [] (<["train" := new_database]> {["postgres" := new_database]})
    [] [] (mkFrame None None) [].

(** A server provisioned for the target database [train], and frames
    in memory. *)
Definition provisioned (frames : list DataFrame) : world :=
  mkWorld frames
    (<["train" := provisioned_database new_database]> {["postgres" := new_database]})
    [] [] (mkFrame None None) [].

(** Frames as [transform_data] returns them. *)
Definition ready : DataFrame :=
  @transformed (env [] anyone clean_batch) clean_batch.
Definition half_ready : DataFrame :=
  @transformed (env [] anyone clean_batch) half_batch.
Definition unready : DataFrame :=
  @transformed (env [] anyone clean_batch) batch.
Definition longer_unready : DataFrame :=
  @transformed (env [] anyone clean_batch) longer_batch.

(** The same, with a frame in memory. *)
Definition holding (d : DataFrame) : world :=
  mkWorld [d] {["postgres" := new_database]} [] [] (mkFrame None None) [].

(** A missing rating, and a flag that is neither 0 nor 1. *)
Definition batch_bad_both : DataFrame :=
  shipments_frame [VInt 4; VInt 3] [VInt 177; VInt 100] [VInt 44; VInt 2]
    [VInt 1000; VInt 3088] [VInt 2; VNull] [VInt 1; VInt 7] [].

(** The header of a file and no shipment. *)
Definition header_only : DataFrame :=
  mkDataFrame 0 (map (λ c, (c.1, [])) (series clean_batch)).

(** More frames as [transform_data] returns them. *)
Definition nothing_ready : DataFrame :=
  @transformed (env [] anyone clean_batch) header_only.

(** A server on which [train] has a table [warehouse.shipments] of an
    older make, with one row. *)
Definition legacy : table :=
  mkTable (mkTableDef [mkColumn "id" TInteger None None] "id")
    {[ 7%Z := {[ "id" := VInt 7 ]} ]}.
Definition with_legacy : world :=
  mkWorld []
    (<["train" := mkDatabase {["public"]} {[ shipments := legacy ]}]>
       {["postgres" := new_database]})
    [] [] (mkFrame None None) [].

End sample.

(** * Properties *)

(** ** Running the monad *)

Lemma run_bind {A B} (m : M A) (k : A → M B) (w : world) :
  (m ≫= k) w =
  match m w with
  | (Ok a, w') => k a w'
  | (Raise e, w') => (Raise e, w')
  end.
Proof. reflexivity. Qed.

Lemma run_deref (r : nat) (d : DataFrame) (w : world) :
  heap w !! r = Some d → deref r w = (Ok d, w).
Proof. intros Hr. unfold deref. by rewrite Hr. Qed.

(** ** Selecting a column *)

Lemma filter_labelled_absent (key : string) (cols : list (string * Series)) :
  key ∉ cols.*1 → List.filter (pd.labelled key) cols = [].
Proof.
  induction cols as [|[l s] cols IH]; intros Hnot; [done|].
  cbn in *. unfold pd.labelled at 1. cbn.
  apply not_elem_of_cons in Hnot as [Hne Hnot].
  rewrite bool_decide_eq_false_2 by done.
  by apply IH.
Qed.

Lemma filter_labelled_unique (key : string) (s : Series) (cols : list (string * Series)) :
  NoDup cols.*1 → (key, s) ∈ cols →
  List.filter (pd.labelled key) cols = [(key, s)].
Proof.
  induction cols as [|[l s'] cols IH]; intros Hnd Hin; [by apply elem_of_nil in Hin|].
  cbn in Hnd. apply NoDup_cons in Hnd as [Hl Hnd].
  apply elem_of_cons in Hin as [Heq|Hin].
  - inversion Heq; subst. cbn. unfold pd.labelled at 1. cbn.
    rewrite bool_decide_eq_true_2 by done.
    by rewrite filter_labelled_absent.
  - cbn. unfold pd.labelled at 1. cbn.
    rewrite bool_decide_eq_false_2.
    + by apply IH.
    + intros ->. apply Hl. apply list_elem_of_fmap. by exists (key, s).
Qed.

Lemma getitem_unique (d : DataFrame) (key : string) (s : Series) :
  NoDup (columns d) → (key, s) ∈ series d →
  pd.getitem d key = Ok (pd.ASeries s).
Proof.
  intros Hnd Hin. unfold pd.getitem.
  by rewrite (filter_labelled_unique key s).
Qed.

Lemma column_present (d : DataFrame) (key : string) :
  key ∈ columns d → ∃ s, (key, s) ∈ series d.
Proof.
  unfold columns. intros Hin. apply list_elem_of_fmap in Hin as [[l s] [-> Hin]].
  by exists s.
Qed.

(** Membership in a list written out. *)
Ltac in_list :=
  repeat first [apply list_elem_of_here | apply list_elem_of_further].

Ltac unfold_monad :=
  unfold py_assert, try_except_if, try_except, try_finally, lift, raise;
  unfold mbind, M_bind, mret, M_ret.

#[local] Arguments required_columns : simpl never.
#[local] Arguments numeric_columns : simpl never.
#[local] Arguments column_mapping : simpl never.
#[local] Arguments fill_values : simpl never.

(** Unfold the monad and compute as far as the state is known. *)
Ltac msimpl := repeat (progress (unfold_monad; cbn)).

Lemma validate_data_run (w : world) (df : nat) (d : DataFrame) :
  heap w !! df = Some d → validate_data df w = (validation d, w).
Proof.
  intros Hdf.
  unfold validate_data, validation, df_columns, df_getitem, deref, between, isin_all.
  msimpl. rewrite Hdf. msimpl.
  destruct (forallb _ required_columns); [|done]. msimpl. rewrite Hdf. msimpl.
  destruct (pd.getitem d "Customer_rating") as [[rating|?]|?]; try done. msimpl.
  destruct (pd.between 1 5 rating) as [in_range|?]; [|done]. msimpl.
  destruct (pd.all in_range); [|done]. msimpl. rewrite Hdf. msimpl.
  destruct (pd.getitem d "Reached.on.Time_Y.N") as [[flag|?]|?]; try done. msimpl.
  by destruct (pd.all _).
Qed.

Lemma filter_map_labels {A} (P : A → bool) (f : A → A) (l : list A) :
  List.filter P (map f l) = map f (List.filter (λ a, P (f a)) l).
Proof.
  induction l as [|a l IH]; [done|]. cbn.
  destruct (P (f a)); cbn; by rewrite IH.
Qed.

Lemma filter_agree {A} (P Q : A → bool) (l : list A) :
  (∀ a, a ∈ l → P a = Q a) → List.filter P l = List.filter Q l.
Proof.
  induction l as [|a l IH]; intros Hag; [done|]. cbn.
  rewrite (Hag a) by left. rewrite IH; [done|].
  intros b Hb. apply Hag. by right.
Qed.

Lemma elem_of_filter_bool {A} (P : A → bool) (l : list A) (a : A) :
  a ∈ List.filter P l ↔ a ∈ l ∧ P a = true.
Proof. rewrite !list_elem_of_In. apply filter_In. Qed.

Section transformation.
Context `{Env}.

Lemma coerce_idempotent (v : value) : pd.coerce (pd.coerce v) = pd.coerce v.
Proof. destruct v as [z|s|]; cbn; [done| |done]. by destruct (parse_numeric s). Qed.

Lemma sole_coerce_columns (cols : list string) (d : DataFrame) (key : string) :
  sole d key → sole (coerce_columns cols d) key.
Proof.
  intros [c Hc]. unfold sole, coerce_columns. cbn.
  rewrite filter_map_labels.
  rewrite (filter_agree _ (pd.labelled key)).
  - rewrite Hc. by eexists.
  - intros [l s] _. cbn. by destruct (bool_decide (l ∈ cols)).
Qed.

Lemma getitem_sole (d : DataFrame) (key : string) (c : string * Series) :
  List.filter (pd.labelled key) (series d) = [c] →
  pd.getitem d key = Ok (pd.ASeries c.2).
Proof. intros Hc. unfold pd.getitem. by rewrite Hc. Qed.

Lemma setitem_sole (d : DataFrame) (key : string) (c : string * Series) :
  List.filter (pd.labelled key) (series d) = [c] →
  pd.setitem key (map pd.coerce c.2) d = coerce_columns [key] d.
Proof.
  intros Hc. unfold pd.setitem, coerce_columns.
  assert (c ∈ series d ∧ pd.labelled key c = true) as [Hin Hlab].
  { apply elem_of_filter_bool. rewrite Hc. by left. }
  replace (existsb (pd.labelled key) (series d)) with true.
  2:{ symmetry. apply existsb_exists. exists c. by rewrite <- list_elem_of_In. }
  f_equal. apply map_ext_in. intros [l s] Hls. cbn.
  unfold pd.labelled at 1. cbn.
  case_bool_decide as Hl; subst.
  - rewrite bool_decide_eq_true_2 by (by left).
    assert ((key, s) ∈ List.filter (pd.labelled key) (series d)) as Hf.
    { apply elem_of_filter_bool. split; [by apply list_elem_of_In|].
      unfold pd.labelled. cbn. by apply bool_decide_eq_true_2. }
    rewrite Hc in Hf. apply list_elem_of_singleton in Hf. by subst.
  - rewrite bool_decide_eq_false_2; [done|].
    intros Hkey. apply list_elem_of_singleton in Hkey. done.
Qed.

Lemma coerce_columns_cons (key : string) (cols : list string) (d : DataFrame) :
  coerce_columns cols (coerce_columns [key] d) = coerce_columns (key :: cols) d.
Proof.
  unfold coerce_columns. cbn. f_equal. rewrite map_map.
  apply map_ext. intros [l s]. cbn.
  destruct (decide (l = key)) as [->|Hne].
  - rewrite (bool_decide_eq_true_2 (key ∈ [key])) by (by left). cbn.
    rewrite (bool_decide_eq_true_2 (key ∈ key :: cols)) by (by left).
    case_bool_decide; [|done].
    f_equal. rewrite map_map. apply map_ext. intros v. apply coerce_idempotent.
  - rewrite (bool_decide_eq_false_2 (l ∈ [key])).
    2:{ intros Hl. by apply list_elem_of_singleton in Hl. }
    cbn. case_bool_decide as H1; case_bool_decide as H2; try done; exfalso; [apply H2; by right|apply elem_of_cons in H2 as [?|?]; done].
Qed.

Lemma coerce_columns_nil (d : DataFrame) : coerce_columns [] d = d.
Proof.
  unfold coerce_columns. destruct d as [n cols]. cbn. f_equal.
  rewrite <- (map_id cols) at 2. apply map_ext. intros c.
  rewrite bool_decide_eq_false_2; [done|]. apply not_elem_of_nil.
Qed.

(** One turn of the loop of [transform_data]. *)
Lemma coerce_step_run (df : nat) (key : string) (w : world) (d : DataFrame)
    (c : string * Series) :
  heap w !! df = Some d →
  List.filter (pd.labelled key) (series d) = [c] →
  (selected ← df_getitem df key;
   numeric ← lift (pd.to_numeric selected);
   df_setitem df key numeric) w
  = (Ok tt, set_heap (<[df := coerce_columns [key] d]> (heap w)) w).
Proof.
  intros Hdf Hc. unfold df_getitem, df_setitem, deref, store.
  msimpl. rewrite Hdf. msimpl. rewrite (getitem_sole _ _ _ Hc). msimpl.
  rewrite Hdf. msimpl. by rewrite (setitem_sole _ _ _ Hc).
Qed.

(** The loop of [transform_data] over the numeric columns. *)
Lemma coerce_loop_run (df : nat) (cols : list string) :
  ∀ (w : world) (d : DataFrame),
    heap w !! df = Some d →
    (∀ key, key ∈ cols → sole d key) →
    for_each cols (λ col,
      selected ← df_getitem df col;
      numeric ← lift (pd.to_numeric selected);
      df_setitem df col numeric) w
    = (Ok tt, set_heap (<[df := coerce_columns cols d]> (heap w)) w).
Proof.
  induction cols as [|key cols IH]; intros w d Hdf Hsole.
  - cbn. rewrite coerce_columns_nil, list_insert_id by done.
    by destruct w.
  - destruct (Hsole key) as [c Hc]; [by left|].
    cbn [for_each]. rewrite run_bind. cbn beta.
    rewrite (coerce_step_run _ _ _ _ _ Hdf Hc).
    rewrite (IH _ (coerce_columns [key] d)).
    + cbn. by rewrite list_insert_insert_eq, coerce_columns_cons.
    + cbn. apply list_lookup_insert_eq. by eapply lookup_lt_Some.
    + intros k Hk. apply sole_coerce_columns, Hsole. by right.
Qed.
End transformation.

(** ** Objects on the heap *)

Lemma lookup_snoc {A} (l : list A) (x : A) : (l ++ [x]) !! length l = Some x.
Proof. by apply list_lookup_middle. Qed.

Lemma insert_snoc {A} (l : list A) (x y : A) : <[length l := y]> (l ++ [x]) = l ++ [y].
Proof.
  rewrite insert_app_r_alt by lia. by rewrite Nat.sub_diag.
Qed.

Lemma lookup_snoc_lt {A} (l : list A) (x : A) (i : nat) (a : A) :
  l !! i = Some a → (l ++ [x]) !! i = Some a.
Proof. intros Hi. by apply lookup_app_l_Some. Qed.

Lemma run_df_copy (df : nat) (d : DataFrame) (w : world) :
  heap w !! df = Some d →
  df_copy df w = (Ok (length (heap w)), set_heap (heap w ++ [d]) w).
Proof. intros Hdf. unfold df_copy, deref, alloc. msimpl. by rewrite Hdf. Qed.

Lemma run_df_rename_inplace (df : nat) (mapping : list (string * string))
    (d : DataFrame) (w : world) :
  heap w !! df = Some d →
  df_rename_inplace df mapping w
  = (Ok tt, set_heap (<[df := pd.rename mapping d]> (heap w)) w).
Proof. intros Hdf. unfold df_rename_inplace, deref, store. msimpl. by rewrite Hdf. Qed.

Lemma run_df_fillna (df : nat) (fills : list (string * value))
    (d : DataFrame) (w : world) :
  heap w !! df = Some d →
  df_fillna df fills w
  = (Ok (length (heap w)), set_heap (heap w ++ [pd.fillna fills d]) w).
Proof. intros Hdf. unfold df_fillna, deref, alloc. msimpl. by rewrite Hdf. Qed.

Section transform_data_runs.
Context `{Env}.

(** A frame that fails validation: the failure is logged and raised
    again, nothing else changes. *)
Lemma transform_data_rejects (w : world) (df : nat) (d : DataFrame) (e : exn) :
  heap w !! df = Some d →
  validation d = Raise e →
  transform_data df w
  = (Raise e, set_log (log w ++ [("ERROR", "Error in transform_data: " +:+ str e)]) w).
Proof.
  intros Hdf Hval. unfold transform_data, try_except.
  rewrite run_bind, (validate_data_run _ _ _ Hdf), Hval.
  unfold logging_error. by msimpl.
Qed.

(** A frame that passes validation and whose numeric columns are
    unambiguous after renaming: the result is a new object. *)
Lemma transform_data_returns (w : world) (df : nat) (d : DataFrame) :
  heap w !! df = Some d →
  validation d = Ok true →
  (∀ key, key ∈ numeric_columns → sole (pd.rename column_mapping d) key) →
  transform_data df w
  = (Ok (S (length (heap w))),
     set_log (log w ++ [("INFO", "Data transformation completed successfully")])
       (set_heap (heap w ++ [coerce_columns numeric_columns (pd.rename column_mapping d);
                             transformed d]) w)).
Proof.
  intros Hdf Hval Hsole. unfold transform_data, try_except.
  rewrite run_bind, (validate_data_run _ _ _ Hdf), Hval.
  rewrite run_bind, (run_df_copy _ _ _ Hdf).
  rewrite run_bind, (run_df_rename_inplace _ _ d) by apply lookup_snoc.
  cbn [heap set_heap]. rewrite insert_snoc.
  rewrite run_bind.
  rewrite (coerce_loop_run _ _ _ (pd.rename column_mapping d)); [|apply lookup_snoc|done].
  cbn [heap set_heap]. rewrite insert_snoc.
  rewrite run_bind.
  rewrite (run_df_fillna _ _ (coerce_columns numeric_columns (pd.rename column_mapping d)))
    by apply lookup_snoc.
  unfold logging_info. msimpl.
  rewrite length_app. cbn. rewrite Nat.add_1_r, <- app_assoc. done.
Qed.
End transform_data_runs.

(** ** Renaming *)

(** Every numeric column of the target comes from one required column
    of the source, and from no other label but its own. *)
Lemma numeric_source (t : string) :
  t ∈ numeric_columns →
  ∃ src, src ∈ required_columns ∧ pd.renamed column_mapping src = t ∧
         ∀ l, pd.renamed column_mapping l = t → l = t ∨ l = src.
Proof.
  unfold numeric_columns. intros Ht.
  repeat (apply elem_of_cons in Ht as [->|Ht]); [..|by apply elem_of_nil in Ht].
  1: exists "Customer_care_calls".
  2: exists "Customer_rating".
  3: exists "Cost_of_the_Product".
  4: exists "Prior_purchases".
  5: exists "Discount_offered".
  6: exists "Weight_in_gms".
  7: exists "Reached.on.Time_Y.N".
  all: split; [unfold required_columns; in_list|].
  all: split; [done|].
  all: intros l; unfold column_mapping; cbn [pd.renamed].
  all: repeat case_bool_decide; subst; try discriminate; auto.
Qed.

Lemma sole_after_rename (d : DataFrame) :
  NoDup (columns d) →
  (∀ col, col ∈ required_columns → col ∈ columns d) →
  (∀ t, t ∈ numeric_columns → t ∉ columns d) →
  ∀ t, t ∈ numeric_columns → sole (pd.rename column_mapping d) t.
Proof.
  intros Hnd Hreq Hfree t Ht.
  destruct (numeric_source t Ht) as (src & Hsrc & Hren & Honly).
  destruct (column_present d src (Hreq _ Hsrc)) as [s Hs].
  exists (t, s). unfold pd.rename. cbn [series].
  rewrite filter_map_labels.
  rewrite (filter_agree _ (pd.labelled src)).
  - rewrite (filter_labelled_unique src s) by done. cbn. by rewrite Hren.
  - intros [l s'] Hl. unfold pd.labelled. cbn.
    case_bool_decide as H1; case_bool_decide as H2; try done; exfalso.
    + destruct (Honly l H1) as [->| ->]; [|done].
      apply (Hfree t Ht). unfold columns. apply list_elem_of_fmap. by exists (t, s').
    + subst. done.
Qed.

(** Validation passed: the required columns are there. *)
Lemma validation_required (d : DataFrame) :
  validation d = Ok true → ∀ col, col ∈ required_columns → col ∈ columns d.
Proof.
  unfold validation. intros Hval col Hcol.
  destruct (forallb _ required_columns) eqn:Hall; [|done].
  rewrite forallb_forall in Hall.
  specialize (Hall col). rewrite <- list_elem_of_In in Hall.
  apply Hall in Hcol. by apply bool_decide_eq_true in Hcol.
Qed.

(** ** Validation *)

Lemma cell_between_range (v : value) :
  pd.cell_between 1 5 v = true ↔ in_rating_range v.
Proof.
  unfold in_rating_range. destruct v as [z|s|]; cbn.
  - rewrite andb_true_iff, !Z.leb_le. split.
    + intros ?. by exists z.
    + intros (z' & [= <-] & ?). done.
  - split; [done|]. intros (z & ? & _). done.
  - split; [done|]. intros (z & ? & _). done.
Qed.

Lemma cell_isin_flag (v : value) :
  pd.cell_isin [0; 1]%Z v = true ↔ is_flag v.
Proof.
  unfold is_flag. destruct v as [z|s|]; cbn.
  - rewrite bool_decide_eq_true, !elem_of_cons, elem_of_nil. split.
    + intros [->|[->|[]]]; auto.
    + intros [[= ->]|[= ->]]; auto.
  - split; [done|]. intros [?|?]; done.
  - split; [done|]. intros [?|?]; done.
Qed.

Lemma all_map_true {A} (f : A → bool) (l : list A) :
  pd.all (map f l) = true ↔ ∀ a, a ∈ l → f a = true.
Proof.
  unfold pd.all. rewrite forallb_forall. split.
  - intros Hall a Ha. apply (Hall (f a)). apply in_map. by apply list_elem_of_In.
  - intros Hall b Hb. apply in_map_iff in Hb as (a & <- & Ha).
    apply Hall. by apply list_elem_of_In.
Qed.

Lemma all_map_false {A} (f : A → bool) (l : list A) :
  pd.all (map f l) = false → ∃ a, a ∈ l ∧ f a = false.
Proof.
  induction l as [|a l IH]; cbn; [done|].
  destruct (f a) eqn:Hfa.
  - cbn. intros Hl. destruct (IH Hl) as (b & Hb & Hfb). exists b. split; [by right|done].
  - intros _. exists a. split; [by left|done].
Qed.

Lemma column_functional (d : DataFrame) (key : string) (s s' : Series) :
  NoDup (columns d) → (key, s) ∈ series d → (key, s') ∈ series d → s = s'.
Proof.
  intros Hnd Hs Hs'.
  pose proof (filter_labelled_unique key s _ Hnd Hs) as H1.
  rewrite (filter_labelled_unique key s' _ Hnd Hs') in H1. by inversion H1.
Qed.

Lemma missing_required (d : DataFrame) :
  forallb (λ col, bool_decide (col ∈ columns d)) required_columns = false →
  ∃ col, col ∈ required_columns ∧ col ∉ columns d.
Proof.
  generalize required_columns. intros l.
  induction l as [|c l IH]; cbn; [done|].
  case_bool_decide as Hc; cbn.
  - intros Hl. destruct (IH Hl) as (col & ? & ?). exists col. split; [by right|done].
  - intros _. exists c. split; [by left|done].
Qed.

(** A frame with all it needs passes validation. *)
Lemma validation_accepts (d : DataFrame) :
  NoDup (columns d) →
  (∀ col, col ∈ required_columns → col ∈ columns d) →
  (∀ s v, ("Customer_rating", s) ∈ series d → v ∈ s → in_rating_range v) →
  (∀ s v, ("Reached.on.Time_Y.N", s) ∈ series d → v ∈ s → is_flag v) →
  validation d = Ok true.
Proof.
  intros Hnd Hreq Hrating Hflag. unfold validation.
  replace (forallb _ required_columns) with true.
  2:{ symmetry. apply forallb_forall. intros col Hcol.
      apply bool_decide_eq_true_2, Hreq. by apply list_elem_of_In. }
  cbn [negb].
  destruct (column_present d "Customer_rating") as [rating Hr].
  { apply Hreq. unfold required_columns. in_list. }
  destruct (column_present d "Reached.on.Time_Y.N") as [flag Hf].
  { apply Hreq. unfold required_columns. in_list. }
  rewrite (getitem_unique _ _ _ Hnd Hr), (getitem_unique _ _ _ Hnd Hf).
  unfold pd.between.
  replace (existsb pd.is_text rating) with false.
  2:{ symmetry. apply not_true_iff_false. intros Hex.
      apply existsb_exists in Hex as (v & Hv & Htext).
      apply list_elem_of_In in Hv.
      destruct (Hrating _ _ Hr Hv) as (z & -> & _). done. }
  replace (pd.all (map (pd.cell_between 1 5) rating)) with true.
  2:{ symmetry. apply all_map_true. intros v Hv.
      apply cell_between_range. by eapply Hrating. }
  cbn [negb]. unfold pd.isin.
  replace (pd.all (map (pd.cell_isin [0; 1]%Z) flag)) with true; [done|].
  symmetry. apply all_map_true. intros v Hv.
  apply cell_isin_flag. by eapply Hflag.
Qed.

(** A frame with a rating out of range or a flag other than 0 and 1
    fails validation; the error tells which check failed, unless the
    rating column holds text, which the comparison itself refuses. *)
Lemma validation_rejects (d : DataFrame) :
  NoDup (columns d) →
  (∃ s v, ("Customer_rating", s) ∈ series d ∧ v ∈ s ∧ ¬ in_rating_range v) ∨
  (∃ s v, ("Reached.on.Time_Y.N", s) ∈ series d ∧ v ∈ s ∧ ¬ is_flag v) →
  ∃ e, validation d = Raise e ∧
    ((e = AssertionError "Missing required columns" ∧
        ∃ col, col ∈ required_columns ∧ col ∉ columns d) ∨
     (e = AssertionError "Invalid customer ratings" ∧
        ∃ s v, ("Customer_rating", s) ∈ series d ∧ v ∈ s ∧ ¬ in_rating_range v) ∨
     (e = AssertionError "Invalid reached on time values" ∧
        ∃ s v, ("Reached.on.Time_Y.N", s) ∈ series d ∧ v ∈ s ∧ ¬ is_flag v) ∨
     (e = TypeError "'>=' not supported between instances of 'str' and 'int'" ∧
        ∃ s x, ("Customer_rating", s) ∈ series d ∧ VStr x ∈ s)).
Proof.
  intros Hnd Hbad. unfold validation.
  destruct (forallb _ required_columns) eqn:Hall; cbn [negb].
  2:{ eexists. split; [done|]. left. split; [done|]. by apply missing_required. }
  assert (∀ col, col ∈ required_columns → col ∈ columns d) as Hreq.
  { intros col Hcol. rewrite forallb_forall in Hall.
    specialize (Hall col). rewrite <- list_elem_of_In in Hall.
    apply Hall in Hcol. by apply bool_decide_eq_true in Hcol. }
  destruct (column_present d "Customer_rating") as [rating Hr].
  { apply Hreq. unfold required_columns. in_list. }
  destruct (column_present d "Reached.on.Time_Y.N") as [flag Hf].
  { apply Hreq. unfold required_columns. in_list. }
  rewrite (getitem_unique _ _ _ Hnd Hr), (getitem_unique _ _ _ Hnd Hf).
  unfold pd.between.
  destruct (existsb pd.is_text rating) eqn:Htext.
  { eexists. split; [done|]. do 3 right. split; [done|].
    apply existsb_exists in Htext as (v & Hv & Hvt).
    destruct v as [|x|]; try done. exists rating, x.
    split; [done|]. by apply list_elem_of_In. }
  destruct (pd.all (map (pd.cell_between 1 5) rating)) eqn:Hrange; cbn [negb].
  2:{ eexists. split; [done|]. right. left. split; [done|].
      apply all_map_false in Hrange as (v & Hv & Hvr).
      exists rating, v. split; [done|]. split; [done|].
      rewrite <- cell_between_range. by rewrite Hvr. }
  unfold pd.isin.
  destruct (pd.all (map (pd.cell_isin [0; 1]%Z) flag)) eqn:Hflags; cbn [negb].
  2:{ eexists. split; [done|]. do 2 right. left. split; [done|].
      apply all_map_false in Hflags as (v & Hv & Hvf).
      exists flag, v. split; [done|]. split; [done|].
      rewrite <- cell_isin_flag. by rewrite Hvf. }
  exfalso. destruct Hbad as [(s & v & Hs & Hv & Hbad)|(s & v & Hs & Hv & Hbad)].
  - rewrite (column_functional _ _ _ _ Hnd Hs Hr) in Hv.
    apply Hbad, cell_between_range. by eapply all_map_true in Hrange.
  - rewrite (column_functional _ _ _ _ Hnd Hs Hf) in Hv.
    apply Hbad, cell_isin_flag. by eapply all_map_true in Hflags.
Qed.

(** ** The loop of the transformation, in general *)

Section coerce_loop.
Context `{Env}.

Lemma sole_coerce_columns_inv (cols : list string) (d : DataFrame) (key : string) :
  sole (coerce_columns cols d) key → sole d key.
Proof.
  intros [c Hc]. unfold sole, coerce_columns in *. cbn in Hc.
  rewrite filter_map_labels in Hc.
  rewrite (filter_agree _ (pd.labelled key)) in Hc.
  2:{ intros [l s] _. cbn. by destruct (bool_decide (l ∈ cols)). }
  destruct (List.filter (pd.labelled key) (series d)) as [|c1 [|c2 rest]]; try done.
  by exists c1.
Qed.

(** A turn of the loop writes to the frame it works on, and to
    nothing else. *)
Lemma coerce_step_frame (df : nat) (key : string) (w w' : world) (r : result unit) :
  (selected ← df_getitem df key;
   numeric ← lift (pd.to_numeric selected);
   df_setitem df key numeric) w = (r, w') →
  (∀ i, i ≠ df → heap w' !! i = heap w !! i) ∧
  length (heap w') = length (heap w) ∧
  cluster w' = cluster w ∧ conns w' = conns w ∧ cursors w' = cursors w ∧
  locals w' = locals w ∧ log w' = log w.
Proof.
  unfold df_getitem, df_setitem, deref, store. msimpl.
  destruct (heap w !! df) as [d|] eqn:Hdf; msimpl; [|by intros [= <- <-]].
  destruct (pd.getitem d key) as [[s|?]|?]; msimpl; try by intros [= <- <-].
  rewrite Hdf. msimpl. intros [= <- <-]. cbn.
  split; [|by rewrite length_insert].
  intros i Hi. by apply list_lookup_insert_ne.
Qed.

Lemma coerce_loop_frame (df : nat) (cols : list string) :
  ∀ (w w' : world) (r : result unit),
    for_each cols (λ col,
      selected ← df_getitem df col;
      numeric ← lift (pd.to_numeric selected);
      df_setitem df col numeric) w = (r, w') →
    (∀ i, i ≠ df → heap w' !! i = heap w !! i) ∧
    length (heap w') = length (heap w) ∧
    cluster w' = cluster w ∧ conns w' = conns w ∧ cursors w' = cursors w ∧
    locals w' = locals w ∧ log w' = log w.
Proof.
  induction cols as [|key cols IH]; intros w w' r.
  - cbn. by intros [= <- <-].
  - cbn [for_each]. rewrite run_bind. cbn beta.
    destruct ((df_getitem df key ≫= _) w) as [r1 w1] eqn:Hstep.
    apply coerce_step_frame in Hstep as (Hheap & Hlen & Hcl & Hco & Hcu & Hlo & Hlg).
    destruct r1 as [[]|e].
    + intros Hrest. apply IH in Hrest as (Hheap' & Hlen' & Hcl' & Hco' & Hcu' & Hlo' & Hlg').
      split; [|by repeat split; congruence].
      intros i Hi. by rewrite Hheap', Hheap.
    + intros [= <- <-]. done.
Qed.

(** The loop runs to its end only if every column it coerces is
    unambiguous. *)
Lemma coerce_loop_inv (df : nat) (cols : list string) :
  ∀ (w w' : world) (d : DataFrame),
    heap w !! df = Some d →
    for_each cols (λ col,
      selected ← df_getitem df col;
      numeric ← lift (pd.to_numeric selected);
      df_setitem df col numeric) w = (Ok tt, w') →
    ∀ key, key ∈ cols → sole d key.
Proof.
  induction cols as [|key cols IH]; intros w w' d Hdf Hrun k Hk.
  - by apply elem_of_nil in Hk.
  - cbn [for_each] in Hrun. rewrite run_bind in Hrun. cbn beta in Hrun.
    assert (sole d key) as [c Hc].
    { revert Hrun. unfold df_getitem, deref. msimpl. rewrite Hdf. msimpl.
      unfold pd.getitem.
      destruct (List.filter (pd.labelled key) (series d)) as [|c1 [|c2 rest]] eqn:Hf;
        msimpl; try done.
      intros _. by exists c1. }
    rewrite (coerce_step_run _ _ _ _ _ Hdf Hc) in Hrun.
    apply elem_of_cons in Hk as [->|Hk]; [by exists c|].
    apply (sole_coerce_columns_inv [key]).
    eapply IH; [|exact Hrun|exact Hk].
    cbn. apply list_lookup_insert_eq. by eapply lookup_lt_Some.
Qed.
End coerce_loop.

(** ** The cells of the transformed frame *)

Lemma fill_value_zero (l : string) :
  pd.fill_value fill_values l
  = if bool_decide (l ∈ fill_values.*1) then Some (VInt 0) else None.
Proof.
  unfold fill_values. cbn.
  destruct (bool_decide (l ∈ _)) eqn:Hin.
  - apply bool_decide_eq_true in Hin.
    repeat (apply elem_of_cons in Hin as [->|Hin]); [done..|by apply elem_of_nil in Hin].
  - apply bool_decide_eq_false in Hin.
    repeat case_bool_decide; subst; try done; exfalso; apply Hin; in_list.
Qed.

Section transformed_cells.
Context `{Env}.

Lemma transformed_column (d : DataFrame) (j : nat) (l : string) (s : Series) :
  series d !! j = Some (l, s) →
  series (transformed d) !! j
  = Some (pd.renamed column_mapping l,
          let l' := pd.renamed column_mapping l in
          let numeric := if bool_decide (l' ∈ numeric_columns)
                         then map pd.coerce s else s in
          if bool_decide (l' ∈ fill_values.*1)
          then map (pd.fill_cell (VInt 0)) numeric else numeric).
Proof.
  intros Hj. unfold transformed, pd.fillna, coerce_columns, pd.rename. cbn [series].
  rewrite !list_lookup_fmap, Hj. cbn.
  destruct (bool_decide (pd.renamed column_mapping l ∈ numeric_columns)); cbn;
    rewrite fill_value_zero;
    by destruct (bool_decide (pd.renamed column_mapping l ∈ fill_values.*1)).
Qed.

Lemma transformed_columns (d : DataFrame) :
  columns (transformed d) = map (pd.renamed column_mapping) (columns d).
Proof.
  unfold columns, transformed, pd.fillna, coerce_columns, pd.rename. cbn [series].
  induction (series d) as [|[l s] cols IH]; [done|].
  cbn. rewrite IH. f_equal.
  destruct (bool_decide (pd.renamed column_mapping l ∈ numeric_columns)); cbn;
    by destruct (pd.fill_value fill_values (pd.renamed column_mapping l)).
Qed.
End transformed_cells.

(** * The claims *)

(** Cases of a membership in a list written out. *)
Ltac in_cases H :=
  repeat (apply elem_of_cons in H as [H|H]); [..|by apply elem_of_nil in H].



Lemma lookup_snoc2 {A} (l : list A) (x y : A) : (l ++ [x; y]) !! S (length l) = Some y.
Proof.
  rewrite lookup_app_r by lia.
  by replace (S (length l) - length l) with 1 by lia.
Qed.

Lemma validation_ok_true (d : DataFrame) (b : bool) : validation d = Ok b → b = true.
Proof.
  unfold validation.
  repeat match goal with
         | |- context [match ?x with _ => _ end] => destruct x
         end; congruence.
Qed.

Section transform_data_cases.
Context `{Env}.

(** A validated frame is either transformed, or the loop over the
    numeric columns raises; the objects there were are not touched. *)
Lemma transform_data_cases (w : world) (df : nat) (d : DataFrame) :
  heap w !! df = Some d →
  validation d = Ok true →
  (∀ key, key ∈ numeric_columns → sole (pd.rename column_mapping d) key) ∨
  (∃ e w', transform_data df w = (Raise e, w') ∧
           ∀ i x, heap w !! i = Some x → heap w' !! i = Some x).
Proof.
  intros Hdf Hval.
  destruct (for_each numeric_columns (λ col,
              selected ← df_getitem (length (heap w)) col;
              numeric ← lift (pd.to_numeric selected);
              df_setitem (length (heap w)) col numeric)
            (set_heap (heap w ++ [pd.rename column_mapping d]) w))
    as [[[]|e] w2] eqn:Hloop.
  - left. eapply coerce_loop_inv; [|exact Hloop]. apply lookup_snoc.
  - right. exists e. eexists. split.
    + unfold transform_data, try_except.
      rewrite run_bind, (validate_data_run _ _ _ Hdf), Hval.
      rewrite run_bind, (run_df_copy _ _ _ Hdf).
      rewrite run_bind, (run_df_rename_inplace _ _ d) by apply lookup_snoc.
      cbn [heap set_heap]. rewrite insert_snoc.
      change (set_heap ?h (set_heap _ w)) with (set_heap h w).
      rewrite run_bind, Hloop. unfold logging_error. msimpl. reflexivity.
    + intros i x Hi. cbn.
      apply coerce_loop_frame in Hloop as (Hheap & _).
      rewrite Hheap.
      * cbn. by apply lookup_snoc_lt.
      * apply lookup_lt_Some in Hi. lia.
Qed.
End transform_data_cases.

(** C1 (as amended). For a well-formed frame that passes validation and
    has no column already labelled as one of the seven numeric target
    columns, [transform_data] does not raise; in the frame it returns,
    column by column and cell by cell: a text that does not parse as a
    number, in a numeric column, has become 0 if the column is one of
    customer_care_calls, prior_purchases, discount_offered and the
    missing marker otherwise; a missing cell has become 0 in those three
    columns and is still missing in every other column. *)
Theorem transform_data_coerces_then_fills `{Env} (w : world) (df : nat) (d : DataFrame) :
  heap w !! df = Some d →
  NoDup (columns d) →
  validate_data df w = (Ok true, w) →
  (∀ t, t ∈ numeric_columns → t ∉ columns d) →
  ∃ out w' d',
    transform_data df w = (Ok out, w') ∧
    heap w' !! out = Some d' ∧
    ∀ j l s, series d !! j = Some (l, s) →
      ∃ s', series d' !! j = Some (pd.renamed column_mapping l, s') ∧
        length s' = length s ∧
        ∀ i v, s !! i = Some v →
          ∃ v', s' !! i = Some v' ∧
            (∀ x, pd.renamed column_mapping l ∈ numeric_columns →
                  v = VStr x → parse_numeric x = None →
                  v' = if bool_decide (pd.renamed column_mapping l ∈ fill_values.*1)
                       then VInt 0 else VNull) ∧
            (v = VNull →
                  v' = if bool_decide (pd.renamed column_mapping l ∈ fill_values.*1)
                       then VInt 0 else VNull).
Proof.
  intros Hdf Hnd Hvalid Hfree.
  rewrite (validate_data_run _ _ _ Hdf) in Hvalid.
  assert (validation d = Ok true) as Hval by congruence.
  pose proof (sole_after_rename d Hnd (validation_required d Hval) Hfree) as Hsole.
  rewrite (transform_data_returns _ _ _ Hdf Hval Hsole).
  eexists _, _, (transformed d). split; [reflexivity|].
  split; [cbn; apply lookup_snoc2|].
  intros j l s Hj. rewrite (transformed_column _ _ _ _ Hj).
  eexists. split; [reflexivity|]. cbn zeta.
  destruct (bool_decide (pd.renamed column_mapping l ∈ numeric_columns)) eqn:Hnum;
    destruct (bool_decide (pd.renamed column_mapping l ∈ fill_values.*1)) eqn:Hfill.
  all: split; [by rewrite ?length_map|].
  all: intros i v Hi; rewrite ?list_lookup_fmap, Hi; cbn.
  all: eexists; split; [reflexivity|].
  all: split; [intros x Hin -> Hparse; cbn; try rewrite Hparse; try done|by intros ->].
  all: by apply bool_decide_eq_false in Hnum.
Qed.

Lemma transform_data_coerces_then_fills_witness :
  ∃ out w' d',
    @transform_data (sample.env [] sample.anyone sample.batch) 0 (sample.holding sample.batch)
    = (Ok out, w') ∧
    heap w' !! out = Some d' ∧
    series d' !! 3%nat = Some ("customer_care_calls", [VInt 0; VInt 3]) ∧
    series d' !! 5%nat = Some ("cost_of_the_product", [VNull; VInt 100]).
Proof.
  destruct (@transform_data_coerces_then_fills (sample.env [] sample.anyone sample.batch)
              (sample.holding sample.batch) 0 sample.batch)
    as (out & w' & d' & Hrun & Hout & _).
  - reflexivity.
  - apply (bool_decide_unpack _). vm_compute. exact I.
  - reflexivity.
  - intros t Ht. unfold numeric_columns in Ht.
    in_cases Ht; subst; apply (bool_decide_unpack _); vm_compute; exact I.
  - exists out, w', d'. split; [exact Hrun|]. split; [exact Hout|].
    vm_compute in Hrun. injection Hrun as <- <-.
    vm_compute in Hout. injection Hout as <-.
    split; reflexivity.
Defined.

(** C1, as stated, fails: a well-formed frame with the twelve required
    columns and one more, labelled [weight_in_gms], passes validation,
    and [transform_data] raises on it: after renaming two columns bear
    that label, and [pd.to_numeric] refuses their selection. *)
Lemma transform_data_raises_on_relabelled_column :
  NoDup (columns sample.batch_clash) ∧
  validate_data 0 (sample.holding sample.batch_clash)
  = (Ok true, sample.holding sample.batch_clash) ∧
  (@transform_data (sample.env [] sample.anyone sample.batch_clash) 0
     (sample.holding sample.batch_clash)).1
  = Raise (TypeError "arg must be a list, tuple, 1-d array, or Series").
Proof.
  split; [apply (bool_decide_unpack _); vm_compute; exact I|].
  split; reflexivity.
Qed.

(** C7. Neither validation nor transformation changes the frame it is
    given.  [validate_data] leaves the whole state as it is.  After
    [transform_data], however it ends, the input object still holds the
    same frame, as does every object there was; when it returns, the
    result is a new object, holding the input renamed by the mapping,
    with the numeric columns coerced and the missing cells filled. *)
Theorem validate_and_transform_keep_input `{Env} (w : world) (df : nat) (d : DataFrame) :
  heap w !! df = Some d →
  (validate_data df w).2 = w ∧
  ∀ r w', transform_data df w = (r, w') →
    heap w' !! df = Some d ∧
    (∀ i x, heap w !! i = Some x → heap w' !! i = Some x) ∧
    ∀ out, r = Ok out →
      out ≠ df ∧ heap w !! out = None ∧
      heap w' !! out
      = Some (pd.fillna fill_values
                (coerce_columns numeric_columns (pd.rename column_mapping d))).
Proof.
  intros Hdf. split; [by rewrite (validate_data_run _ _ _ Hdf)|].
  intros r w' Hrun.
  assert ((∀ i x, heap w !! i = Some x → heap w' !! i = Some x) ∧
          ∀ out, r = Ok out →
            out ≠ df ∧ heap w !! out = None ∧ heap w' !! out = Some (transformed d))
    as [Hkeep Hout]; [|by auto].
  destruct (validation d) as [b|e] eqn:Hval.
  - pose proof (validation_ok_true _ _ Hval) as ->.
    destruct (transform_data_cases w df d Hdf Hval) as [Hsole|(e & w2 & Hraise & Hkeep)].
    + rewrite (transform_data_returns _ _ _ Hdf Hval Hsole) in Hrun.
      injection Hrun as <- <-. cbn. split.
      * intros i x Hi. by apply lookup_app_l_Some.
      * intros out [= <-]. apply lookup_lt_Some in Hdf as Hlt.
        split; [lia|]. split; [apply lookup_ge_None; lia|apply lookup_snoc2].
    + rewrite Hraise in Hrun. injection Hrun as <- <-. by split.
  - rewrite (transform_data_rejects _ _ _ _ Hdf Hval) in Hrun.
    injection Hrun as <- <-. by split.
Qed.

Lemma validate_and_transform_keep_input_witness :
  let E := sample.env [] sample.anyone sample.batch in
  let w := sample.holding sample.batch in
  (validate_data 0 w).2 = w ∧
  heap (transform_data 0 w).2 !! 0%nat = Some sample.batch.
Proof.
  intros E w.
  destruct (@validate_and_transform_keep_input E w 0 sample.batch) as [Hv Ht];
    [reflexivity|].
  split; [exact Hv|].
  destruct (transform_data 0 w) as [r w'] eqn:Hrun.
  by destruct (Ht r w' eq_refl) as [Hin _].
Defined.

(** ** Connections *)

#[local] Arguments DB_CONFIG : simpl never.
#[local] Arguments item : simpl never.
#[local] Arguments dict_get : simpl never.
#[local] Arguments connection_parameters : simpl never.
#[local] Arguments connected_database : simpl never.
#[local] Arguments dbname : simpl never.

Section connect.
Context `{Env}.

Lemma parameters_database (database : string) :
  default (item (connection_parameters database) "user")
    (dict_get (connection_parameters database) "dbname")
  = connected_database database.
Proof.
  unfold connection_parameters, connected_database. by case_bool_decide.
Qed.

Lemma get_connection_unfold (database : string) :
  get_connection database
  = try_except_if is_psycopg2_error
      (conn ← psycopg2_connect (connection_parameters database); mret conn)
      (λ e, logging_error ("Database connection failed: " +:+ str e);; raise e).
Proof.
  unfold get_connection, connection_parameters. by case_bool_decide.
Qed.

Lemma get_connection_run (database : string) (w : world) :
  get_connection database w =
  if pg_login (connection_parameters database) then
    match cluster w !! connected_database database with
    | Some _ =>
        (Ok (length (conns w)),
         set_conns (conns w ++ [mkConnection (connected_database database) true false Idle]) w)
    | None =>
        (Raise (Psycopg2Error "database does not exist"),
         set_log (log w ++ [("ERROR", "Database connection failed: database does not exist")]) w)
    end
  else
    (Raise (Psycopg2Error "connection to server failed"),
     set_log (log w ++ [("ERROR", "Database connection failed: connection to server failed")]) w).
Proof.
  rewrite get_connection_unfold.
  unfold psycopg2_connect, logging_error. msimpl.
  rewrite parameters_database.
  destruct (pg_login _); [|done].
  by destruct (cluster w !! _).
Qed.
End connect.

Ltac unfold_psycopg2 :=
  unfold let_conn, let_cur, bind_conn, bind_cur, var_conn, var_cur,
    conn_set_autocommit, conn_cursor, conn_commit, conn_rollback, conn_close,
    cur_close, cur_execute, cur_fetchone, on_connection,
    logging_info, logging_error.

Ltac dbsimpl := repeat (progress (unfold_psycopg2; unfold_monad; cbn)).

(** Run a script on a state that is known where the script reads it. *)
Ltac mrun :=
  dbsimpl;
  repeat (first [ rewrite lookup_snoc | rewrite insert_snoc
                | match goal with
                  | Hl : ?x !! ?k = _ |- context [?x !! ?k] => rewrite Hl
                  end ];
          dbsimpl).

Ltac world_eq :=
  match goal with w : world |- _ => destruct w end;
  cbn; rewrite <- ?app_assoc; reflexivity.

Section provisioning.
Context `{Env}.

Lemma connected_database_dbname : connected_database dbname = dbname.
Proof. unfold connected_database. by case_bool_decide. Qed.

Lemma connected_database_postgres : connected_database "postgres" = "postgres".
Proof. done. Qed.

(** What [create_database] does, in every case. *)
Lemma create_database_run (w : world) :
  create_database w =
  if pg_login (connection_parameters "postgres") then
    match cluster w !! "postgres" with
    | Some _ =>
        if bool_decide (dbname ∈ dom (cluster w)) then
          (Ok tt,
           mkWorld (heap w) (cluster w)
             (conns w ++ [mkConnection "postgres" false true Idle])
             (cursors w ++ [mkCursor (length (conns w)) false (Some [])])
             (locals w)
             (log w ++ [("INFO", "Database " +:+ dbname +:+ " already exists")]))
        else
          (Ok tt,
           mkWorld (heap w) (<[dbname := new_database]> (cluster w))
             (conns w ++ [mkConnection "postgres" false true Idle])
             (cursors w ++ [mkCursor (length (conns w)) false None])
             (locals w)
             (log w ++ [("INFO", "Database " +:+ dbname +:+ " created successfully")]))
    | None =>
        (Raise (UnboundLocalError "cur"),
         set_log (log w ++ [("ERROR", "Database connection failed: database does not exist");
                            ("ERROR", "Error in create_database: database does not exist")]) w)
    end
  else
    (Raise (UnboundLocalError "cur"),
     set_log (log w ++ [("ERROR", "Database connection failed: connection to server failed");
                        ("ERROR", "Error in create_database: connection to server failed")]) w).
Proof.
  unfold create_database, call. fold dbname.
  unfold try_finally, try_except, let_conn. rewrite !run_bind.
  rewrite get_connection_run, connected_database_postgres.
  destruct (pg_login _).
  2:{ mrun. f_equal. world_eq. }
  cbn [cluster set_locals].
  destruct (cluster w !! "postgres") as [d|] eqn:Hd.
  2:{ mrun. f_equal. world_eq. }
  unfold server_execute, query_result. mrun.
  case_bool_decide as Hex; unfold server_execute; mrun.
  - reflexivity.
  - rewrite bool_decide_eq_false_2 by done. mrun. reflexivity.
Qed.

(** What [create_schema] does, in every case. *)
Lemma create_schema_run (w : world) :
  create_schema w =
  if pg_login (connection_parameters dbname) then
    match cluster w !! dbname with
    | Some d =>
        (Ok tt,
         mkWorld (heap w)
           (<[dbname := mkDatabase ({["warehouse"]} ∪ schemas d) (tables d)]> (cluster w))
           (conns w ++ [mkConnection dbname false false Idle])
           (cursors w ++ [mkCursor (length (conns w)) false None])
           (locals w)
           (log w ++ [("INFO", "Schema 'warehouse' created successfully")]))
    | None =>
        (Raise (UnboundLocalError "cur"),
         set_log (log w ++ [("ERROR", "Database connection failed: database does not exist");
                            ("ERROR", "Error in create_schema: database does not exist")]) w)
    end
  else
    (Raise (UnboundLocalError "cur"),
     set_log (log w ++ [("ERROR", "Database connection failed: connection to server failed");
                        ("ERROR", "Error in create_schema: connection to server failed")]) w).
Proof.
  unfold create_schema, call. fold dbname.
  unfold try_finally, try_except, let_conn. rewrite !run_bind.
  rewrite get_connection_run, connected_database_dbname.
  destruct (pg_login _).
  2:{ mrun. f_equal. world_eq. }
  cbn [cluster set_locals].
  destruct (cluster w !! dbname) as [d|] eqn:Hd.
  2:{ mrun. f_equal. world_eq. }
  unfold server_execute, working_database, with_txn. mrun. reflexivity.
Qed.

(** What [create_table] does, in every case. *)
Lemma create_table_run (w : world) :
  create_table w =
  if pg_login (connection_parameters dbname) then
    match cluster w !! dbname with
    | Some d =>
        if bool_decide ("warehouse" ∈ schemas d) then
          (Ok tt,
           mkWorld (heap w) (<[dbname := with_shipments d]> (cluster w))
             (conns w ++ [mkConnection dbname false false Idle])
             (cursors w ++ [mkCursor (length (conns w)) false None])
             (locals w)
             (log w ++ [("INFO", "Table 'shipments' created successfully")]))
        else
          (Raise (Psycopg2Error "schema does not exist"),
           mkWorld (heap w) (cluster w)
             (conns w ++ [mkConnection dbname false false Idle])
             (cursors w ++ [mkCursor (length (conns w)) false None])
             (locals w)
             (log w ++ [("ERROR", "Error in create_table: schema does not exist")]))
    | None =>
        (Raise (UnboundLocalError "cur"),
         set_log (log w ++ [("ERROR", "Database connection failed: database does not exist");
                            ("ERROR", "Error in create_table: database does not exist")]) w)
    end
  else
    (Raise (UnboundLocalError "cur"),
     set_log (log w ++ [("ERROR", "Database connection failed: connection to server failed");
                        ("ERROR", "Error in create_table: connection to server failed")]) w).
Proof.
  unfold create_table, call. fold dbname.
  unfold try_finally, try_except, let_conn. rewrite !run_bind.
  rewrite get_connection_run, connected_database_dbname.
  destruct (pg_login _).
  2:{ mrun. f_equal. world_eq. }
  cbn [cluster set_locals].
  destruct (cluster w !! dbname) as [d|] eqn:Hd.
  2:{ mrun. f_equal. world_eq. }
  unfold server_execute, working_database, with_txn, with_shipments. mrun.
  case_bool_decide as Hs; mrun; [|reflexivity].
  destruct (tables d !! shipments); mrun; reflexivity.
Qed.
End provisioning.

(** ** Rows are kept *)

Lemma same_rows_refl (cl : gmap string database) : same_rows cl cl.
Proof. by intros db name. Qed.

Lemma same_rows_trans (cl1 cl2 cl3 : gmap string database) :
  same_rows cl1 cl2 → same_rows cl2 cl3 → same_rows cl1 cl3.
Proof. intros H12 H23 db name. by rewrite H23, H12. Qed.

(** Replacing a database by one with the same rows in every table. *)
Lemma same_rows_insert (cl : gmap string database) (db : string) (d' : database) :
  (∀ name, match tables d' !! name with Some t => trows t | None => ∅ end
           = stored_rows cl db name) →
  same_rows cl (<[db := d']> cl).
Proof.
  intros Hrows db' name. unfold stored_rows at 1.
  destruct (decide (db = db')) as [<-|Hne].
  - rewrite lookup_insert_eq. apply Hrows.
  - by rewrite lookup_insert_ne.
Qed.

Section provisioning_keeps_rows.
Context `{Env}.

Lemma create_database_keeps (w w' : world) (r : result unit) :
  create_database w = (r, w') →
  same_rows (cluster w) (cluster w') ∧ heap w' = heap w.
Proof.
  rewrite create_database_run.
  destruct (pg_login _); [|by intros [= <- <-]].
  destruct (cluster w !! "postgres"); [|by intros [= <- <-]].
  case_bool_decide as Hex; intros [= <- <-]; cbn; [done|].
  split; [|done]. apply same_rows_insert. intros name.
  unfold stored_rows. apply not_elem_of_dom in Hex. rewrite Hex.
  cbn. by rewrite lookup_empty.
Qed.

Lemma create_schema_keeps (w w' : world) (r : result unit) :
  create_schema w = (r, w') →
  same_rows (cluster w) (cluster w') ∧ heap w' = heap w.
Proof.
  rewrite create_schema_run.
  destruct (pg_login _); [|by intros [= <- <-]].
  destruct (cluster w !! dbname) as [d|] eqn:Hd; intros [= <- <-]; cbn; [|done].
  split; [|done]. apply same_rows_insert. intros name.
  unfold stored_rows. by rewrite Hd.
Qed.

Lemma create_table_keeps (w w' : world) (r : result unit) :
  create_table w = (r, w') →
  same_rows (cluster w) (cluster w') ∧ heap w' = heap w.
Proof.
  rewrite create_table_run.
  destruct (pg_login _); [|by intros [= <- <-]].
  destruct (cluster w !! dbname) as [d|] eqn:Hd; [|by intros [= <- <-]].
  case_bool_decide; intros [= <- <-]; cbn; [|done].
  split; [|done]. apply same_rows_insert. intros name.
  unfold stored_rows, with_shipments. rewrite Hd.
  destruct (tables d !! shipments) eqn:Ht; [done|]. cbn.
  destruct (decide (shipments = name)) as [<-|Hne].
  - by rewrite lookup_insert_eq, Ht.
  - by rewrite lookup_insert_ne.
Qed.

(** A run on a file that fails validation: it raises, and no row of
    any table has changed; when provisioning went through, the error
    is the one of the validation. *)
Lemma main_rejects (w : world) (d : DataFrame) (e0 : exn) :
  csv_files "shipments.csv" = Ok d →
  validation d = Raise e0 →
  ∃ e w', main w = (Raise e, w') ∧
          same_rows (cluster w) (cluster w') ∧
          (∀ w1, provision w = (Ok tt, w1) → e = e0).
Proof.
  intros Hcsv Hval. unfold main, provision, try_except. rewrite !run_bind.
  destruct (create_database w) as [r1 w1] eqn:H1.
  apply create_database_keeps in H1 as [Hrows1 _].
  destruct r1 as [[]|e1].
  2:{ unfold logging_error. msimpl. eexists _, _. split; [done|]. by split. }
  rewrite !run_bind.
  destruct (create_schema w1) as [r2 w2] eqn:H2.
  apply create_schema_keeps in H2 as [Hrows2 _].
  pose proof (same_rows_trans _ _ _ Hrows1 Hrows2) as Hrows12.
  destruct r2 as [[]|e2].
  2:{ unfold logging_error. msimpl. eexists _, _. split; [done|]. by split. }
  rewrite !run_bind.
  destruct (create_table w2) as [r3 w3] eqn:H3.
  apply create_table_keeps in H3 as [Hrows3 _].
  pose proof (same_rows_trans _ _ _ Hrows12 Hrows3) as Hrows123.
  destruct r3 as [[]|e3].
  2:{ unfold logging_error. msimpl. eexists _, _. split; [done|]. by split. }
  rewrite !run_bind.
  unfold pd_read_csv, alloc, logging_info. rewrite Hcsv. msimpl.
  rewrite (transform_data_rejects _ _ d e0); [|cbn; apply lookup_snoc|done].
  unfold logging_error. msimpl.
  eexists _, _. split; [done|]. split; [done|]. by intros w' [= _].
Qed.
End provisioning_keeps_rows.

(** ** Provisioning, run to its end *)

Lemma with_shipments_has (d : database) : is_Some (tables (with_shipments d) !! shipments).
Proof.
  unfold with_shipments. destruct (tables d !! shipments) eqn:Ht; cbn.
  - by rewrite Ht.
  - by rewrite lookup_insert_eq.
Qed.

Lemma with_shipments_schemas (d : database) : schemas (with_shipments d) = schemas d.
Proof. unfold with_shipments. by destruct (tables d !! shipments). Qed.

Lemma provisioned_database_idempotent (d : database) :
  provisioned_database (provisioned_database d) = provisioned_database d.
Proof.
  unfold provisioned_database at 1.
  set (d' := provisioned_database d).
  assert (schemas d' = {["warehouse"]} ∪ schemas d) as Hs.
  { unfold d', provisioned_database. by rewrite with_shipments_schemas. }
  assert ({["warehouse"]} ∪ schemas d' = schemas d') as ->.
  { rewrite Hs. by rewrite (assoc_L (∪)), union_idemp_L. }
  destruct (with_shipments_has (mkDatabase ({["warehouse"]} ∪ schemas d) (tables d)))
    as [t Ht].
  fold (provisioned_database d) in Ht. fold d' in Ht.
  unfold with_shipments. cbn. rewrite Ht. by destruct d'.
Qed.

Section provision_runs.
Context `{Env}.

(** Provisioning goes through when the server lets the script in and
    has its bootstrap database. *)
Lemma provision_run (w : world) :
  pg_login (connection_parameters "postgres") = true →
  pg_login (connection_parameters dbname) = true →
  is_Some (cluster w !! "postgres") →
  ∃ w1, provision w = (Ok tt, w1) ∧
        cluster w1
        = <[dbname := provisioned_database (default new_database (cluster w !! dbname))]>
            (cluster w) ∧
        heap w1 = heap w ∧ locals w1 = locals w ∧ released w w1.
Proof.
  intros Hboot Htarget [d0 Hd0]. unfold provision.
  rewrite run_bind, create_database_run, Hboot, Hd0.
  assert (∀ S : gset string, "warehouse" ∈ {["warehouse"]} ∪ S) as Hin.
  { intros S. apply elem_of_union_l. by apply elem_of_singleton. }
  destruct (cluster w !! dbname) as [d|] eqn:Hdb; cbn [default].
  - rewrite bool_decide_eq_true_2 by (apply elem_of_dom; eauto).
    rewrite run_bind, create_schema_run, Htarget. cbn [cluster]. rewrite Hdb.
    rewrite create_table_run, Htarget. cbn [cluster conns cursors heap locals log].
    rewrite lookup_insert_eq, bool_decide_eq_true_2 by apply Hin.
    eexists. split; [reflexivity|]. cbn. rewrite insert_insert_eq.
    do 3 (split; [done|]).
    eexists [_; _; _]. rewrite <- !app_assoc. split; [done|]. by repeat constructor.
  - rewrite bool_decide_eq_false_2 by (by apply not_elem_of_dom).
    rewrite run_bind, create_schema_run, Htarget. cbn [cluster].
    rewrite lookup_insert_eq.
    rewrite create_table_run, Htarget. cbn [cluster conns cursors heap locals log].
    rewrite lookup_insert_eq, bool_decide_eq_true_2 by apply Hin.
    eexists. split; [reflexivity|]. cbn. rewrite !insert_insert_eq.
    do 3 (split; [done|]).
    eexists [_; _; _]. rewrite <- !app_assoc. split; [done|]. by repeat constructor.
Qed.

(** Provisioning what is provisioned changes nothing in the cluster. *)
Lemma provision_again (w w1 : world) :
  pg_login (connection_parameters "postgres") = true →
  pg_login (connection_parameters dbname) = true →
  is_Some (cluster w !! "postgres") →
  provision w = (Ok tt, w1) →
  ∃ w2, provision w1 = (Ok tt, w2) ∧ cluster w2 = cluster w1.
Proof.
  intros Hboot Htarget Hpg Hrun.
  destruct (provision_run w Hboot Htarget Hpg) as (w1' & Hrun1 & Hcl1 & _).
  rewrite Hrun in Hrun1. injection Hrun1 as <-.
  destruct (provision_run w1 Hboot Htarget) as (w2 & Hrun2 & Hcl2 & _).
  { rewrite Hcl1. destruct (decide (dbname = "postgres")) as [->|Hne].
    - by rewrite lookup_insert_eq.
    - by rewrite lookup_insert_ne. }
  exists w2. split; [done|].
  rewrite Hcl2, Hcl1, lookup_insert_eq. cbn.
  by rewrite provisioned_database_idempotent, insert_insert_eq.
Qed.
End provision_runs.

(** C5. Against a server that lets the script in, has its bootstrap
    database and not yet the target database, the three provisioning
    steps go through, and go through again, and the second run leaves
    the cluster as the first left it: the databases there were and the
    target database, in it the schema [warehouse] besides the schema a
    new database has, and the one table [warehouse.shipments], empty,
    with the definition of [create_table]. *)
Theorem provision_twice_as_once `{Env} (w : world) :
  pg_login (connection_parameters "postgres") = true →
  pg_login (connection_parameters dbname) = true →
  is_Some (cluster w !! "postgres") →
  cluster w !! dbname = None →
  ∃ w1 w2,
    provision w = (Ok tt, w1) ∧
    provision w1 = (Ok tt, w2) ∧
    cluster w2 = cluster w1 ∧
    dom (cluster w1) = {[dbname]} ∪ dom (cluster w) ∧
    (∀ db, db ≠ dbname → cluster w1 !! db = cluster w !! db) ∧
    cluster w1 !! dbname
    = Some (mkDatabase ({["warehouse"]} ∪ schemas new_database)
              {[shipments := mkTable shipments_def ∅]}).
Proof.
  intros Hboot Htarget Hpg Hfresh.
  destruct (provision_run w Hboot Htarget Hpg) as (w1 & Hrun1 & Hcl1 & _).
  destruct (provision_again w w1 Hboot Htarget Hpg Hrun1) as (w2 & Hrun2 & Hcl2).
  exists w1, w2. split; [done|]. split; [done|]. split; [done|].
  rewrite Hcl1, Hfresh. cbn.
  split; [apply dom_insert_L|].
  split; [intros db Hdb; by apply lookup_insert_ne|].
  rewrite lookup_insert_eq. f_equal.
Qed.

Lemma provision_twice_as_once_witness :
  let E := sample.env [] sample.anyone sample.clean_batch in
  ∃ w1 w2,
    provision sample.fresh = (Ok tt, w1) ∧
    provision w1 = (Ok tt, w2) ∧
    cluster w2 = cluster w1 ∧
    dom (cluster w1) = {["train"; "postgres"]}.
Proof.
  intros E.
  destruct (@provision_twice_as_once E sample.fresh)
    as (w1 & w2 & H1 & H2 & Heq & Hdom & _); try reflexivity.
  - by eexists.
  - exists w1, w2. do 3 (split; [done|]). rewrite Hdom.
    apply (bool_decide_unpack _). vm_compute. exact I.
Defined.

Lemma validation_missing (d : DataFrame) (col : string) :
  col ∈ required_columns → col ∉ columns d →
  validation d = Raise (AssertionError "Missing required columns").
Proof.
  intros Hcol Hnot. unfold validation.
  destruct (forallb _ required_columns) eqn:Hall; [|done]. exfalso.
  rewrite forallb_forall in Hall. specialize (Hall col).
  rewrite <- list_elem_of_In in Hall. apply Hall in Hcol.
  by apply bool_decide_eq_true in Hcol.
Qed.

(** C4. A file that lacks one of the twelve required columns is
    rejected by the validator, with the assertion on the columns; a run
    of [main] on it raises, and leaves every row of every table as it
    was: when provisioning went through, the error of the run is the
    validator's, so the load stage was not reached. *)
Theorem main_rejects_missing_column `{Env} (w : world) (d : DataFrame) (col : string) :
  csv_files "shipments.csv" = Ok d →
  col ∈ required_columns →
  col ∉ columns d →
  (∀ w0 df, heap w0 !! df = Some d →
     validate_data df w0 = (Raise (AssertionError "Missing required columns"), w0)) ∧
  ∃ e w',
    main w = (Raise e, w') ∧
    (∀ db name, stored_rows (cluster w') db name = stored_rows (cluster w) db name) ∧
    (∀ w1, provision w = (Ok tt, w1) → e = AssertionError "Missing required columns").
Proof.
  intros Hcsv Hcol Hnot.
  pose proof (validation_missing d col Hcol Hnot) as Hval.
  split.
  - intros w0 df Hdf. by rewrite (validate_data_run _ _ _ Hdf), Hval.
  - destruct (main_rejects w d _ Hcsv Hval) as (e & w' & Hrun & Hrows & He).
    by exists e, w'.
Qed.

Lemma main_rejects_missing_column_witness :
  let E := sample.env [] sample.anyone sample.batch_no_gender in
  ∃ w', main sample.fresh = (Raise (AssertionError "Missing required columns"), w') ∧
        stored_rows (cluster w') "train" shipments = ∅.
Proof.
  intros E.
  destruct (@main_rejects_missing_column E sample.fresh sample.batch_no_gender "Gender")
    as (_ & e & w' & Hrun & Hrows & He).
  - reflexivity.
  - unfold required_columns. in_list.
  - apply (bool_decide_unpack _). vm_compute. exact I.
  - exists w'. specialize (Hrows "train" shipments).
    destruct (provision sample.fresh) as [r1 w1] eqn:Hprov.
    vm_compute in Hprov. injection Hprov as <- <-.
    rewrite (He _ eq_refl) in Hrun. by split.
Defined.

(** C3 (as amended). A well-formed frame with a rating outside [1, 5]
    or a flag other than 0 and 1 is rejected as a whole: [validate_data]
    raises and changes nothing, a run of [main] on such a file raises
    and leaves every row of every table as it was.  The error is an
    assertion whose message tells the check that failed (the columns,
    the ratings, the flags), unless the rating column holds a text: the
    comparison of the ratings then raises a TypeError of its own. *)
Theorem validator_rejects_out_of_range `{Env} (w : world) (d : DataFrame) :
  NoDup (columns d) →
  (∃ s v, ("Customer_rating", s) ∈ series d ∧ v ∈ s ∧ ¬ in_rating_range v) ∨
  (∃ s v, ("Reached.on.Time_Y.N", s) ∈ series d ∧ v ∈ s ∧ ¬ is_flag v) →
  ∃ e0,
    (∀ w0 df, heap w0 !! df = Some d → validate_data df w0 = (Raise e0, w0)) ∧
    ((e0 = AssertionError "Missing required columns" ∧
        ∃ col, col ∈ required_columns ∧ col ∉ columns d) ∨
     (e0 = AssertionError "Invalid customer ratings" ∧
        ∃ s v, ("Customer_rating", s) ∈ series d ∧ v ∈ s ∧ ¬ in_rating_range v) ∨
     (e0 = AssertionError "Invalid reached on time values" ∧
        ∃ s v, ("Reached.on.Time_Y.N", s) ∈ series d ∧ v ∈ s ∧ ¬ is_flag v) ∨
     (e0 = TypeError "'>=' not supported between instances of 'str' and 'int'" ∧
        ∃ s x, ("Customer_rating", s) ∈ series d ∧ VStr x ∈ s)) ∧
    (csv_files "shipments.csv" = Ok d →
     ∃ e w',
       main w = (Raise e, w') ∧
       (∀ db name, stored_rows (cluster w') db name = stored_rows (cluster w) db name) ∧
       (∀ w1, provision w = (Ok tt, w1) → e = e0)).
Proof.
  intros Hnd Hbad.
  destruct (validation_rejects d Hnd Hbad) as (e0 & Hval & Hkind).
  exists e0. split; [|split; [done|]].
  - intros w0 df Hdf. by rewrite (validate_data_run _ _ _ Hdf), Hval.
  - intros Hcsv.
    destruct (main_rejects w d _ Hcsv Hval) as (e & w' & Hrun & Hrows & He).
    by exists e, w'.
Qed.

Lemma validator_rejects_out_of_range_witness :
  let E := sample.env [] sample.anyone sample.batch_bad_rating in
  validate_data 0 (sample.holding sample.batch_bad_rating)
  = (Raise (AssertionError "Invalid customer ratings"),
     sample.holding sample.batch_bad_rating) ∧
  ∃ w', main sample.fresh = (Raise (AssertionError "Invalid customer ratings"), w') ∧
        stored_rows (cluster w') "train" shipments = ∅.
Proof.
  intros E.
  destruct (@validator_rejects_out_of_range E sample.fresh sample.batch_bad_rating)
    as (e0 & Hval & _ & Hmain).
  - apply (bool_decide_unpack _). vm_compute. exact I.
  - left. exists [VInt 2; VInt 9], (VInt 9).
    split; [vm_compute; in_list|]. split; [in_list|].
    intros (z & [= <-] & Hz). lia.
  - specialize (Hval (sample.holding sample.batch_bad_rating) 0 eq_refl).
    assert (e0 = AssertionError "Invalid customer ratings") as ->.
    { vm_compute in Hval. by injection Hval as <-. }
    split; [exact Hval|].
    destruct (Hmain eq_refl) as (e & w' & Hrun & Hrows & He).
    exists w'. specialize (Hrows "train" shipments).
    destruct (provision sample.fresh) as [r1 w1] eqn:Hprov.
    vm_compute in Hprov. injection Hprov as <- <-.
    rewrite (He _ eq_refl) in Hrun. by split.
Defined.

(** C3, as stated, fails: in this frame a flag is 7, and the ratings
    are written in letters; [validate_data] raises the TypeError of the
    comparison, whose message names no check. *)
Lemma validator_type_error_on_text_rating :
  (∃ s, ("Reached.on.Time_Y.N", s) ∈ series sample.batch_text_rating ∧
        VInt 7 ∈ s ∧ ¬ is_flag (VInt 7)) ∧
  NoDup (columns sample.batch_text_rating) ∧
  validate_data 0 (sample.holding sample.batch_text_rating)
  = (Raise (TypeError "'>=' not supported between instances of 'str' and 'int'"),
     sample.holding sample.batch_text_rating).
Proof.
  split; [|split; [apply (bool_decide_unpack _); vm_compute; exact I|reflexivity]].
  exists [VInt 1; VInt 7].
  split; [vm_compute; in_list|]. split; [in_list|].
  intros [[=]|[=]].
Qed.

(** C9 (the code departs from it). The five settings are read from the
    environment with the defaults train, postgre, postgre, localhost,
    5432, and the connection to the target database is opened with all
    five.  The connection to the bootstrap database is opened with the
    configured user, password and host, and with no port: with
    DB_PORT=6543 and a server that listens on that port only, the
    target database is reached and the bootstrap database is not. *)
Theorem get_connection_bootstrap_omits_port :
  @DB_CONFIG (sample.env [] sample.anyone sample.clean_batch)
  = [ ("dbname", "train"); ("user", "postgre"); ("password", "postgre");
      ("host", "localhost"); ("port", "5432") ] ∧
  let E := sample.env [("DB_HOST", "db.internal"); ("DB_PORT", "6543")]
             sample.on_port_6543 sample.clean_batch in
  connection_parameters "train"
  = [ ("dbname", "train"); ("user", "postgre"); ("password", "postgre");
      ("host", "db.internal"); ("port", "6543") ] ∧
  connection_parameters "postgres"
  = [ ("dbname", "postgres"); ("user", "postgre"); ("password", "postgre");
      ("host", "db.internal") ] ∧
  (get_connection "train" sample.with_train).1 = Ok 0 ∧
  (get_connection "postgres" sample.with_train).1
  = Raise (Psycopg2Error "connection to server failed").
Proof. repeat split; reflexivity. Qed.

(** C8 (the code departs from it). When the connection cannot be
    opened, the [finally] block of each of the four operations reads
    [cur], which was never bound: the operation ends with an
    UnboundLocalError raised by the cleanup, in place of the error of
    the connection, which is left in the log only. *)
Theorem cleanup_raises_when_connection_fails :
  let E := sample.env [] sample.nobody sample.clean_batch in
  let failed (operation : string) :=
    [ ("ERROR", "Database connection failed: connection to server failed");
      ("ERROR", "Error in " +:+ operation +:+ ": connection to server failed") ] in
  (get_connection "postgres" sample.fresh).1
  = Raise (Psycopg2Error "connection to server failed") ∧
  create_database sample.fresh
  = (Raise (UnboundLocalError "cur"), set_log (failed "create_database") sample.fresh) ∧
  create_schema sample.fresh
  = (Raise (UnboundLocalError "cur"), set_log (failed "create_schema") sample.fresh) ∧
  create_table sample.fresh
  = (Raise (UnboundLocalError "cur"), set_log (failed "create_table") sample.fresh) ∧
  (load_data 0 (sample.holding sample.clean_batch)).1
  = Raise (UnboundLocalError "cur").
Proof. repeat split; reflexivity. Qed.

(** ** Upserts, on tables *)

Lemma assign_excluded_lookup (cs : list string) (excluded old : gmap string value)
    (c : string) :
  assign_excluded cs excluded old !! c
  = if bool_decide (c ∈ cs) then Some (default VNull (excluded !! c)) else old !! c.
Proof.
  induction cs as [|a cs IH].
  - cbn. rewrite bool_decide_eq_false_2; [done|apply not_elem_of_nil].
  - change (assign_excluded (a :: cs) excluded old)
      with (<[a := default VNull (excluded !! a)]> (assign_excluded cs excluded old)).
    destruct (decide (a = c)) as [->|Hne].
    + rewrite lookup_insert_eq, bool_decide_eq_true_2; [done|by left].
    + rewrite lookup_insert_ne, IH by done.
      case_bool_decide as H1; case_bool_decide as H2; try done; exfalso.
      * apply H2. by right.
      * apply elem_of_cons in H2 as [->|?]; done.
Qed.

Section upserts.
Context `{Env}.

Lemma proposed_row_is_some (cs : list column) (cols : list string)
    (record : list value) :
  ∀ excluded, proposed_row cs cols record = Ok excluded →
    ∀ c, c ∈ map col_name cs → is_Some (excluded !! c).
Proof.
  induction cs as [|col cs IH]; intros excluded Hrow c Hc.
  - by apply elem_of_nil in Hc.
  - cbn in Hrow. destruct (proposed_row cs cols record) as [r|] eqn:Hr; [|done].
    assert (∃ v, excluded = <[col_name col := v]> r) as [v ->].
    { destruct (param_of cols record (col_name col)).
      - destruct (pg_assign _ _); [|done]. injection Hrow as <-. by eexists.
      - destruct (col_default col) as [[]|]; injection Hrow as <-; by eexists. }
    cbn in Hc. apply elem_of_cons in Hc as [->|Hc].
    + rewrite lookup_insert_eq. by eexists.
    + destruct (decide (col_name col = c)) as [->|Hne].
      * rewrite lookup_insert_eq. by eexists.
      * rewrite lookup_insert_ne by done. by apply (IH r).
Qed.




(** One upsert that succeeds. *)
Lemma upsert_row_inv (t t' : table) (q : upsert_query) (record : list value) :
  upsert_row t q record = Ok t' →
  ∃ excluded k,
    proposed_row (tcolumns (tdef t)) (ins_columns q) record = Ok excluded ∧
    record_key (tdef t) (ins_columns q) record = Some k ∧
    tdef t' = tdef t ∧
    trows t' = <[k := upserted q excluded (trows t !! k)]> (trows t) ∧
    length record = length (ins_columns q) ∧
    (∀ c, c ∈ ins_columns q ∨ c ∈ set_columns q → c ∈ column_names (tdef t)).
Proof.
  unfold upsert_row. intros Hup.
  destruct (bool_decide (length record = placeholders q)) eqn:Hlen;
    cbn [negb] in Hup; [|done].
  destruct (bool_decide (set_columns q = [])) eqn:Hset; [done|].
  destruct (bool_decide (length (ins_columns q) = placeholders q)) eqn:Hins;
    cbn [negb] in Hup; [|done].
  destruct (forallb _ _) eqn:Hcols; cbn [negb] in Hup; [|done].
  destruct (bool_decide (NoDup (ins_columns q))); cbn [negb] in Hup; [|done].
  destruct (bool_decide (conflict_target q = tpkey (tdef t))); cbn [negb] in Hup; [|done].
  apply bool_decide_eq_true in Hlen, Hins.
  destruct (proposed_row _ _ _) as [excluded|] eqn:Hrow; [|done].
  destruct (excluded !! tpkey (tdef t)) as [[k| |]|] eqn:Hk; try done.
  destruct (checks_hold (tdef t) excluded); cbn [negb] in Hup; [|done].
  exists excluded, k. split; [done|].
  split; [unfold record_key; by rewrite Hrow, Hk|].
  assert (tdef t' = tdef t ∧
          trows t' = <[k := upserted q excluded (trows t !! k)]> (trows t)) as [? ?].
  { destruct (trows t !! k) as [old|]; cbn.
    - destruct (checks_hold _ _); cbn [negb] in Hup; [|done]. by injection Hup as <-.
    - by injection Hup as <-. }
  do 2 (split; [done|]). split; [congruence|].
  intros c Hc. rewrite forallb_forall in Hcols.
  specialize (Hcols c). rewrite <- list_elem_of_In, elem_of_app in Hcols.
  apply Hcols in Hc. by apply bool_decide_eq_true in Hc.
Qed.

Lemma upsert_many_def (q : upsert_query) (records : list (list value)) :
  ∀ t t', upsert_many t q records = Ok t' → tdef t' = tdef t.
Proof.
  induction records as [|r records IH]; intros t t' Hmany; cbn in Hmany.
  - by injection Hmany as <-.
  - destruct (upsert_row t q r) as [t1|] eqn:Hrow; [|done].
    apply upsert_row_inv in Hrow as (_ & _ & _ & _ & Hdef & _).
    rewrite <- Hdef. by apply IH.
Qed.

(** A key no record has: its row is as it was. *)
Lemma upsert_many_other (q : upsert_query) (records : list (list value)) (k : Z) :
  ∀ t t', upsert_many t q records = Ok t' →
    (∀ r, r ∈ records → record_key (tdef t) (ins_columns q) r ≠ Some k) →
    trows t' !! k = trows t !! k.
Proof.
  induction records as [|r records IH]; intros t t' Hmany Hother; cbn in Hmany.
  - by injection Hmany as <-.
  - destruct (upsert_row t q r) as [t1|] eqn:Hrow; [|done].
    apply upsert_row_inv in Hrow as (ex & k1 & _ & Hk1 & Hdef & Hrows & _).
    rewrite (IH t1 t' Hmany).
    + rewrite Hrows. apply lookup_insert_ne. intros ->.
      by apply (Hother r); [left|].
    + intros r' Hr'. rewrite Hdef. apply Hother. by right.
Qed.

(** A row there was: it is still there, the same in every column the
    statement does not set. *)
Lemma upsert_many_keeps (q : upsert_query) (records : list (list value)) (k : Z) :
  ∀ t t' old, upsert_many t q records = Ok t' →
    trows t !! k = Some old →
    ∃ new, trows t' !! k = Some new ∧
           ∀ c, c ∉ set_columns q → new !! c = old !! c.
Proof.
  induction records as [|r records IH]; intros t t' old Hmany Hold; cbn in Hmany.
  - injection Hmany as <-. by exists old.
  - destruct (upsert_row t q r) as [t1|] eqn:Hrow; [|done].
    apply upsert_row_inv in Hrow as (ex & k1 & _ & Hk1 & Hdef & Hrows & _).
    destruct (decide (k1 = k)) as [->|Hne].
    + destruct (IH t1 t' (upserted q ex (Some old)) Hmany) as (new & Hnew & Hsame).
      { by rewrite Hrows, Hold, lookup_insert_eq. }
      exists new. split; [done|]. intros c Hc. rewrite (Hsame c Hc). cbn.
      rewrite assign_excluded_lookup. by rewrite bool_decide_eq_false_2.
    + apply (IH t1 t' old Hmany). by rewrite Hrows, lookup_insert_ne.
Qed.


(** The last record of a key: the row stored under the key has, in
    every column the statement sets, the value proposed for it. *)
Lemma upsert_many_latest (q : upsert_query) (records : list (list value)) (k : Z) :
  ∀ t t' i r, upsert_many t q records = Ok t' →
    records !! i = Some r →
    record_key (tdef t) (ins_columns q) r = Some k →
    (∀ j r', i < j → records !! j = Some r' →
       record_key (tdef t) (ins_columns q) r' ≠ Some k) →
    ∃ excluded new,
      proposed_row (tcolumns (tdef t)) (ins_columns q) r = Ok excluded ∧
      trows t' !! k = Some new ∧
      ∀ c, c ∈ set_columns q → new !! c = excluded !! c ∧ is_Some (new !! c).
Proof.
  induction records as [|r0 records IH]; intros t t' i r Hmany Hi Hkey Hlast;
    cbn in Hmany; [done|].
  destruct (upsert_row t q r0) as [t1|] eqn:Hrow; [|done].
  apply upsert_row_inv in Hrow as (ex & k1 & Hex & Hk1 & Hdef & Hrows & _ & Hnames).
  destruct i as [|i]; cbn in Hi.
  - injection Hi as <-. assert (k1 = k) as -> by congruence.
    exists ex, (upserted q ex (trows t !! k)). split; [done|]. split.
    + rewrite (upsert_many_other q records k t1 t' Hmany).
      * by rewrite Hrows, lookup_insert_eq.
      * intros r' Hr'. apply list_elem_of_lookup in Hr' as [j Hj].
        rewrite Hdef. apply (Hlast (S j)); [lia|done].
    + intros c Hc.
      assert (is_Some (ex !! c)) as [v Hv].
      { apply (proposed_row_is_some _ _ _ _ Hex). apply Hnames. by right. }
      destruct (trows t !! k) as [old|]; cbn.
      * rewrite assign_excluded_lookup, bool_decide_eq_true_2 by done.
        rewrite Hv. cbn. by split.
      * rewrite Hv. by split.
  - rewrite <- Hdef in *. apply (IH t1 t' i r Hmany Hi Hkey).
    intros j r' Hj Hr'. apply (Hlast (S j)); [lia|done].
Qed.



(** The upserts on a database are those on its table. *)
Lemma run_many_table (q : upsert_query) (records : list (list value)) :
  ∀ d t, tables d !! into q = Some t →
    run_many q records d =
    match upsert_many t q records with
    | Ok t' => Ok (mkDatabase (schemas d) (<[into q := t']> (tables d)))
    | Raise e => Raise e
    end.
Proof.
  induction records as [|r records IH]; intros d t Ht; cbn.
  - rewrite insert_id by done. by destruct d.
  - rewrite Ht. destruct (upsert_row t q r) as [t1|]; [|done].
    rewrite (IH _ t1) by apply lookup_insert_eq. cbn.
    destruct (upsert_many t1 q records); [|done]. by rewrite insert_insert_eq.
Qed.

Lemma run_many_no_table (q : upsert_query) (records : list (list value))
    (d d' : database) :
  tables d !! into q = None → run_many q records d = Ok d' →
  records = [] ∧ d' = d.
Proof.
  intros Ht. destruct records as [|r records]; cbn.
  - by intros [= <-].
  - by rewrite Ht.
Qed.
End upserts.

(** ** Loading *)

Section loading.
Context `{Env}.

Lemma txn_after_step (q : upsert_query) (record : list value)
    (records : list (list value)) (t : txn_state) (d1 : database) :
  txn_after (InTxn d1) records (run_many q records d1)
  = txn_after t (record :: records) (run_many q records d1).
Proof.
  destruct records as [|r rs]; [done|].
  by destruct (run_many q (r :: rs) d1).
Qed.

(** [executemany] on a fresh cursor of a connection in a transaction
    that is not aborted. *)
Lemma cur_executemany_run (q : upsert_query) (records : list (list value)) :
  ∀ (w : world) (cur conn : nat) (db : string) (t : txn_state) (d : database),
    cursors w !! cur = Some (mkCursor conn true None) →
    conns w !! conn = Some (mkConnection db true false t) →
    t ≠ Aborted →
    working_database (cluster w) (mkConnection db true false t) = Some d →
    cur_executemany cur q records w
    = (match run_many q records d with Ok _ => Ok tt | Raise e => Raise e end,
       set_conns (<[conn := mkConnection db true false
                              (txn_after t records (run_many q records d))]> (conns w)) w).
Proof.
  induction records as [|record records IH]; intros w cur conn db t d Hcur Hconn Ht Hd.
  - cbn. rewrite list_insert_id by done. by destruct w.
  - unfold cur_executemany. cbn [for_each]. rewrite run_bind.
    fold (cur_executemany cur q records).
    unfold cur_execute at 1, on_connection. rewrite Hcur. cbn [cur_open cur_conn].
    rewrite Hconn. cbn [conn_open].
    unfold server_execute. cbn [autocommit txn]. rewrite Hd.
    destruct t as [|d0|]; [| |done];
      (cbn [run_many]; destruct (run_statement d (Upsert q record)) as [d1|e]; cbn;
       [|reflexivity];
       rewrite (list_insert_id (cursors w)) by done;
       erewrite IH;
         [|exact Hcur|cbn; apply list_lookup_insert_eq; by eapply lookup_lt_Some|done|done];
       cbn; rewrite list_insert_insert_eq;
       match goal with
       | |- context [txn_after ?t0 (record :: records) _] =>
           rewrite (txn_after_step q record records t0 d1)
       end; by destruct w).
Qed.

End loading.

#[local] Arguments cur_executemany : simpl never.
#[local] Arguments pd.values_tolist : simpl never.
#[local] Arguments columns : simpl never.
#[local] Arguments insert_query_of : simpl never.
#[local] Arguments run_many : simpl never.
#[local] Arguments pretty : simpl never.

Section load_data_runs.
Context `{Env}.

(** What [load_data] does once the connection is open. *)
Lemma load_data_run (w : world) (df : nat) (fr : DataFrame) (d0 : database) :
  pg_login (connection_parameters dbname) = true →
  cluster w !! dbname = Some d0 →
  heap w !! df = Some fr →
  load_data df w =
  match run_many (insert_query_of (columns fr)) (pd.values_tolist fr) d0 with
  | Ok d1 =>
      (Ok tt,
       mkWorld (heap w) (committed (cluster w) dbname (pd.values_tolist fr) d1)
         (conns w ++ [mkConnection dbname false false Idle])
         (cursors w ++ [mkCursor (length (conns w)) false None])
         (locals w)
         (log w ++ [("INFO", "Successfully loaded " +:+ pretty (length (pd.values_tolist fr))
                             +:+ " records into the database")]))
  | Raise e =>
      (Raise e,
       mkWorld (heap w) (cluster w)
         (conns w ++ [mkConnection dbname false false Idle])
         (cursors w ++ [mkCursor (length (conns w)) false None])
         (locals w)
         (log w ++ [("ERROR", "Error in load_data: " +:+ str e)]))
  end.
Proof.
  intros Hlogin Hd0 Hdf.
  unfold load_data, call. fold dbname.
  unfold try_finally, try_except, let_conn. rewrite !run_bind.
  rewrite get_connection_run, connected_database_dbname, Hlogin.
  cbn [cluster set_locals]. rewrite Hd0.
  unfold df_columns, df_values_tolist, deref.
  fold (insert_query_of (columns fr)).
  mrun.
  rewrite (cur_executemany_run _ _ _ _ (length (conns w)) dbname Idle d0);
    [|cbn; apply lookup_snoc|cbn; apply lookup_snoc|done|done].
  change (mkUpsert shipments (columns fr) _ _ _) with (insert_query_of (columns fr)).
  destruct (run_many (insert_query_of (columns fr)) (pd.values_tolist fr) d0) as [d1|e];
    mrun.
  - unfold committed. destruct (pd.values_tolist fr); mrun; reflexivity.
  - reflexivity.
Qed.
End load_data_runs.

(** ** Loading, on the rows of the table *)




Section load_data_rows.
Context `{Env}.

Lemma load_data_connects (w w1 : world) (df : nat) :
  load_data df w = (Ok tt, w1) →
  pg_login (connection_parameters dbname) = true ∧ is_Some (cluster w !! dbname).
Proof.
  unfold load_data, call. fold dbname.
  unfold try_finally, try_except, let_conn. rewrite !run_bind.
  rewrite get_connection_run, connected_database_dbname.
  destruct (pg_login _); [|by mrun].
  cbn [cluster set_locals].
  destruct (cluster w !! dbname) as [d0|]; [by eauto|by mrun].
Qed.


End load_data_rows.

Lemma values_tolist_length (d : DataFrame) : length (pd.values_tolist d) = nrows d.
Proof. unfold pd.values_tolist. by rewrite length_map, length_seq. Qed.



(** C6 (as amended). With the connection open, [load_data] executes the
    upserts of all records in one transaction.  When they all succeed,
    the transaction is committed and the number of records is logged.
    When one raises, nothing is committed: the cluster is as it was,
    also for the records before the failing one; the error of the
    failing statement is logged and raised again as it is.  In both
    cases the cursor and the connection are closed. *)
Theorem load_data_all_or_nothing `{Env} (w : world) (df : nat) (d : DataFrame)
    (d0 : database) :
  heap w !! df = Some d →
  pg_login (connection_parameters dbname) = true →
  cluster w !! dbname = Some d0 →
  ∃ w',
    match run_many (insert_query_of (columns d)) (pd.values_tolist d) d0 with
    | Ok d1 =>
        load_data df w = (Ok tt, w') ∧
        cluster w' = <[dbname := d1]> (cluster w) ∧
        log w' = log w ++
                 [("INFO", "Successfully loaded " +:+ pretty (nrows d) +:+
                           " records into the database")]
    | Raise e =>
        load_data df w = (Raise e, w') ∧
        cluster w' = cluster w ∧
        log w' = log w ++ [("ERROR", "Error in load_data: " +:+ str e)]
    end ∧
    heap w' = heap w ∧
    conns w' = conns w ++ [mkConnection dbname false false Idle] ∧
    cursors w' = cursors w ++ [mkCursor (length (conns w)) false None].
Proof.
  intros Hdf Hlogin Hd0.
  rewrite (load_data_run _ _ _ _ Hlogin Hd0 Hdf).
  destruct (run_many _ _ d0) as [d1|e] eqn:Hmany.
  - eexists. split.
    + split; [reflexivity|]. cbn.
      split; [|by rewrite values_tolist_length].
      unfold committed. destruct (pd.values_tolist d); [|done].
      injection Hmany as <-. by rewrite insert_id.
    + by repeat split.
  - eexists. split.
    + split; [reflexivity|]. by split.
    + by repeat split.
Qed.

Lemma load_data_all_or_nothing_witness :
  let E := sample.env [] sample.anyone sample.clean_batch in
  (∃ w', load_data 0 (sample.provisioned [sample.ready]) = (Ok tt, w') ∧
         log w' = [("INFO", "Successfully loaded 2 records into the database")] ∧
         Forall (λ c, conn_open c = false) (conns w')) ∧
  (∃ w', load_data 0 (sample.provisioned [sample.half_ready])
         = (Raise (Psycopg2Error "invalid input value"), w') ∧
         log w' = [("ERROR", "Error in load_data: invalid input value")] ∧
         stored_rows (cluster w') dbname shipments = ∅ ∧
         Forall (λ c, conn_open c = false) (conns w')).
Proof.
  intros E. split.
  - destruct (@load_data_all_or_nothing E (sample.provisioned [sample.ready]) 0
                sample.ready (provisioned_database new_database))
      as (w' & Hrun & _ & Hconns & _); [reflexivity..|].
    destruct (run_many _ _ _) as [d1|e] eqn:Hmany;
      [|exfalso; vm_compute in Hmany; discriminate].
    destruct Hrun as (Hrun & _ & Hlog).
    exists w'. split; [exact Hrun|]. split; [exact Hlog|].
    rewrite Hconns. by repeat constructor.
  - destruct (@load_data_all_or_nothing E (sample.provisioned [sample.half_ready]) 0
                sample.half_ready (provisioned_database new_database))
      as (w' & Hrun & _ & Hconns & _); [reflexivity..|].
    destruct (run_many _ _ _) as [d1|e] eqn:Hmany;
      [exfalso; vm_compute in Hmany; discriminate|].
    assert (e = Psycopg2Error "invalid input value") as ->.
    { vm_compute in Hmany. by injection Hmany as <-. }
    destruct Hrun as (Hrun & Hcl & Hlog).
    exists w'. split; [exact Hrun|]. split; [exact Hlog|].
    rewrite Hcl, Hconns. split; [reflexivity|]. by repeat constructor.
Defined.

(** C6, as stated, fails: a load of two records and a load of three
    raise the same error, whose message is the server's, and log the
    same line: neither names the number of records. *)
Lemma load_error_names_no_row_count :
  let E := sample.env [] sample.anyone sample.clean_batch in
  let w := sample.provisioned [sample.unready; sample.longer_unready] in
  nrows sample.unready = 2 ∧ nrows sample.longer_unready = 3 ∧
  (load_data 0 w).1 = Raise (Psycopg2Error "invalid input value") ∧
  (load_data 1 w).1 = Raise (Psycopg2Error "invalid input value") ∧
  log (load_data 0 w).2 = [("ERROR", "Error in load_data: invalid input value")] ∧
  log (load_data 1 w).2 = [("ERROR", "Error in load_data: invalid input value")].
Proof. repeat split; reflexivity. Qed.

(** * Further properties *)

(** ** Validation and transformation, once more *)

(** What a frame that passes validation has. *)
Lemma validation_ok_inv (d : DataFrame) :
  validation d = Ok true →
  (∀ col, col ∈ required_columns → col ∈ columns d) ∧
  ∃ rating flag,
    List.filter (pd.labelled "Customer_rating") (series d) = [rating] ∧
    List.filter (pd.labelled "Reached.on.Time_Y.N") (series d) = [flag] ∧
    (∀ v, v ∈ rating.2 → in_rating_range v) ∧
    (∀ v, v ∈ flag.2 → is_flag v).
Proof.
  intros Hval. split; [by apply validation_required|].
  revert Hval. unfold validation, pd.getitem.
  destruct (forallb _ required_columns); cbn [negb]; [|done].
  destruct (List.filter (pd.labelled "Customer_rating") (series d))
    as [|rating [|? ?]]; try done.
  unfold pd.between. destruct (existsb pd.is_text rating.2); [done|].
  destruct (pd.all (map (pd.cell_between 1 5) rating.2)) eqn:Hrange; cbn [negb]; [|done].
  destruct (List.filter (pd.labelled "Reached.on.Time_Y.N") (series d))
    as [|flag [|? ?]]; try done.
  unfold pd.isin.
  destruct (pd.all (map (pd.cell_isin [0; 1]%Z) flag.2)) eqn:Hflag; cbn [negb]; [|done].
  intros _. exists rating, flag. do 2 (split; [done|]). split.
  - intros v Hv. apply cell_between_range. by eapply all_map_true in Hrange.
  - intros v Hv. apply cell_isin_flag. by eapply all_map_true in Hflag.
Qed.

(** No label is renamed to [ID]. *)
Lemma renamed_not_ID (l : string) : pd.renamed column_mapping l ≠ "ID".
Proof.
  unfold column_mapping. cbn [pd.renamed].
  repeat case_bool_decide; subst; done.
Qed.

Lemma fill_is_numeric (l : string) : l ∈ fill_values.*1 → l ∈ numeric_columns.
Proof.
  unfold fill_values, numeric_columns. cbn. intros Hl.
  in_cases Hl; subst; in_list.
Qed.

(** The label of a numeric target column is not renamed. *)
Lemma numeric_fixed (t : string) :
  t ∈ numeric_columns → pd.renamed column_mapping t = t.
Proof. unfold numeric_columns. intros Ht. in_cases Ht; subst; reflexivity. Qed.

(** Two columns that satisfy a test: the selection has two at least. *)
Lemma filter_two {A} (P : A → bool) (l : list A) (i j : nat) (a b : A) :
  i < j → l !! i = Some a → l !! j = Some b → P a = true → P b = true →
  (2 ≤ length (List.filter P l))%nat.
Proof.
  revert i j. induction l as [|x l IH]; intros i j Hij Hi Hj Ha Hb; [done|].
  destruct i as [|i].
  - cbn in Hi. injection Hi as ->. cbn. rewrite Ha. cbn.
    destruct j as [|j]; [lia|]. cbn in Hj.
    assert (b ∈ List.filter P l) as Hin.
    { apply elem_of_filter_bool. split; [by eapply list_elem_of_lookup_2|done]. }
    destruct (List.filter P l); [by apply elem_of_nil in Hin|]. cbn. lia.
  - destruct j as [|j]; [lia|]. cbn in Hi, Hj.
    assert (2 ≤ length (List.filter P l))%nat by (apply (IH i j); [lia|done..]).
    cbn. destruct (P x); cbn; lia.
Qed.

Section transform_data_succeeds.
Context `{Env}.

(** A transformation that returns: the frame had passed validation, its
    numeric columns were unambiguous, and the state is the one of
    [transform_data_returns]. *)
Lemma transform_data_ok_inv (w w' : world) (df out : nat) (d : DataFrame) :
  heap w !! df = Some d →
  transform_data df w = (Ok out, w') →
  validation d = Ok true ∧
  (∀ key, key ∈ numeric_columns → sole (pd.rename column_mapping d) key) ∧
  out = S (length (heap w)) ∧
  heap w' = heap w ++ [coerce_columns numeric_columns (pd.rename column_mapping d);
                       transformed d] ∧
  log w' = log w ++ [("INFO", "Data transformation completed successfully")] ∧
  cluster w' = cluster w ∧ conns w' = conns w.
Proof.
  intros Hdf Hrun.
  destruct (validation d) as [b|e] eqn:Hval.
  - pose proof (validation_ok_true _ _ Hval) as ->.
    destruct (transform_data_cases w df d Hdf Hval) as [Hsole|(e & w2 & Hraise & _)].
    + rewrite (transform_data_returns _ _ _ Hdf Hval Hsole) in Hrun.
      by injection Hrun as <- <-.
    + congruence.
  - rewrite (transform_data_rejects _ _ _ _ Hdf Hval) in Hrun. done.
Qed.

Lemma transform_data_ok_out (w w' : world) (df out : nat) (d : DataFrame) :
  heap w !! df = Some d →
  transform_data df w = (Ok out, w') →
  heap w' !! out = Some (transformed d).
Proof.
  intros Hdf Hrun.
  destruct (transform_data_ok_inv _ _ _ _ _ Hdf Hrun) as (_ & _ & -> & -> & _).
  apply lookup_snoc2.
Qed.

(** The columns of the transformed frame, one by one. *)
Lemma transformed_series (d : DataFrame) (l' : string) (s' : Series) :
  (l', s') ∈ series (transformed d) →
  ∃ l s, (l, s) ∈ series d ∧ l' = pd.renamed column_mapping l ∧
    s' = (let numeric := if bool_decide (l' ∈ numeric_columns)
                         then map pd.coerce s else s in
          if bool_decide (l' ∈ fill_values.*1)
          then map (pd.fill_cell (VInt 0)) numeric else numeric).
Proof.
  intros Hin. apply list_elem_of_lookup in Hin as [j Hj].
  assert (j < length (series d)) as Hlt.
  { apply lookup_lt_Some in Hj. revert Hj.
    unfold transformed, pd.fillna, coerce_columns, pd.rename. cbn [series].
    by rewrite !length_map. }
  apply lookup_lt_is_Some in Hlt as [[l s] Hls].
  rewrite (transformed_column _ _ _ _ Hls) in Hj. injection Hj as <- <-.
  exists l, s. split; [by eapply list_elem_of_lookup_2|done].
Qed.
End transform_data_succeeds.



(** X2. The frame a transformation returns is fit for the table: no
    numeric column holds a text, the three columns that are filled hold
    numbers only, every rating is within 1 and 5 and every on-time flag
    is 0 or 1, as the table's constraints require. *)
Theorem transform_data_output_fits `{Env} (w w' : world) (df out : nat) (d : DataFrame) :
  heap w !! df = Some d →
  transform_data df w = (Ok out, w') →
  ∃ d', heap w' !! out = Some d' ∧
    ∀ l s v, (l, s) ∈ series d' → v ∈ s →
      (l ∈ numeric_columns → pd.is_text v = false) ∧
      (l ∈ fill_values.*1 → ∃ z, v = VInt z) ∧
      (l = "customer_rating" → in_rating_range v) ∧
      (l = "reached_on_time" → is_flag v).
Proof.
  intros Hdf Hrun. exists (transformed d).
  split; [by eapply transform_data_ok_out|].
  destruct (transform_data_ok_inv _ _ _ _ _ Hdf Hrun) as (Hval & Hsole & _).
  destruct (validation_ok_inv _ Hval) as (_ & rating & flag & Hr & Hf & Hrange & Hflag).
  intros l' s' v Hin Hv.
  destruct (transformed_series _ _ _ Hin) as (l & s & Hls & -> & ->).
  assert (∀ v0 : value, pd.is_text (pd.coerce v0) = false) as Hco.
  { intros [z|x|]; cbn; [done| |done]. by destruct (parse_numeric x). }
  assert (∀ src t c, List.filter (pd.labelled src) (series d) = [c] →
            pd.renamed column_mapping src = t → t ∈ numeric_columns →
            pd.renamed column_mapping l = t → s = c.2) as Hsrc.
  { intros src t c Hc Hren Ht Hl.
    destruct (Hsole t Ht) as [c' Hc'].
    assert (∀ a, a ∈ series d → pd.renamed column_mapping a.1 = t →
              (t, a.2) = c') as Hall.
    { intros a Ha Hat.
      assert ((t, a.2) ∈ List.filter (pd.labelled t) (series (pd.rename column_mapping d)))
        as Hfin.
      { apply elem_of_filter_bool. split.
        - unfold pd.rename. cbn [series]. apply list_elem_of_In, in_map_iff.
          exists a. split; [by rewrite Hat|by apply list_elem_of_In].
        - unfold pd.labelled. cbn. by apply bool_decide_eq_true_2. }
      rewrite Hc' in Hfin. by apply list_elem_of_singleton in Hfin. }
    assert (c ∈ series d ∧ pd.labelled src c = true) as [Hcin Hclab].
    { apply elem_of_filter_bool. rewrite Hc. by left. }
    apply bool_decide_eq_true in Hclab.
    pose proof (Hall (l, s) Hls Hl) as H1.
    pose proof (Hall c Hcin) as H2. rewrite Hclab in H2. specialize (H2 Hren).
    cbn in H1. rewrite <- H2 in H1. by injection H1. }
  repeat split.
  - intros Hnum. rewrite (bool_decide_eq_true_2 _ Hnum) in Hv. cbn zeta in Hv.
    destruct (bool_decide (_ ∈ fill_values.*1)).
    + apply list_elem_of_fmap in Hv as (v1 & -> & Hv).
      apply list_elem_of_fmap in Hv as (v0 & -> & Hv).
      specialize (Hco v0). by destruct (pd.coerce v0).
    + apply list_elem_of_fmap in Hv as (v0 & -> & Hv). apply Hco.
  - intros Hfill. pose proof (fill_is_numeric _ Hfill) as Hnum.
    rewrite (bool_decide_eq_true_2 _ Hnum), (bool_decide_eq_true_2 _ Hfill) in Hv.
    cbn zeta in Hv.
    apply list_elem_of_fmap in Hv as (v1 & -> & Hv).
    apply list_elem_of_fmap in Hv as (v0 & -> & Hv).
    specialize (Hco v0). destruct (pd.coerce v0) as [z|x|]; cbn; [by eexists|done|by eexists].
  - intros Hl. rewrite Hl in Hv.
    rewrite (Hsrc "Customer_rating" "customer_rating" rating Hr) in Hv;
      [|done|unfold numeric_columns; in_list|done].
    cbn in Hv. apply list_elem_of_fmap in Hv as (v0 & -> & Hv).
    destruct (Hrange _ Hv) as (z & -> & Hz). by exists z.
  - intros Hl. rewrite Hl in Hv.
    rewrite (Hsrc "Reached.on.Time_Y.N" "reached_on_time" flag Hf) in Hv;
      [|done|unfold numeric_columns; in_list|done].
    cbn in Hv. apply list_elem_of_fmap in Hv as (v0 & -> & Hv).
    by destruct (Hflag _ Hv) as [-> | ->]; [left|right].
Qed.

Lemma transform_data_output_fits_witness :
  let E := sample.env [] sample.anyone sample.batch in
  ∃ d', heap (transform_data 0 (sample.holding sample.batch)).2 !! 2%nat = Some d' ∧
        ∀ s v, ("cost_of_the_product", s) ∈ series d' → v ∈ s → pd.is_text v = false.
Proof.
  intros E.
  destruct (transform_data 0 (sample.holding sample.batch)) as [r w'] eqn:Hrun.
  assert (r = Ok 2) as -> by (vm_compute in Hrun; by injection Hrun as <- _).
  destruct (@transform_data_output_fits E (sample.holding sample.batch) w' 0 2
              sample.batch eq_refl Hrun) as (d' & Hout & Hfit).
  exists d'. split; [exact Hout|].
  intros s v Hs Hv. destruct (Hfit _ _ _ Hs Hv) as (Hnum & _).
  apply Hnum. unfold numeric_columns. in_list.
Defined.

(** X3. The frame a transformation returns is no input for a second
    one: it has no column [ID], so that validating it, and transforming
    it again, raise the assertion on the columns. *)
Theorem transform_data_not_repeatable `{Env} (w w' : world) (df out : nat) (d : DataFrame) :
  heap w !! df = Some d →
  transform_data df w = (Ok out, w') →
  validate_data out w' = (Raise (AssertionError "Missing required columns"), w') ∧
  ∃ w'', transform_data out w' = (Raise (AssertionError "Missing required columns"), w'').
Proof.
  intros Hdf Hrun.
  pose proof (transform_data_ok_out _ _ _ _ _ Hdf Hrun) as Hout.
  assert (validation (transformed d) = Raise (AssertionError "Missing required columns"))
    as Hval.
  { apply (validation_missing _ "ID"); [unfold required_columns; in_list|].
    rewrite transformed_columns. intros Hin.
    apply list_elem_of_In, in_map_iff in Hin as (l & Hl & _).
    by apply renamed_not_ID in Hl. }
  split.
  - by rewrite (validate_data_run _ _ _ Hout), Hval.
  - eexists. by apply (transform_data_rejects _ _ (transformed d)).
Qed.

Lemma transform_data_not_repeatable_witness :
  let E := sample.env [] sample.anyone sample.batch in
  let w' := (transform_data 0 (sample.holding sample.batch)).2 in
  validate_data 2 w' = (Raise (AssertionError "Missing required columns"), w').
Proof.
  intros E w'.
  assert (transform_data 0 (sample.holding sample.batch) = (Ok 2, w')) as Hrun
    by (vm_compute; reflexivity).
  clearbody w'.
  by destruct (@transform_data_not_repeatable E (sample.holding sample.batch) w' 0 2
                 sample.batch eq_refl Hrun) as [Hv _].
Defined.

(** X4. A column that already bears the label of one of the seven
    numeric target columns stops the transformation: the frame passes
    validation, and [transform_data] raises, leaving the input as it
    was. *)
Theorem transform_data_refuses_target_label `{Env} (w : world) (df : nat)
    (d : DataFrame) (t : string) :
  heap w !! df = Some d →
  validate_data df w = (Ok true, w) →
  t ∈ numeric_columns →
  t ∈ columns d →
  ∃ e w', transform_data df w = (Raise e, w') ∧ heap w' !! df = Some d.
Proof.
  intros Hdf Hvalid Ht Hin.
  rewrite (validate_data_run _ _ _ Hdf) in Hvalid.
  assert (validation d = Ok true) as Hval by congruence.
  destruct (transform_data_cases w df d Hdf Hval) as [Hsole|(e & w' & Hraise & Hkeep)].
  2:{ exists e, w'. split; [done|]. by apply Hkeep. }
  exfalso. destruct (Hsole t Ht) as [c Hc].
  destruct (numeric_source t Ht) as (src & Hsrc & Hren & _).
  assert (src ≠ t) as Hne.
  { intros ->. revert Hsrc Ht. unfold required_columns, numeric_columns.
    intros Hsrc Ht. in_cases Hsrc; subst; in_cases Ht; discriminate. }
  pose proof (validation_required d Hval src Hsrc) as Hsrcin.
  unfold columns in Hin, Hsrcin.
  apply list_elem_of_lookup in Hin as [i Hi].
  apply list_elem_of_lookup in Hsrcin as [j Hj].
  rewrite list_lookup_fmap in Hi, Hj.
  destruct (series d !! i) as [[l1 s1]|] eqn:Hi'; [|done].
  destruct (series d !! j) as [[l2 s2]|] eqn:Hj'; [|done].
  cbn in Hi, Hj. injection Hi as ->. injection Hj as ->.
  assert (i ≠ j) as Hij by (intros ->; congruence).
  pose proof (numeric_fixed t Ht) as Hfix.
  assert (2 ≤ length (List.filter (pd.labelled t) (series (pd.rename column_mapping d))))%nat
    as Htwo.
  { unfold pd.rename. cbn [series].
    destruct (decide (i < j)).
    - apply (filter_two _ _ i j (t, s1) (t, s2)); [done| | |..].
      + rewrite list_lookup_fmap, Hi'. cbn. by rewrite Hfix.
      + rewrite list_lookup_fmap, Hj'. cbn. by rewrite Hren.
      + unfold pd.labelled. by apply bool_decide_eq_true_2.
      + unfold pd.labelled. by apply bool_decide_eq_true_2.
    - apply (filter_two _ _ j i (t, s2) (t, s1)); [lia| | |..].
      + rewrite list_lookup_fmap, Hj'. cbn. by rewrite Hren.
      + rewrite list_lookup_fmap, Hi'. cbn. by rewrite Hfix.
      + unfold pd.labelled. by apply bool_decide_eq_true_2.
      + unfold pd.labelled. by apply bool_decide_eq_true_2. }
  rewrite Hc in Htwo. cbn in Htwo. lia.
Qed.

Lemma transform_data_refuses_target_label_witness :
  let E := sample.env [] sample.anyone sample.batch_clash in
  ∃ e w', transform_data 0 (sample.holding sample.batch_clash) = (Raise e, w') ∧
          heap w' !! 0%nat = Some sample.batch_clash.
Proof.
  intros E.
  apply (@transform_data_refuses_target_label E (sample.holding sample.batch_clash) 0
           sample.batch_clash "weight_in_gms").
  - reflexivity.
  - reflexivity.
  - unfold numeric_columns. in_list.
  - vm_compute. in_list.
Defined.

(** X5. The validator reports the first check that fails.  On a
    well-formed frame with the required columns and no text among the
    ratings: a rating that is missing or outside 1 to 5 gives the
    assertion on the ratings, whatever the flags are; with all ratings
    in range, a flag other than 0 and 1 gives the assertion on the
    flags. *)
Theorem validate_data_reports_first_failure (w : world) (df : nat) (d : DataFrame)
    (rating flag : Series) :
  heap w !! df = Some d →
  NoDup (columns d) →
  (∀ col, col ∈ required_columns → col ∈ columns d) →
  ("Customer_rating", rating) ∈ series d →
  ("Reached.on.Time_Y.N", flag) ∈ series d →
  (∀ v, v ∈ rating → pd.is_text v = false) →
  ((∃ v, v ∈ rating ∧ ¬ in_rating_range v) →
   validate_data df w = (Raise (AssertionError "Invalid customer ratings"), w)) ∧
  ((∀ v, v ∈ rating → in_rating_range v) → (∃ v, v ∈ flag ∧ ¬ is_flag v) →
   validate_data df w = (Raise (AssertionError "Invalid reached on time values"), w)).
Proof.
  intros Hdf Hnd Hreq Hr Hf Htext.
  rewrite (validate_data_run _ _ _ Hdf). unfold validation.
  replace (forallb _ required_columns) with true.
  2:{ symmetry. apply forallb_forall. intros col Hcol.
      apply bool_decide_eq_true_2, Hreq. by apply list_elem_of_In. }
  cbn [negb].
  rewrite (getitem_unique _ _ _ Hnd Hr), (getitem_unique _ _ _ Hnd Hf).
  unfold pd.between.
  replace (existsb pd.is_text rating) with false.
  2:{ symmetry. apply not_true_iff_false. intros Hex.
      apply existsb_exists in Hex as (v & Hv & Hvt).
      apply list_elem_of_In in Hv. by rewrite (Htext v Hv) in Hvt. }
  split.
  - intros (v & Hv & Hbad).
    replace (pd.all (map (pd.cell_between 1 5) rating)) with false; [done|].
    symmetry. apply not_true_iff_false. intros Hall.
    apply Hbad, cell_between_range. by eapply all_map_true in Hall.
  - intros Hrange (v & Hv & Hbad).
    replace (pd.all (map (pd.cell_between 1 5) rating)) with true.
    2:{ symmetry. apply all_map_true. intros v0 Hv0. apply cell_between_range. auto. }
    cbn [negb]. unfold pd.isin.
    replace (pd.all (map (pd.cell_isin [0; 1]%Z) flag)) with false; [done|].
    symmetry. apply not_true_iff_false. intros Hall.
    apply Hbad, cell_isin_flag. by eapply all_map_true in Hall.
Qed.

Lemma validate_data_reports_first_failure_witness :
  validate_data 0 (sample.holding sample.batch_bad_both)
  = (Raise (AssertionError "Invalid customer ratings"), sample.holding sample.batch_bad_both).
Proof.
  destruct (validate_data_reports_first_failure (sample.holding sample.batch_bad_both) 0
              sample.batch_bad_both [VInt 2; VNull] [VInt 1; VInt 7]) as [Hrating _].
  - reflexivity.
  - apply (bool_decide_unpack _). vm_compute. exact I.
  - intros col Hcol. unfold required_columns in Hcol.
    in_cases Hcol; subst; vm_compute; in_list.
  - vm_compute. in_list.
  - vm_compute. in_list.
  - intros v Hv. in_cases Hv; subst; reflexivity.
  - apply Hrating. exists VNull. split; [in_list|]. intros (z & Hz & _). discriminate.
Defined.

(** ** Connections, once more *)

(** X6. [get_connection] either returns a new connection, open, not in
    autocommit mode and with no transaction begun, and logs nothing; or
    it raises the error of the driver after logging it once, and opens
    nothing.  In both cases the cluster, the frames and the cursors are
    as they were. *)
Theorem get_connection_outcome `{Env} (database : string) (w w' : world)
    (r : result nat) :
  get_connection database w = (r, w') →
  cluster w' = cluster w ∧ heap w' = heap w ∧ cursors w' = cursors w ∧
  match r with
  | Ok conn =>
      conn = length (conns w) ∧
      conns w' = conns w ++ [mkConnection (connected_database database) true false Idle] ∧
      log w' = log w
  | Raise e =>
      is_psycopg2_error e = true ∧ conns w' = conns w ∧
      log w' = log w ++ [("ERROR", "Database connection failed: " +:+ str e)]
  end.
Proof.
  rewrite get_connection_run.
  destruct (pg_login _); [|by intros [= <- <-]].
  destruct (cluster w !! _); by intros [= <- <-].
Qed.

Lemma get_connection_outcome_witness :
  let E := sample.env [] sample.nobody sample.clean_batch in
  log (get_connection "train" sample.fresh).2
  = [("ERROR", "Database connection failed: connection to server failed")].
Proof.
  intros E.
  destruct (get_connection "train" sample.fresh) as [r w'] eqn:Hrun.
  destruct (@get_connection_outcome E "train" sample.fresh w' r Hrun)
    as (_ & _ & _ & Hr).
  assert (r = Raise (Psycopg2Error "connection to server failed")) as ->
    by (vm_compute in Hrun; by injection Hrun as <- _).
  destruct Hr as (_ & _ & Hlog). exact Hlog.
Defined.

(** X7. The argument of [get_connection] is a switch, not a name: any
    value other than [postgres] gives the same connection attempt, and
    a connection that is made is to the configured target database,
    whatever database was named. *)
Theorem get_connection_target_is_configured `{Env} (a b : string) (w : world) :
  a ≠ "postgres" → b ≠ "postgres" →
  get_connection a w = get_connection b w ∧
  ∀ conn w', get_connection a w = (Ok conn, w') →
    conns w' !! conn = Some (mkConnection (item DB_CONFIG "dbname") true false Idle).
Proof.
  intros Ha Hb. split.
  - unfold get_connection. by rewrite !bool_decide_eq_false_2.
  - intros conn w'. rewrite get_connection_run.
    unfold connected_database. rewrite bool_decide_eq_false_2 by done.
    destruct (pg_login _); [|done].
    destruct (cluster w !! dbname); [|done].
    intros [= <- <-]. cbn. apply lookup_snoc.
Qed.

Lemma get_connection_target_is_configured_witness :
  let E := sample.env [] sample.anyone sample.clean_batch in
  get_connection "analytics" sample.with_train = get_connection "train" sample.with_train ∧
  conns (get_connection "analytics" sample.with_train).2 !! 0%nat
  = Some (mkConnection "train" true false Idle).
Proof.
  intros E.
  destruct (@get_connection_target_is_configured E "analytics" "train" sample.with_train)
    as [Hsame Hto]; [done..|].
  split; [exact Hsame|].
  destruct (get_connection "analytics" sample.with_train) as [r w'] eqn:Hrun.
  assert (r = Ok 0%nat) as -> by (vm_compute in Hrun; by injection Hrun as <- _).
  exact (Hto 0%nat w' eq_refl).
Defined.

(** ** Provisioning, once more *)

(** X8. [create_table] needs the schema: on a target database without
    the schema [warehouse] it raises the error of the statement, after
    logging it; nothing is committed, and the cursor and the connection
    it opened are closed. *)
Theorem create_table_needs_schema `{Env} (w : world) (d : database) :
  pg_login (connection_parameters dbname) = true →
  cluster w !! dbname = Some d →
  "warehouse" ∉ schemas d →
  ∃ w', create_table w = (Raise (Psycopg2Error "schema does not exist"), w') ∧
        cluster w' = cluster w ∧ heap w' = heap w ∧ locals w' = locals w ∧
        conns w' = conns w ++ [mkConnection dbname false false Idle] ∧
        cursors w' = cursors w ++ [mkCursor (length (conns w)) false None] ∧
        log w' = log w ++ [("ERROR", "Error in create_table: schema does not exist")].
Proof.
  intros Hlogin Hd Hno.
  rewrite create_table_run, Hlogin, Hd, bool_decide_eq_false_2 by done.
  eexists. split; [reflexivity|]. by repeat split.
Qed.

Lemma create_table_needs_schema_witness :
  let E := sample.env [] sample.anyone sample.clean_batch in
  ∃ w', create_table sample.with_train
        = (Raise (Psycopg2Error "schema does not exist"), w') ∧
        cluster w' = cluster sample.with_train ∧
        conns w' = [mkConnection "train" false false Idle].
Proof.
  intros E.
  destruct (@create_table_needs_schema E sample.with_train new_database)
    as (w' & Hrun & Hcl & _ & _ & Hconns & _).
  - reflexivity.
  - reflexivity.
  - apply (bool_decide_unpack _). vm_compute. exact I.
  - exists w'. split; [exact Hrun|]. split; [exact Hcl|]. exact Hconns.
Defined.

Lemma extends_refl (cl : gmap string database) : extends cl cl.
Proof. intros db d Hd. exists d. by split. Qed.

Lemma extends_trans (cl1 cl2 cl3 : gmap string database) :
  extends cl1 cl2 → extends cl2 cl3 → extends cl1 cl3.
Proof.
  intros H12 H23 db d Hd.
  destruct (H12 db d Hd) as (d2 & Hd2 & Hs2 & Ht2).
  destruct (H23 db d2 Hd2) as (d3 & Hd3 & Hs3 & Ht3).
  exists d3. split; [done|]. split; [set_solver|]. auto.
Qed.

(** A new database, or one of a cluster replaced by a larger one. *)
Lemma extends_insert (cl : gmap string database) (db : string) (d' : database) :
  (∀ d, cl !! db = Some d →
     schemas d ⊆ schemas d' ∧
     ∀ name t, tables d !! name = Some t → tables d' !! name = Some t) →
  extends cl (<[db := d']> cl).
Proof.
  intros Hd' db0 d0 Hd0. destruct (decide (db = db0)) as [<-|Hne].
  - exists d'. rewrite lookup_insert_eq. split; [done|]. by apply Hd'.
  - exists d0. rewrite lookup_insert_ne by done. by split.
Qed.

Section provisioning_extends.
Context `{Env}.

Lemma create_database_extends (w w' : world) (r : result unit) :
  create_database w = (r, w') → extends (cluster w) (cluster w').
Proof.
  rewrite create_database_run.
  destruct (pg_login _); [|intros [= <- <-]; apply extends_refl].
  destruct (cluster w !! "postgres"); [|intros [= <- <-]; apply extends_refl].
  case_bool_decide as Hex; intros [= <- <-]; cbn; [apply extends_refl|].
  apply extends_insert. intros d1 Hd1. exfalso. apply Hex, elem_of_dom. by eexists.
Qed.

Lemma create_schema_extends (w w' : world) (r : result unit) :
  create_schema w = (r, w') → extends (cluster w) (cluster w').
Proof.
  rewrite create_schema_run.
  destruct (pg_login _); [|intros [= <- <-]; apply extends_refl].
  destruct (cluster w !! dbname) as [d|] eqn:Hd; intros [= <- <-]; cbn;
    [|apply extends_refl].
  apply extends_insert. intros d0 Hd0. rewrite Hd in Hd0. injection Hd0 as <-.
  cbn. split; [set_solver|done].
Qed.

Lemma create_table_extends (w w' : world) (r : result unit) :
  create_table w = (r, w') → extends (cluster w) (cluster w').
Proof.
  rewrite create_table_run.
  destruct (pg_login _); [|intros [= <- <-]; apply extends_refl].
  destruct (cluster w !! dbname) as [d|] eqn:Hd; [|intros [= <- <-]; apply extends_refl].
  case_bool_decide; intros [= <- <-]; cbn; [|apply extends_refl].
  apply extends_insert. intros d0 Hd0. rewrite Hd in Hd0. injection Hd0 as <-.
  rewrite with_shipments_schemas. split; [done|].
  intros name t Ht. unfold with_shipments.
  destruct (tables d !! shipments) eqn:Hs; [done|]. cbn.
  rewrite lookup_insert_ne; [done|]. intros <-. congruence.
Qed.
End provisioning_extends.

(** X9. Provisioning only adds.  However the three steps end, every
    database there was is still there, with every schema it had, and
    every table it had is as it was, definition and rows: a table
    [warehouse.shipments] that exists is not made again. *)
Theorem provisioning_only_adds `{Env} (w w' : world) (r : result unit) :
  provision w = (r, w') →
  ∀ db d, cluster w !! db = Some d →
    ∃ d', cluster w' !! db = Some d' ∧ schemas d ⊆ schemas d' ∧
          ∀ name t, tables d !! name = Some t → tables d' !! name = Some t.
Proof.
  intros Hrun. change (extends (cluster w) (cluster w')).
  revert Hrun. unfold provision. rewrite !run_bind.
  destruct (create_database w) as [r1 w1] eqn:H1.
  apply create_database_extends in H1.
  destruct r1 as [[]|e1]; [|by intros [= <- <-]].
  rewrite !run_bind.
  destruct (create_schema w1) as [r2 w2] eqn:H2.
  apply create_schema_extends in H2.
  destruct r2 as [[]|e2]; [|intros [= <- <-]; by eapply extends_trans].
  intros H3. apply create_table_extends in H3.
  eapply extends_trans; [|exact H3]. by eapply extends_trans.
Qed.

Lemma provisioning_only_adds_witness :
  let E := sample.env [] sample.anyone sample.clean_batch in
  (provision sample.with_legacy).1 = Ok tt ∧
  table_at (cluster (provision sample.with_legacy).2) "train" shipments
  = Some sample.legacy.
Proof.
  intros E. split; [vm_compute; reflexivity|].
  destruct (provision sample.with_legacy) as [r w'] eqn:Hrun.
  destruct (@provisioning_only_adds E sample.with_legacy w' r Hrun "train"
              (mkDatabase {["public"]} {[ shipments := sample.legacy ]}))
    as (d' & Hd' & _ & Htab); [reflexivity|].
  unfold table_at. cbn [snd]. rewrite Hd'. apply Htab. reflexivity.
Defined.

(** ** What a run leaves open *)

Lemma settled_same (w w' : world) :
  conns w' = conns w → cursors w' = cursors w → locals w' = locals w →
  settled w w'.
Proof.
  intros Hco Hcu Hlo. split; [|split; [|done]].
  - exists []. rewrite app_nil_r. by split.
  - exists []. rewrite app_nil_r. by split.
Qed.

Lemma settled_one (w w' : world) (c : connection) (k : cursor) :
  conns w' = conns w ++ [c] → conn_open c = false →
  cursors w' = cursors w ++ [k] → cur_open k = false →
  locals w' = locals w →
  settled w w'.
Proof.
  intros Hco Hc Hcu Hk Hlo. split; [|split; [|done]].
  - exists [c]. split; [done|]. by repeat constructor.
  - exists [k]. split; [done|]. by repeat constructor.
Qed.

Lemma settled_trans (w1 w2 w3 : world) :
  settled w1 w2 → settled w2 w3 → settled w1 w3.
Proof.
  intros ((o1 & Ho1 & Hc1) & (k1 & Hk1 & Hd1) & Hl1)
         ((o2 & Ho2 & Hc2) & (k2 & Hk2 & Hd2) & Hl2).
  split; [|split; [|congruence]].
  - exists (o1 ++ o2). rewrite Ho2, Ho1, <- app_assoc. split; [done|].
    by apply Forall_app.
  - exists (k1 ++ k2). rewrite Hk2, Hk1, <- app_assoc. split; [done|].
    by apply Forall_app.
Qed.


Section what_is_left.
Context `{Env}.

Lemma create_database_settled (w w' : world) (r : result unit) :
  create_database w = (r, w') → settled w w' ∧ heap w' = heap w.
Proof.
  rewrite create_database_run.
  destruct (pg_login _); [|intros [= <- <-]; split; [by apply settled_same|done]].
  destruct (cluster w !! "postgres");
    [|intros [= <- <-]; split; [by apply settled_same|done]].
  case_bool_decide; intros [= <- <-]; (split; [by eapply settled_one|done]).
Qed.

Lemma create_schema_settled (w w' : world) (r : result unit) :
  create_schema w = (r, w') → settled w w' ∧ heap w' = heap w.
Proof.
  rewrite create_schema_run.
  destruct (pg_login _); [|intros [= <- <-]; split; [by apply settled_same|done]].
  destruct (cluster w !! dbname); intros [= <- <-];
    (split; [|done]); [by eapply settled_one|by apply settled_same].
Qed.

Lemma create_table_settled (w w' : world) (r : result unit) :
  create_table w = (r, w') → settled w w' ∧ heap w' = heap w.
Proof.
  rewrite create_table_run.
  destruct (pg_login _); [|intros [= <- <-]; split; [by apply settled_same|done]].
  destruct (cluster w !! dbname);
    [|intros [= <- <-]; split; [by apply settled_same|done]].
  case_bool_decide; intros [= <- <-]; (split; [by eapply settled_one|done]).
Qed.

(** [load_data] when the connection is not made: the clean-up fails on
    the cursor there is not, nothing else happens. *)
Lemma load_data_unconnected (w : world) (df : nat) :
  pg_login (connection_parameters dbname) = false ∨ cluster w !! dbname = None →
  ∃ lines, load_data df w
           = (Raise (UnboundLocalError "cur"), set_log (log w ++ lines) w).
Proof.
  intros Hno.
  unfold load_data, call. fold dbname.
  unfold try_finally, try_except, let_conn. rewrite !run_bind.
  rewrite get_connection_run, connected_database_dbname.
  destruct (pg_login _) eqn:Hlogin.
  - destruct Hno as [?|Hnone]; [done|]. cbn [cluster set_locals]. rewrite Hnone. mrun.
    eexists [_]. by destruct w.
  - mrun. eexists [_]. by destruct w.
Qed.

(** What [load_data] may do to the cluster. *)
Lemma load_data_outcome (w w' : world) (df : nat) (fr : DataFrame) (r : result unit) :
  heap w !! df = Some fr →
  load_data df w = (r, w') →
  settled w w' ∧ heap w' = heap w ∧
  (cluster w' = cluster w ∨
   ∃ d0 d1, cluster w !! dbname = Some d0 ∧
            run_many (insert_query_of (columns fr)) (pd.values_tolist fr) d0 = Ok d1 ∧
            cluster w' = <[dbname := d1]> (cluster w)).
Proof.
  intros Hdf.
  destruct (pg_login (connection_parameters dbname)) eqn:Hlogin.
  2:{ destruct (load_data_unconnected w df) as [lines ->]; [by left|].
      intros [= <- <-]. split; [by apply settled_same|]. split; [done|by left]. }
  destruct (cluster w !! dbname) as [d0|] eqn:Hd0.
  2:{ destruct (load_data_unconnected w df) as [lines ->]; [by right|].
      intros [= <- <-]. split; [by apply settled_same|]. split; [done|by left]. }
  rewrite (load_data_run _ _ _ _ Hlogin Hd0 Hdf).
  destruct (run_many _ _ d0) as [d1|e] eqn:Hmany; intros [= <- <-].
  - split; [by eapply settled_one|]. split; [done|]. right.
    exists d0, d1. do 2 (split; [done|]). cbn.
    unfold committed. destruct (pd.values_tolist fr); [|done].
    injection Hmany as <-. by rewrite insert_id.
  - split; [by eapply settled_one|]. split; [done|by left].
Qed.

(** What [transform_data] leaves alone. *)
Lemma transform_data_frame (w w' : world) (df : nat) (d : DataFrame) (r : result nat) :
  heap w !! df = Some d →
  transform_data df w = (r, w') →
  cluster w' = cluster w ∧ conns w' = conns w ∧ cursors w' = cursors w ∧
  locals w' = locals w.
Proof.
  intros Hdf.
  destruct (validation d) as [b|e] eqn:Hval.
  2:{ rewrite (transform_data_rejects _ _ _ _ Hdf Hval). by intros [= <- <-]. }
  pose proof (validation_ok_true _ _ Hval) as ->.
  destruct (for_each numeric_columns (λ col,
              selected ← df_getitem (length (heap w)) col;
              numeric ← lift (pd.to_numeric selected);
              df_setitem (length (heap w)) col numeric)
            (set_heap (heap w ++ [pd.rename column_mapping d]) w))
    as [[[]|e] w2] eqn:Hloop.
  - rewrite (transform_data_returns _ _ _ Hdf Hval).
    + by intros [= <- <-].
    + eapply coerce_loop_inv; [|exact Hloop]. apply lookup_snoc.
  - unfold transform_data, try_except.
    rewrite run_bind, (validate_data_run _ _ _ Hdf), Hval.
    rewrite run_bind, (run_df_copy _ _ _ Hdf).
    rewrite run_bind, (run_df_rename_inplace _ _ d) by apply lookup_snoc.
    cbn [heap set_heap]. rewrite insert_snoc.
    change (set_heap ?h (set_heap _ w)) with (set_heap h w).
    rewrite run_bind, Hloop. unfold logging_error. msimpl.
    apply coerce_loop_frame in Hloop as (_ & _ & Hcl & Hco & Hcu & Hlo & _).
    by intros [= <- <-].
Qed.
End what_is_left.

(** X10. A run of [main] leaves nothing open.  However it ends, the
    connections that were opened during the run are closed, and so are
    the cursors; none that was there before is touched. *)
Theorem main_leaves_nothing_open `{Env} (w w' : world) (r : result unit) :
  main w = (r, w') →
  (∃ opened, conns w' = conns w ++ opened ∧
             Forall (λ c, conn_open c = false) opened) ∧
  (∃ opened, cursors w' = cursors w ++ opened ∧
             Forall (λ k, cur_open k = false) opened).
Proof.
  intros Hrun.
  assert (settled w w') as (Hco & Hcu & _); [|by split].
  revert Hrun. unfold main, try_except. rewrite !run_bind.
  destruct (create_database w) as [r1 w1] eqn:H1.
  apply create_database_settled in H1 as [H1 _].
  destruct r1 as [[]|e1].
  2:{ unfold logging_error. msimpl. by intros [= <- <-]. }
  rewrite !run_bind.
  destruct (create_schema w1) as [r2 w2] eqn:H2.
  apply create_schema_settled in H2 as [H2 _].
  pose proof (settled_trans _ _ _ H1 H2) as H12.
  destruct r2 as [[]|e2].
  2:{ unfold logging_error. msimpl. by intros [= <- <-]. }
  rewrite !run_bind.
  destruct (create_table w2) as [r3 w3] eqn:H3.
  apply create_table_settled in H3 as [H3 _].
  pose proof (settled_trans _ _ _ H12 H3) as H123.
  destruct r3 as [[]|e3].
  2:{ unfold logging_error. msimpl. by intros [= <- <-]. }
  rewrite !run_bind.
  unfold pd_read_csv, alloc, logging_info.
  destruct (csv_files "shipments.csv") as [d|e4]; msimpl.
  2:{ unfold logging_error. msimpl. by intros [= <- <-]. }
  set (w4 := set_log _ _).
  assert (heap w4 !! length (heap w3) = Some d) as Hdf by (cbn; apply lookup_snoc).
  assert (settled w w4) as H4 by done.
  clearbody w4.
  destruct (transform_data (length (heap w3)) w4) as [r5 w5] eqn:H5.
  pose proof (transform_data_frame _ _ _ _ _ Hdf H5) as (_ & Hco5 & Hcu5 & Hlo5).
  assert (settled w w5) as H45.
  { eapply settled_trans; [exact H4|]. by apply settled_same. }
  destruct r5 as [out|e5].
  2:{ unfold logging_error. msimpl. by intros [= <- <-]. }
  pose proof (transform_data_ok_out _ _ _ _ _ Hdf H5) as Hout.
  destruct (load_data out w5) as [r6 w6] eqn:H6.
  apply (load_data_outcome _ _ _ _ _ Hout) in H6 as (H6 & _).
  pose proof (settled_trans _ _ _ H45 H6) as H456.
  destruct r6 as [[]|e6]; unfold logging_error; msimpl; by intros [= <- <-].
Qed.

Lemma main_leaves_nothing_open_witness :
  let E := sample.env [] sample.anyone sample.clean_batch in
  Forall (λ c, conn_open c = false) (conns (main sample.fresh).2).
Proof.
  intros E.
  destruct (main sample.fresh) as [r w'] eqn:Hrun.
  destruct (@main_leaves_nothing_open E sample.fresh w' r Hrun)
    as ((opened & Hco & Hclosed) & _).
  cbn [snd]. rewrite Hco. exact Hclosed.
Defined.

(** ** Loading, once more *)

Lemma values_tolist_empty (d : DataFrame) : nrows d = 0 → pd.values_tolist d = [].
Proof. unfold pd.values_tolist. by intros ->. Qed.


Section upsert_refused.
Context `{Env}.


(** The upserts of a batch change one table of the database, and of
    that table the rows only. *)
Lemma run_many_frame (q : upsert_query) (records : list (list value))
    (d d' : database) :
  run_many q records d = Ok d' →
  schemas d' = schemas d ∧
  (∀ name, name ≠ into q → tables d' !! name = tables d !! name) ∧
  match tables d !! into q with
  | Some t => ∃ t', tables d' !! into q = Some t' ∧ tdef t' = tdef t
  | None => tables d' !! into q = None
  end.
Proof.
  intros Hmany. destruct (tables d !! into q) as [t|] eqn:Ht.
  - rewrite (run_many_table _ _ _ _ Ht) in Hmany.
    destruct (upsert_many t q records) as [t'|] eqn:Hup; [|done].
    injection Hmany as <-. cbn. split; [done|]. split.
    + intros name Hne. by apply lookup_insert_ne.
    + exists t'. split; [apply lookup_insert_eq|by eapply upsert_many_def].
  - apply run_many_no_table in Hmany as [_ ->]; [|done]. by rewrite Ht.
Qed.
End upsert_refused.

(** X11. A frame with no rows is loaded at once: with the connection
    open, [load_data] executes no statement, commits, and logs that 0
    records were loaded; the cluster is as it was.  This does not depend
    on the table: it need not exist. *)
Theorem load_data_empty_batch `{Env} (w : world) (df : nat) (d : DataFrame) :
  heap w !! df = Some d →
  nrows d = 0 →
  pg_login (connection_parameters dbname) = true →
  is_Some (cluster w !! dbname) →
  ∃ w', load_data df w = (Ok tt, w') ∧
        cluster w' = cluster w ∧
        log w' = log w ++ [("INFO", "Successfully loaded 0 records into the database")].
Proof.
  intros Hdf Hrows Hlogin [d0 Hd0].
  rewrite (load_data_run _ _ _ _ Hlogin Hd0 Hdf).
  rewrite (values_tolist_empty _ Hrows).
  change (run_many (insert_query_of (columns d)) [] d0) with (Ok d0).
  eexists. split; [reflexivity|]. by split.
Qed.

Lemma load_data_empty_batch_witness :
  let E := sample.env [] sample.anyone sample.clean_batch in
  let w := set_heap [sample.nothing_ready] sample.with_train in
  table_at (cluster w) "train" shipments = None ∧
  ∃ w', load_data 0 w = (Ok tt, w') ∧ cluster w' = cluster w.
Proof.
  intros E w. split; [reflexivity|].
  destruct (@load_data_empty_batch E w 0 sample.nothing_ready)
    as (w' & Hrun & Hcl & _).
  - reflexivity.
  - reflexivity.
  - reflexivity.
  - by eexists.
  - exists w'. by split.
Defined.





(** ** The pipeline, run to its end *)

Section pipeline.
Context `{Env}.

(** [main] after a provisioning that went through. *)
Lemma main_after_provision (w w1 : world) :
  provision w = (Ok tt, w1) →
  main w
  = try_except
      (df ← pd_read_csv "shipments.csv";
       logging_info "Data extracted from CSV successfully";;
       df_transformed ← transform_data df;
       load_data df_transformed;;
       logging_info "ETL process completed successfully")
      (λ e, logging_error ("ETL process failed: " +:+ str e);; raise e) w1.
Proof.
  unfold provision, main, try_except. rewrite !run_bind.
  destruct (create_database w) as [[[]|e1] wa]; [|done].
  rewrite !run_bind.
  destruct (create_schema wa) as [[[]|e2] wb]; [|done].
  rewrite !run_bind.
  destruct (create_table wb) as [[[]|e3] wc]; [|done].
  by intros [= <-].
Qed.
End pipeline.

Section pipeline_runs.
Context `{Env}.

(** [main] on a file that passes validation and whose numeric columns
    are unambiguous after renaming, against a server that lets the
    script in. *)
Lemma main_run (w : world) (d : DataFrame) :
  pg_login (connection_parameters "postgres") = true →
  pg_login (connection_parameters dbname) = true →
  is_Some (cluster w !! "postgres") →
  csv_files "shipments.csv" = Ok d →
  validation d = Ok true →
  (∀ key, key ∈ numeric_columns → sole (pd.rename column_mapping d) key) →
  let d0 := provisioned_database (default new_database (cluster w !! dbname)) in
  ∃ w',
    match run_many (insert_query_of (columns (transformed d)))
            (pd.values_tolist (transformed d)) d0 with
    | Ok d1 =>
        main w = (Ok tt, w') ∧
        cluster w' = <[dbname := d1]> (cluster w) ∧
        last (log w') = Some ("INFO", "ETL process completed successfully")
    | Raise e =>
        main w = (Raise e, w') ∧
        cluster w' = <[dbname := d0]> (cluster w) ∧
        last (log w') = Some ("ERROR", "ETL process failed: " +:+ str e)
    end ∧
    heap w' = heap w ++ [d; coerce_columns numeric_columns (pd.rename column_mapping d);
                         transformed d].
Proof.
  intros Hboot Htarget Hpg Hcsv Hval Hsole d0.
  destruct (provision_run w Hboot Htarget Hpg) as (w1 & Hprov & Hcl1 & Hheap1 & _).
  fold d0 in Hcl1.
  rewrite (main_after_provision _ _ Hprov).
  unfold try_except. rewrite !run_bind.
  unfold pd_read_csv, alloc, logging_info at 1. rewrite Hcsv. msimpl.
  rewrite (transform_data_returns _ _ d); [|cbn; apply lookup_snoc|done|done].
  rewrite (load_data_run _ _ (transformed d) d0 Htarget).
  2:{ cbn. rewrite Hcl1. apply lookup_insert_eq. }
  2:{ cbn. apply lookup_snoc2. }
  destruct (run_many _ _ d0) as [d1|e] eqn:Hmany.
  - unfold logging_info. eexists. split.
    + split; [reflexivity|]. cbn. split; [|apply last_snoc].
      rewrite Hcl1. unfold committed.
      destruct (pd.values_tolist (transformed d)).
      * by injection Hmany as <-.
      * by rewrite insert_insert_eq.
    + cbn. by rewrite Hheap1, <- app_assoc.
  - unfold logging_error. msimpl. eexists. split.
    + split; [reflexivity|]. cbn. split; [done|apply last_snoc].
    + cbn. by rewrite Hheap1, <- app_assoc.
Qed.
End pipeline_runs.

(** X14. The pipeline on a good file.  The server lets the script in
    and has its bootstrap database; the file is well formed, has the
    required columns, ratings within 1 and 5 and flags 0 or 1, and no
    column labelled as a numeric target column.  Then [main] provisions
    the target database, reads and transforms the file, and the outcome
    is that of the upserts of the transformed records on the provisioned
    database: when they succeed, [main] returns and the cluster holds
    their result; when one is refused, [main] logs and raises that error
    and the target database is provisioned and otherwise as it was.  The
    three frames of the run are in memory. *)
Theorem main_runs_the_pipeline `{Env} (w : world) (d : DataFrame) :
  pg_login (connection_parameters "postgres") = true →
  pg_login (connection_parameters dbname) = true →
  is_Some (cluster w !! "postgres") →
  csv_files "shipments.csv" = Ok d →
  NoDup (columns d) →
  (∀ col, col ∈ required_columns → col ∈ columns d) →
  (∀ s v, ("Customer_rating", s) ∈ series d → v ∈ s → in_rating_range v) →
  (∀ s v, ("Reached.on.Time_Y.N", s) ∈ series d → v ∈ s → is_flag v) →
  (∀ t, t ∈ numeric_columns → t ∉ columns d) →
  let d0 := provisioned_database (default new_database (cluster w !! dbname)) in
  ∃ w',
    match run_many (insert_query_of (columns (transformed d)))
            (pd.values_tolist (transformed d)) d0 with
    | Ok d1 =>
        main w = (Ok tt, w') ∧
        cluster w' = <[dbname := d1]> (cluster w) ∧
        last (log w') = Some ("INFO", "ETL process completed successfully")
    | Raise e =>
        main w = (Raise e, w') ∧
        cluster w' = <[dbname := d0]> (cluster w) ∧
        last (log w') = Some ("ERROR", "ETL process failed: " +:+ str e)
    end ∧
    heap w' = heap w ++ [d; coerce_columns numeric_columns (pd.rename column_mapping d);
                         transformed d].
Proof.
  intros Hboot Htarget Hpg Hcsv Hnd Hreq Hrating Hflag Hfree.
  apply main_run; try done.
  - by apply validation_accepts.
  - by apply sole_after_rename.
Qed.

Lemma main_runs_the_pipeline_witness :
  let E := sample.env [] sample.anyone sample.clean_batch in
  ∃ w', main sample.fresh = (Ok tt, w') ∧
        last (log w') = Some ("INFO", "ETL process completed successfully") ∧
        length (heap w') = 3.
Proof.
  intros E.
  destruct (@main_runs_the_pipeline E sample.fresh sample.clean_batch)
    as (w' & Hrun & Hheap).
  - reflexivity.
  - reflexivity.
  - by eexists.
  - reflexivity.
  - apply (bool_decide_unpack _). vm_compute. exact I.
  - intros col Hcol. unfold required_columns in Hcol.
    in_cases Hcol; subst; vm_compute; in_list.
  - intros s v Hs Hv. vm_compute in Hs.
    in_cases Hs; try discriminate. injection Hs as ->.
    in_cases Hv; subst; eexists; (split; [reflexivity|lia]).
  - intros s v Hs Hv. vm_compute in Hs.
    in_cases Hs; try discriminate. injection Hs as ->.
    in_cases Hv; subst; [by right|by left].
  - intros t Ht. unfold numeric_columns in Ht.
    in_cases Ht; subst; apply (bool_decide_unpack _); vm_compute; exact I.
  - destruct (run_many _ _ _) as [d1|e] eqn:Hmany;
      [|exfalso; vm_compute in Hmany; discriminate].
    destruct Hrun as (Hrun & _ & Hlog).
    exists w'. split; [exact Hrun|]. split; [exact Hlog|]. by rewrite Hheap.
Defined.

(** X15. The pipeline without its file.  When reading the file raises,
    after a provisioning that went through, [main] logs that error as
    the failure of the run and raises it; no frame is made, and the
    target database is provisioned and otherwise as it was. *)
Theorem main_fails_without_file `{Env} (w : world) (e : exn) :
  pg_login (connection_parameters "postgres") = true →
  pg_login (connection_parameters dbname) = true →
  is_Some (cluster w !! "postgres") →
  csv_files "shipments.csv" = Raise e →
  ∃ w', main w = (Raise e, w') ∧
        heap w' = heap w ∧
        cluster w'
        = <[dbname := provisioned_database (default new_database (cluster w !! dbname))]>
            (cluster w) ∧
        last (log w') = Some ("ERROR", "ETL process failed: " +:+ str e).
Proof.
  intros Hboot Htarget Hpg Hcsv.
  destruct (provision_run w Hboot Htarget Hpg) as (w1 & Hprov & Hcl1 & Hheap1 & _).
  rewrite (main_after_provision _ _ Hprov).
  unfold try_except. rewrite !run_bind.
  unfold pd_read_csv, logging_error. rewrite Hcsv. msimpl.
  eexists. split; [reflexivity|]. cbn. split; [done|]. split; [done|apply last_snoc].
Qed.

Lemma main_fails_without_file_witness :
  let E := mkEnv ∅ sample.parse_decimal
             (λ _, Raise (OSError "No such file or directory"))
             sample.anyone sample.assign 1700000000 in
  ∃ w', main sample.fresh = (Raise (OSError "No such file or directory"), w') ∧
        heap w' = [].
Proof.
  intros E.
  destruct (@main_fails_without_file E sample.fresh (OSError "No such file or directory"))
    as (w' & Hrun & Hheap & _).
  - reflexivity.
  - reflexivity.
  - by eexists.
  - reflexivity.
  - exists w'. by split.
Defined.

(** ** A second load, a second run *)

(** The last record of a key, if a record has it. *)
Lemma last_with {A} (P : A → Prop) `{!∀ a, Decision (P a)} (l : list A) :
  (∀ a, a ∈ l → ¬ P a) ∨
  ∃ i a, l !! i = Some a ∧ P a ∧ ∀ j b, i < j → l !! j = Some b → ¬ P b.
Proof.
  induction l as [|x l IH]; [left; by intros a Ha%elem_of_nil|].
  destruct IH as [Hnone|(i & a & Hi & Ha & Hlast)].
  - destruct (decide (P x)) as [Hx|Hx].
    + right. exists 0, x. split; [done|]. split; [done|].
      intros [|j] b Hj Hb; [lia|]. cbn in Hb. apply Hnone.
      by eapply list_elem_of_lookup_2.
    + left. intros a Ha. apply elem_of_cons in Ha as [->|Ha]; auto.
  - right. exists (S i), a. split; [done|]. split; [done|].
    intros [|j] b Hj Hb; [lia|]. cbn in Hb. apply (Hlast j); [lia|done].
Qed.

(** The constraints hold of a row updated from two rows of which they
    hold. *)
Lemma checks_hold_assign (def : table_def) (cs : list string)
    (excluded old : gmap string value) :
  checks_hold def excluded = true → checks_hold def old = true →
  checks_hold def (assign_excluded cs excluded old) = true.
Proof.
  unfold checks_hold. rewrite !forallb_forall. intros Hex Hold col Hcol.
  specialize (Hex col Hcol). specialize (Hold col Hcol).
  destruct (col_check col) as [ck|]; [|done].
  rewrite assign_excluded_lookup. by case_bool_decide.
Qed.

Section second_load.
Context `{Env}.

(** One upsert that succeeds: the row it stores satisfies the
    constraints of the table. *)
Lemma upsert_row_checked (t t' : table) (q : upsert_query) (record : list value) :
  upsert_row t q record = Ok t' →
  ∃ k row, record_key (tdef t) (ins_columns q) record = Some k ∧
           tdef t' = tdef t ∧
           trows t' = <[k := row]> (trows t) ∧
           checks_hold (tdef t) row = true.
Proof.
  unfold upsert_row. intros Hup.
  destruct (bool_decide (length record = placeholders q)); cbn [negb] in Hup; [|done].
  destruct (bool_decide (set_columns q = [])); [done|].
  destruct (bool_decide (length (ins_columns q) = placeholders q));
    cbn [negb] in Hup; [|done].
  destruct (forallb _ _); cbn [negb] in Hup; [|done].
  destruct (bool_decide (NoDup (ins_columns q))); cbn [negb] in Hup; [|done].
  destruct (bool_decide (conflict_target q = tpkey (tdef t))); cbn [negb] in Hup; [|done].
  destruct (proposed_row _ _ _) as [excluded|] eqn:Hrow; [|done].
  destruct (excluded !! tpkey (tdef t)) as [[k| |]|] eqn:Hk; try done.
  destruct (checks_hold (tdef t) excluded) eqn:Hex; cbn [negb] in Hup; [|done].
  exists k. unfold record_key. rewrite Hrow, Hk.
  destruct (trows t !! k) as [old|].
  - destruct (checks_hold (tdef t) (assign_excluded _ _ _)) eqn:Hnew;
      cbn [negb] in Hup; [|done].
    injection Hup as <-. by eexists.
  - injection Hup as <-. by eexists.
Qed.

(** An upsert that succeeded on a table succeeds on any table of the
    same definition that holds, under the key of the record, a row
    that satisfies the constraints. *)
Lemma upsert_row_again (t t' ta : table) (q : upsert_query) (record : list value) :
  upsert_row t q record = Ok ta →
  tdef t' = tdef t →
  (∀ k, record_key (tdef t) (ins_columns q) record = Some k →
     ∃ row, trows t' !! k = Some row ∧ checks_hold (tdef t) row = true) →
  ∃ tb, upsert_row t' q record = Ok tb.
Proof.
  unfold upsert_row, record_key. intros Hup Hdef Hrow'. rewrite Hdef.
  destruct (bool_decide (length record = placeholders q)); cbn [negb] in *; [|done].
  destruct (bool_decide (set_columns q = [])); [done|].
  destruct (bool_decide (length (ins_columns q) = placeholders q));
    cbn [negb] in *; [|done].
  destruct (forallb _ _); cbn [negb] in *; [|done].
  destruct (bool_decide (NoDup (ins_columns q))); cbn [negb] in *; [|done].
  destruct (bool_decide (conflict_target q = tpkey (tdef t))); cbn [negb] in *; [|done].
  destruct (proposed_row _ _ _) as [excluded|] eqn:Hrow; [|done].
  destruct (excluded !! tpkey (tdef t)) as [[k| |]|] eqn:Hk; try done.
  destruct (checks_hold (tdef t) excluded) eqn:Hex; cbn [negb] in *; [|done].
  destruct (Hrow' k eq_refl) as (row & -> & Hchecks).
  rewrite (checks_hold_assign _ _ _ _ Hex Hchecks). cbn [negb]. by eexists.
Qed.

(** After the upserts of a batch, the row under the key of any of its
    records satisfies the constraints, as does any row that did and is
    still there. *)
Lemma upsert_many_checked (q : upsert_query) (records : list (list value)) (k : Z) :
  ∀ t t', upsert_many t q records = Ok t' →
    (∃ row, trows t !! k = Some row ∧ checks_hold (tdef t) row = true) ∨
    (∃ r, r ∈ records ∧ record_key (tdef t) (ins_columns q) r = Some k) →
    ∃ row, trows t' !! k = Some row ∧ checks_hold (tdef t) row = true.
Proof.
  induction records as [|r0 records IH]; intros t t' Hmany Hk; cbn in Hmany.
  - injection Hmany as <-. destruct Hk as [?|(r & Hr & _)]; [done|].
    by apply elem_of_nil in Hr.
  - destruct (upsert_row t q r0) as [t1|] eqn:Hrow; [|done].
    apply upsert_row_checked in Hrow as (k0 & row0 & Hk0 & Hdef & Hrows & Hchecks).
    rewrite <- Hdef. apply (IH t1 t' Hmany). rewrite Hdef, Hrows.
    destruct (decide (k0 = k)) as [->|Hne].
    + left. exists row0. by rewrite lookup_insert_eq.
    + rewrite lookup_insert_ne by done.
      destruct Hk as [?|(r & Hr & Hkey)]; [by left|].
      apply elem_of_cons in Hr as [->|Hr]; [congruence|].
      right. by exists r.
Qed.

(** The upserts of a batch that succeeded succeed on any table of the
    same definition that holds, under the key of every record, a row
    that satisfies the constraints. *)
Lemma upsert_many_succeeds_again (q : upsert_query) (records : list (list value)) :
  ∀ t t1 t', upsert_many t q records = Ok t1 →
    tdef t' = tdef t →
    (∀ r k, r ∈ records → record_key (tdef t) (ins_columns q) r = Some k →
       ∃ row, trows t' !! k = Some row ∧ checks_hold (tdef t) row = true) →
    ∃ t2, upsert_many t' q records = Ok t2.
Proof.
  induction records as [|r0 records IH]; intros t t1 t' Hmany Hdef Hrows; cbn in Hmany.
  - by exists t'.
  - destruct (upsert_row t q r0) as [ta|] eqn:Hrow; [|done].
    destruct (upsert_row_again t t' ta q r0 Hrow Hdef) as [tb Hrow'].
    { intros k Hk. apply (Hrows r0 k); [by left|done]. }
    cbn. rewrite Hrow'.
    pose proof Hrow as (_ & _ & _ & _ & Hdefa & _)%upsert_row_inv.
    pose proof Hrow' as (kb & rowb & Hkb & Hdefb & Hrowsb & Hchecksb)%upsert_row_checked.
    apply (IH ta t1 tb Hmany); [congruence|].
    intros r k Hr Hk. rewrite Hdefa in *. rewrite Hrowsb.
    rewrite Hdef in Hkb, Hchecksb.
    destruct (decide (kb = k)) as [->|Hne].
    + exists rowb. by rewrite lookup_insert_eq.
    + rewrite lookup_insert_ne by done. apply (Hrows r k); [by right|done].
Qed.

(** The upserts of a batch, executed once more on their result, leave
    it as it is. *)
Lemma upsert_many_again (q : upsert_query) (records : list (list value))
    (t t1 : table) :
  upsert_many t q records = Ok t1 → upsert_many t1 q records = Ok t1.
Proof.
  intros Hmany.
  pose proof (upsert_many_def _ _ _ _ Hmany) as Hdef.
  destruct (upsert_many_succeeds_again q records t t1 t1 Hmany Hdef) as [t2 Hagain].
  { intros r k Hr Hk. apply (upsert_many_checked q records k t t1 Hmany).
    right. by exists r. }
  rewrite Hagain. f_equal.
  pose proof (upsert_many_def _ _ _ _ Hagain) as Hdef2.
  assert (trows t2 = trows t1) as Hrows; [|destruct t1, t2; cbn in *; congruence].
  apply map_eq. intros k.
  destruct (last_with (λ r, record_key (tdef t) (ins_columns q) r = Some k) records)
    as [Hnone|(i & r & Hi & Hkey & Hlast)].
  - apply (upsert_many_other q records k t1 t2 Hagain).
    intros r Hr. rewrite Hdef. by apply Hnone.
  - destruct (upsert_many_latest q records k t t1 i r Hmany Hi Hkey Hlast)
      as (ex & new1 & Hex & Hnew1 & Hset1).
    rewrite <- Hdef in Hkey, Hlast.
    destruct (upsert_many_latest q records k t1 t2 i r Hagain Hi Hkey Hlast)
      as (ex' & new2 & Hex' & Hnew2 & Hset2).
    rewrite Hdef in Hex'. assert (ex' = ex) as -> by congruence.
    destruct (upsert_many_keeps q records k t1 t2 new1 Hagain Hnew1)
      as (new2' & Hnew2' & Hkeep).
    assert (new2' = new2) as -> by congruence.
    rewrite Hnew2, Hnew1. f_equal. apply map_eq. intros c.
    destruct (decide (c ∈ set_columns q)) as [Hc|Hc].
    + destruct (Hset1 c Hc) as [-> _]. by destruct (Hset2 c Hc) as [-> _].
    + by apply Hkeep.
Qed.

Lemma run_many_again (q : upsert_query) (records : list (list value))
    (d d1 : database) :
  run_many q records d = Ok d1 → run_many q records d1 = Ok d1.
Proof.
  intros Hmany. destruct (tables d !! into q) as [t|] eqn:Ht.
  - rewrite (run_many_table _ _ _ _ Ht) in Hmany.
    destruct (upsert_many t q records) as [t1|] eqn:Hup; [|done].
    injection Hmany as <-.
    rewrite (run_many_table _ _ _ t1) by apply lookup_insert_eq.
    rewrite (upsert_many_again _ _ _ _ Hup). cbn. by rewrite insert_insert_eq.
  - by apply run_many_no_table in Hmany as [-> ->].
Qed.

(** A load that succeeds: the connection was made, and the cluster
    holds the result of the upserts. *)
Lemma load_data_ok_inv (w w1 : world) (df : nat) (fr : DataFrame) :
  heap w !! df = Some fr →
  load_data df w = (Ok tt, w1) →
  pg_login (connection_parameters dbname) = true ∧
  heap w1 = heap w ∧
  ∃ d0 d1, cluster w !! dbname = Some d0 ∧
           run_many (insert_query_of (columns fr)) (pd.values_tolist fr) d0 = Ok d1 ∧
           cluster w1 = <[dbname := d1]> (cluster w).
Proof.
  intros Hdf Hrun.
  destruct (load_data_connects _ _ _ Hrun) as [Hlogin [d0 Hd0]].
  rewrite (load_data_run _ _ _ _ Hlogin Hd0 Hdf) in Hrun.
  destruct (run_many _ _ d0) as [d1|] eqn:Hmany; [|done].
  injection Hrun as <-. do 2 (split; [done|]).
  exists d0, d1. do 2 (split; [done|]). cbn. unfold committed.
  destruct (pd.values_tolist fr); [|done].
  injection Hmany as <-. by rewrite insert_id.
Qed.

(** The provisioned database with a batch loaded is provisioned. *)
Lemma provisioned_loaded (q : upsert_query) (records : list (list value))
    (d d1 : database) :
  into q = shipments →
  run_many q records (provisioned_database d) = Ok d1 →
  provisioned_database d1 = d1.
Proof.
  intros Hinto Hmany.
  apply run_many_frame in Hmany as (Hsch & _ & Hthis). rewrite Hinto in Hthis.
  unfold provisioned_database at 1 in Hthis.
  destruct (with_shipments_has (mkDatabase ({["warehouse"]} ∪ schemas d) (tables d)))
    as [t Ht].
  rewrite Ht in Hthis. destruct Hthis as (t' & Ht' & _).
  unfold provisioned_database in Hsch. rewrite with_shipments_schemas in Hsch.
  cbn in Hsch.
  unfold provisioned_database, with_shipments. cbn. rewrite Ht'.
  destruct d1 as [s1 t1]. cbn in *. f_equal. rewrite Hsch.
  by rewrite (assoc_L (∪)), union_idemp_L.
Qed.
End second_load.

(** X16. Loading twice is loading once.  After a load that succeeded,
    a second load of the same frame succeeds as well, and leaves the
    cluster exactly as the first left it: the same rows, with the same
    values in every column.  (Both loads read the same clock [now]; the
    columns the statement sets take their values from the frame, and
    the others are kept.) *)
Theorem load_data_twice_as_once `{Env} (w w1 : world) (df : nat) (d : DataFrame) :
  heap w !! df = Some d →
  load_data df w = (Ok tt, w1) →
  ∃ w2, load_data df w1 = (Ok tt, w2) ∧ cluster w2 = cluster w1.
Proof.
  intros Hdf Hrun.
  destruct (load_data_ok_inv _ _ _ _ Hdf Hrun)
    as (Hlogin & Hheap & d0 & d1 & Hd0 & Hmany & Hcl).
  assert (cluster w1 !! dbname = Some d1) as Hd1 by (rewrite Hcl; apply lookup_insert_eq).
  rewrite <- Hheap in Hdf.
  rewrite (load_data_run _ _ _ _ Hlogin Hd1 Hdf).
  rewrite (run_many_again _ _ _ _ Hmany).
  eexists. split; [reflexivity|]. cbn. unfold committed.
  destruct (pd.values_tolist d); [done|]. by apply insert_id.
Qed.

Lemma load_data_twice_as_once_witness :
  let E := sample.env [] sample.anyone sample.clean_batch in
  let w := sample.provisioned [sample.ready] in
  let w1 := (load_data 0 w).2 in
  size (stored_rows (cluster w1) dbname shipments) = 2 ∧
  ∃ w2, load_data 0 w1 = (Ok tt, w2) ∧ cluster w2 = cluster w1.
Proof.
  intros E w w1.
  assert (load_data 0 w = (Ok tt, w1)) as Hrun by (vm_compute; reflexivity).
  assert (size (stored_rows (cluster w1) dbname shipments) = 2) as Hsize
    by (vm_compute; reflexivity).
  clearbody w1. split; [exact Hsize|].
  exact (@load_data_twice_as_once E w w1 0 sample.ready eq_refl Hrun).
Defined.

(** X17. Running the pipeline twice is running it once.  Against a
    server that lets the script in and has its bootstrap database, and
    on a file as the pipeline accepts it, a run of [main] that
    succeeded is followed by a second run on the same file that
    succeeds as well and leaves the cluster exactly as the first left
    it.  (Both runs read the same clock [now].) *)
Theorem main_twice_as_once `{Env} (w w1 : world) (d : DataFrame) :
  pg_login (connection_parameters "postgres") = true →
  pg_login (connection_parameters dbname) = true →
  is_Some (cluster w !! "postgres") →
  csv_files "shipments.csv" = Ok d →
  NoDup (columns d) →
  (∀ col, col ∈ required_columns → col ∈ columns d) →
  (∀ s v, ("Customer_rating", s) ∈ series d → v ∈ s → in_rating_range v) →
  (∀ s v, ("Reached.on.Time_Y.N", s) ∈ series d → v ∈ s → is_flag v) →
  (∀ t, t ∈ numeric_columns → t ∉ columns d) →
  main w = (Ok tt, w1) →
  ∃ w2, main w1 = (Ok tt, w2) ∧ cluster w2 = cluster w1.
Proof.
  intros Hboot Htarget Hpg Hcsv Hnd Hreq Hrating Hflag Hfree Hrun.
  pose proof (validation_accepts d Hnd Hreq Hrating Hflag) as Hval.
  pose proof (sole_after_rename d Hnd Hreq Hfree) as Hsole.
  destruct (main_run w d Hboot Htarget Hpg Hcsv Hval Hsole) as (w' & Hfirst & _).
  destruct (run_many _ _ _) as [d1|e] eqn:Hmany.
  2:{ destruct Hfirst as (Hfirst & _). congruence. }
  destruct Hfirst as (Hfirst & Hcl & _).
  assert (w' = w1) as -> by congruence.
  assert (is_Some (cluster w1 !! "postgres")) as Hpg1.
  { rewrite Hcl. destruct (decide (dbname = "postgres")) as [->|Hne].
    - by rewrite lookup_insert_eq.
    - by rewrite lookup_insert_ne. }
  destruct (main_run w1 d Hboot Htarget Hpg1 Hcsv Hval Hsole) as (w2 & Hsecond & _).
  rewrite Hcl, lookup_insert_eq in Hsecond.
  change (default new_database (Some d1)) with d1 in Hsecond.
  rewrite (provisioned_loaded (insert_query_of (columns (transformed d))) _ _ _
             eq_refl Hmany) in Hsecond.
  rewrite (run_many_again _ _ _ _ Hmany) in Hsecond.
  destruct Hsecond as (Hsecond & Hcl2 & _).
  exists w2. split; [done|]. by rewrite Hcl2, insert_insert_eq.
Qed.

Lemma main_twice_as_once_witness :
  let E := sample.env [] sample.anyone sample.clean_batch in
  let w1 := (main sample.fresh).2 in
  size (stored_rows (cluster w1) dbname shipments) = 2 ∧
  ∃ w2, main w1 = (Ok tt, w2) ∧ cluster w2 = cluster w1.
Proof.
  intros E.
  pose proof (λ w1, @main_twice_as_once E sample.fresh w1 sample.clean_batch
                      eq_refl eq_refl (ex_intro _ new_database eq_refl) eq_refl) as Htwice.
  assert (NoDup (columns sample.clean_batch)) as Hnd
    by (apply (bool_decide_unpack _); vm_compute; exact I).
  assert (∀ col, col ∈ required_columns → col ∈ columns sample.clean_batch) as Hreq.
  { intros col Hcol. unfold required_columns in Hcol.
    in_cases Hcol; subst; vm_compute; in_list. }
  assert (∀ s v, ("Customer_rating", s) ∈ series sample.clean_batch → v ∈ s →
                 in_rating_range v) as Hrating.
  { intros s v Hs Hv. vm_compute in Hs.
    in_cases Hs; try discriminate. injection Hs as ->.
    in_cases Hv; subst; eexists; (split; [reflexivity|lia]). }
  assert (∀ s v, ("Reached.on.Time_Y.N", s) ∈ series sample.clean_batch → v ∈ s →
                 is_flag v) as Hflag.
  { intros s v Hs Hv. vm_compute in Hs.
    in_cases Hs; try discriminate. injection Hs as ->.
    in_cases Hv; subst; [by right|by left]. }
  assert (∀ t, t ∈ numeric_columns → t ∉ columns sample.clean_batch) as Hfree.
  { intros t Ht. unfold numeric_columns in Ht.
    in_cases Ht; subst; apply (bool_decide_unpack _); vm_compute; exact I. }
  specialize (λ w1, Htwice w1 Hnd Hreq Hrating Hflag Hfree).
  clear Hnd Hreq Hrating Hflag Hfree.
  intros w1.
  assert (main sample.fresh = (Ok tt, w1)) as Hrun by (vm_compute; reflexivity).
  assert (size (stored_rows (cluster w1) dbname shipments) = 2) as Hsize
    by (vm_compute; reflexivity).
  clearbody w1. split; [exact Hsize|].
  exact (Htwice w1 Hrun).
Defined.

(** X18. [transform_data] passes on the verdict of the validator: on a
    frame that [validate_data] refuses it raises the same error, after
    logging it once, and makes no copy: the frames in memory are those
    there were. *)
Theorem transform_data_passes_on_rejection `{Env} (w : world) (df : nat)
    (d : DataFrame) (e : exn) :
  heap w !! df = Some d →
  validate_data df w = (Raise e, w) →
  ∃ w', transform_data df w = (Raise e, w') ∧
        heap w' = heap w ∧
        log w' = log w ++ [("ERROR", "Error in transform_data: " +:+ str e)].
Proof.
  intros Hdf Hvalid.
  rewrite (validate_data_run _ _ _ Hdf) in Hvalid.
  assert (validation d = Raise e) as Hval by congruence.
  rewrite (transform_data_rejects _ _ _ _ Hdf Hval).
  eexists. split; [reflexivity|]. by split.
Qed.

Lemma transform_data_passes_on_rejection_witness :
  let E := sample.env [] sample.anyone sample.clean_batch in
  ∃ w', transform_data 0 (sample.holding sample.batch_bad_rating)
        = (Raise (AssertionError "Invalid customer ratings"), w') ∧
        heap w' = [sample.batch_bad_rating] ∧
        log w' = [("ERROR", "Error in transform_data: Invalid customer ratings")].
Proof.
  intros E.
  apply (@transform_data_passes_on_rejection E (sample.holding sample.batch_bad_rating) 0
           sample.batch_bad_rating (AssertionError "Invalid customer ratings"));
    reflexivity.
Defined.

(** X19. A run stops at the provisioning step that fails.  When one of
    the three steps raises, [main] logs that error as the failure of
    the run and raises it; the file is not read, no frame is made, and
    no row of any table is changed. *)
Theorem main_stops_when_provisioning_fails `{Env} (w w1 : world) (e : exn) :
  provision w = (Raise e, w1) →
  main w = (Raise e, set_log (log w1 ++ [("ERROR", "ETL process failed: " +:+ str e)]) w1) ∧
  heap w1 = heap w ∧
  ∀ db name, stored_rows (cluster w1) db name = stored_rows (cluster w) db name.
Proof.
  unfold provision, main, try_except. rewrite !run_bind.
  destruct (create_database w) as [r1 wa] eqn:H1.
  pose proof (create_database_keeps _ _ _ H1) as [Hrows1 Hheap1].
  destruct r1 as [[]|e1].
  2:{ intros [= <- <-]. unfold logging_error. msimpl. by split. }
  rewrite !run_bind.
  destruct (create_schema wa) as [r2 wb] eqn:H2.
  pose proof (create_schema_keeps _ _ _ H2) as [Hrows2 Hheap2].
  pose proof (same_rows_trans _ _ _ Hrows1 Hrows2) as Hrows12.
  destruct r2 as [[]|e2].
  2:{ intros [= <- <-]. unfold logging_error. msimpl.
      split; [done|]. split; [congruence|done]. }
  rewrite !run_bind.
  destruct (create_table wb) as [r3 wc] eqn:H3.
  pose proof (create_table_keeps _ _ _ H3) as [Hrows3 Hheap3].
  pose proof (same_rows_trans _ _ _ Hrows12 Hrows3) as Hrows123.
  destruct r3 as [[]|e3]; [done|].
  intros [= <- <-]. unfold logging_error. msimpl.
  split; [done|]. split; [congruence|done].
Qed.

Lemma main_stops_when_provisioning_fails_witness :
  let E := sample.env [] sample.on_port_6543 sample.clean_batch in
  (main sample.fresh).1 = Raise (UnboundLocalError "cur") ∧
  heap (main sample.fresh).2 = [].
Proof.
  intros E.
  destruct (provision sample.fresh) as [r w1] eqn:Hprov.
  assert (r = Raise (UnboundLocalError "cur")) as ->
    by (vm_compute in Hprov; by injection Hprov as <- _).
  destruct (@main_stops_when_provisioning_fails E sample.fresh w1 _ Hprov)
    as (-> & Hheap & _).
  split; [reflexivity|]. exact Hheap.
Defined.

(** X20. The validator accepts valid frames only, and never answers
    no.  When [validate_data] returns, it returns [True] and has
    changed nothing, and the frame has the twelve required columns,
    every rating within 1 and 5 and every on-time flag 0 or 1; on any
    other frame it raises. *)
Theorem validate_data_accepts_only_valid (w w' : world) (df : nat) (d : DataFrame)
    (b : bool) :
  heap w !! df = Some d →
  validate_data df w = (Ok b, w') →
  b = true ∧ w' = w ∧
  (∀ col, col ∈ required_columns → col ∈ columns d) ∧
  (∀ s v, ("Customer_rating", s) ∈ series d → v ∈ s → in_rating_range v) ∧
  (∀ s v, ("Reached.on.Time_Y.N", s) ∈ series d → v ∈ s → is_flag v).
Proof.
  intros Hdf. rewrite (validate_data_run _ _ _ Hdf). intros [= Hval <-].
  pose proof (validation_ok_true _ _ Hval) as ->.
  destruct (validation_ok_inv _ Hval) as (Hreq & rating & flag & Hr & Hf & Hrange & Hflag).
  do 3 (split; [done|]).
  assert (∀ key c s, List.filter (pd.labelled key) (series d) = [c] →
            (key, s) ∈ series d → s = c.2) as Hsole.
  { intros key c s Hc Hs.
    assert ((key, s) ∈ List.filter (pd.labelled key) (series d)) as Hin.
    { apply elem_of_filter_bool. split; [done|].
      unfold pd.labelled. by apply bool_decide_eq_true_2. }
    rewrite Hc in Hin. by apply list_elem_of_singleton in Hin as <-. }
  split.
  - intros s v Hs Hv. rewrite (Hsole _ _ _ Hr Hs) in Hv. by apply Hrange.
  - intros s v Hs Hv. rewrite (Hsole _ _ _ Hf Hs) in Hv. by apply Hflag.
Qed.

Lemma validate_data_accepts_only_valid_witness :
  validate_data 0 (sample.holding sample.clean_batch)
  = (Ok true, sample.holding sample.clean_batch) ∧
  "Gender" ∈ columns sample.clean_batch ∧
  in_rating_range (VInt 5).
Proof.
  split; [reflexivity|].
  destruct (validate_data_accepts_only_valid (sample.holding sample.clean_batch)
              (sample.holding sample.clean_batch) 0 sample.clean_batch true)
    as (_ & _ & Hreq & Hrange & _); [reflexivity..|].
  split.
  - apply Hreq. unfold required_columns. in_list.
  - apply (Hrange [VInt 2; VInt 5]); [vm_compute|]; in_list.
Defined.

(** X21. A file with a header and no shipment goes through.  Against a
    server that lets the script in, on a well-formed file with the
    required columns, no column labelled as a numeric target column and
    no row, [main] returns, and leaves the target database provisioned
    and otherwise as it was. *)
Theorem main_on_header_only_file `{Env} (w : world) (d : DataFrame) :
  pg_login (connection_parameters "postgres") = true →
  pg_login (connection_parameters dbname) = true →
  is_Some (cluster w !! "postgres") →
  csv_files "shipments.csv" = Ok d →
  NoDup (columns d) →
  (∀ col, col ∈ required_columns → col ∈ columns d) →
  (∀ t, t ∈ numeric_columns → t ∉ columns d) →
  nrows d = 0 →
  (∀ l s, (l, s) ∈ series d → s = []) →
  ∃ w', main w = (Ok tt, w') ∧
        cluster w'
        = <[dbname := provisioned_database (default new_database (cluster w !! dbname))]>
            (cluster w).
Proof.
  intros Hboot Htarget Hpg Hcsv Hnd Hreq Hfree Hrows Hempty.
  assert (validation d = Ok true) as Hval.
  { apply validation_accepts; [done..| |].
    - intros s v Hs Hv. rewrite (Hempty _ _ Hs) in Hv. by apply elem_of_nil in Hv.
    - intros s v Hs Hv. rewrite (Hempty _ _ Hs) in Hv. by apply elem_of_nil in Hv. }
  pose proof (sole_after_rename d Hnd Hreq Hfree) as Hsole.
  destruct (main_run w d Hboot Htarget Hpg Hcsv Hval Hsole) as (w' & Hmain & _).
  rewrite (values_tolist_empty (transformed d) Hrows) in Hmain.
  destruct (run_many _ _ _) as [d1|e] eqn:Hmany; [|done].
  injection Hmany as <-. destruct Hmain as (Hmain & Hcl & _).
  by exists w'.
Qed.

Lemma main_on_header_only_file_witness :
  let E := sample.env [] sample.anyone sample.header_only in
  ∃ w', main sample.fresh = (Ok tt, w') ∧
        stored_rows (cluster w') "train" shipments = ∅.
Proof.
  intros E.
  destruct (@main_on_header_only_file E sample.fresh sample.header_only)
    as (w' & Hrun & Hcl).
  - reflexivity.
  - reflexivity.
  - by eexists.
  - reflexivity.
  - apply (bool_decide_unpack _). vm_compute. exact I.
  - intros col Hcol. unfold required_columns in Hcol.
    in_cases Hcol; subst; vm_compute; in_list.
  - intros t Ht. unfold numeric_columns in Ht.
    in_cases Ht; subst; apply (bool_decide_unpack _); vm_compute; exact I.
  - reflexivity.
  - intros l s Hls. vm_compute in Hls. in_cases Hls; by injection Hls as _ ->.
  - exists w'. split; [exact Hrun|]. rewrite Hcl. reflexivity.
Defined.
